(** * Data_Validator: the validation engine, embedded and verified

    A shallow embedding of the Python package [validator]:
    the validator contract ([base.py]), the registry ([registry.py]), the
    five built-in validators ([validators/*.py]), the configuration loader
    ([config_loader.py]) and the pipeline ([pipeline.py]).

    Python raises exceptions; here every fallible operation returns a
    [result], and a [for] loop that appends to [failed_details] is a
    traversal threading the accumulated list.  What the interpreter and
    pandas supply (IEEE floats, [float()], [re], [pd.to_datetime]) is the
    interface [PyRuntime]; the engine is written once over it.  Wall-clock
    durations ([time.perf_counter]) and logging are left out. *)

From Stdlib Require Import ZArith QArith Strings.String Strings.Ascii.
From Stdlib Require Import Numbers.DecimalString List Bool Lia PeanoNat.
From Stdlib Require Import Sorting.Mergesort Sorting.Sorted Sorting.Permutation.
Import ListNotations.

Close Scope Q_scope.
Open Scope list_scope.
Open Scope string_scope.

(* ================================================================== *)
(** * Exceptions and fallible computations *)
(* ================================================================== *)

(** [exceptions.py] declares the first two; the others are the built-in
    exceptions the engine raises or lets through. *)
Inductive exn : Type :=
| InvalidConfigError (msg : string)
| UnknownValidatorError (msg : string)
| ValueError (msg : string)
| KeyError (msg : string)
| TypeError (msg : string)
| OverflowError (msg : string).

(** [str(e)] *)
Definition exn_msg (e : exn) : string :=
  match e with
  | InvalidConfigError m | UnknownValidatorError m | ValueError m
  | KeyError m | TypeError m | OverflowError m => m
  end.

Definition is_InvalidConfigError (e : exn) : bool :=
  match e with InvalidConfigError _ => true | _ => false end.

Definition is_UnknownValidatorError (e : exn) : bool :=
  match e with UnknownValidatorError _ => true | _ => false end.

Inductive result (A : Type) : Type :=
| Ok (a : A)
| Raise (e : exn).
Arguments Ok {A} a.
Arguments Raise {A} e.

Definition bind {A B : Type} (c : result A) (k : A -> result B) : result B :=
  match c with
  | Ok a => k a
  | Raise e => Raise e
  end.

Notation "x <- c ;; k" := (bind c (fun x => k))
  (at level 61, c at next level, right associativity).

Definition is_ok {A : Type} (c : result A) : bool :=
  match c with Ok _ => true | Raise _ => false end.

(** A field of the value a computation returns, if it returns. *)
Definition result_field {A B : Type} (f : A -> B) (c : result A) : option B :=
  match c with Ok a => Some (f a) | Raise _ => None end.

(* ================================================================== *)
(** * Strings and formatting *)
(* ================================================================== *)

(** [f"{n}"] for an [int] *)
Definition str_of_Z (z : Z) : string := NilZero.string_of_int (Z.to_int z).
Definition str_of_nat (n : nat) : string := NilZero.string_of_uint (Nat.to_uint n).

Definition newline : string := String (ascii_of_nat 10) EmptyString.

Fixpoint join (sep : string) (l : list string) : string :=
  match l with
  | [] => EmptyString
  | [s] => s
  | s :: rest => s ++ sep ++ join sep rest
  end.

Definition str_in (s : string) (l : list string) : bool :=
  existsb (String.eqb s) l.

(* ================================================================== *)
(** * Python dictionaries

    A [dict] keeps insertion order, and the loader's loops depend on it
    (the first offending parameter is the one reported), so a dictionary
    is an association list; lookup takes the first binding of a key and
    assignment to a bound key keeps its position. *)
(* ================================================================== *)

Definition dict (V : Type) : Type := list (string * V).

Fixpoint dict_get {V : Type} (d : dict V) (k : string) : option V :=
  match d with
  | [] => None
  | (k', v) :: rest => if String.eqb k k' then Some v else dict_get rest k
  end.

(** [k in d] *)
Definition dict_mem {V : Type} (d : dict V) (k : string) : bool :=
  match dict_get d k with Some _ => true | None => false end.

(** [d[k] = v] *)
Fixpoint dict_set {V : Type} (d : dict V) (k : string) (v : V) : dict V :=
  match d with
  | [] => [(k, v)]
  | (k', v') :: rest =>
      if String.eqb k k' then (k', v) :: rest else (k', v') :: dict_set rest k v
  end.

Definition dict_keys {V : Type} (d : dict V) : list string := map fst d.

(* ================================================================== *)
(** * The Python runtime the engine runs on *)
(* ================================================================== *)

(** Outcome of an ordering comparison of two numbers: IEEE comparisons
    involving NaN are unordered, and every one of [<], [<=], [>], [>=]
    is then false. *)
Inductive pycmp : Type := CmpLt | CmpEq | CmpGt | CmpUnordered.

Definition cmp_lt (c : pycmp) : bool := match c with CmpLt => true | _ => false end.
Definition cmp_le (c : pycmp) : bool :=
  match c with CmpLt | CmpEq => true | _ => false end.
Definition cmp_gt (c : pycmp) : bool := match c with CmpGt => true | _ => false end.
Definition cmp_ge (c : pycmp) : bool :=
  match c with CmpGt | CmpEq => true | _ => false end.
Definition cmp_eq (c : pycmp) : bool := match c with CmpEq => true | _ => false end.

(** A value held in a DataFrame cell, as [Series.items()] yields it:
    [None]/[pd.NA], [bool], [int], [float] (NaN included), [str], or a
    [pd.Timestamp] (NaT included).  [F] and [T] are the carriers of
    floats and timestamps. *)
Inductive cell (F T : Type) : Type :=
| CNone
| CBool (b : bool)
| CInt (z : Z)
| CFloat (f : F)
| CStr (s : string)
| CTime (t : T).
Arguments CNone {F T}.
Arguments CBool {F T} b.
Arguments CInt {F T} z.
Arguments CFloat {F T} f.
Arguments CStr {F T} s.
Arguments CTime {F T} t.

Class PyRuntime : Type := {
  (** binary64 floats *)
  pyfloat : Type;
  float_zero : pyfloat;                        (* [0.0] *)
  float_is_nan : pyfloat -> bool;
  float_truthy : pyfloat -> bool;               (* [bool(f)] *)
  float_of_Z : Z -> result pyfloat;             (* [float(i)] *)
  float_of_string : string -> result pyfloat;   (* [float(s)] *)
  float_trunc : pyfloat -> result Z;            (* [int(f)] *)
  float_differs : pyfloat -> Z -> bool;         (* [abs(f - i) > 0] *)
  float_cmp : pyfloat -> pyfloat -> pycmp;
  float_cmp_Z : pyfloat -> Z -> pycmp;          (* float against int, exact *)
  float_repr : pyfloat -> string;               (* [str(f)] *)
  float_fmt_2f : pyfloat -> string;             (* [f"{f:.2f}"] *)
  percent_of : nat -> nat -> pyfloat;           (* [(n / total) * 100] *)
  (** timestamps *)
  timestamp : Type;
  ts_is_nat : timestamp -> bool;                (* NaT *)
  ts_str : timestamp -> string;
  (** [pd.to_datetime(val)]: [Some e] when it raises [e] *)
  to_datetime : cell pyfloat timestamp -> option exn;
  (** [str.lower] *)
  str_lower : string -> string;
  (** the [re] module: [re.compile(pattern, flags)] with
      [flags = re.IGNORECASE] iff the boolean is set, [inl msg] for
      [re.error]; [regex.match] and [regex.search] as truth values.
      What else [re.compile] can raise (an [OverflowError] on a
      repetition count beyond the machine's limits) is not part of
      this interface. *)
  regex : Type;
  re_compile : string -> bool -> string + regex;
  re_match : regex -> string -> bool;
  re_search : regex -> string -> bool
}.

Section Values.
Context {RT : PyRuntime}.

Definition pycell : Type := cell pyfloat timestamp.

(** [pd.isna(val)] *)
Definition isna (val : pycell) : bool :=
  match val with
  | CNone => true
  | CFloat f => float_is_nan f
  | CTime t => ts_is_nat t
  | _ => false
  end.

(** [type(val).__name__] *)
Definition cell_type_name (val : pycell) : string :=
  match val with
  | CNone => "NoneType"
  | CBool _ => "bool"
  | CInt _ => "int"
  | CFloat _ => "float"
  | CStr _ => "str"
  | CTime _ => "Timestamp"
  end.

Definition str_of_bool (b : bool) : string := if b then "True" else "False".

(** [str(val)] *)
Definition cell_str (val : pycell) : string :=
  match val with
  | CNone => "None"
  | CBool b => str_of_bool b
  | CInt z => str_of_Z z
  | CFloat f => float_repr f
  | CStr s => s
  | CTime t => ts_str t
  end.

(** [float(val)] *)
Definition py_float (val : pycell) : result pyfloat :=
  match val with
  | CBool b => float_of_Z (if b then 1 else 0)%Z
  | CInt z => float_of_Z z
  | CFloat f => Ok f
  | CStr s => float_of_string s
  | CNone | CTime _ =>
      Raise (TypeError ("float() argument must be a string or a real number, not '"
                          ++ cell_type_name val ++ "'"))
  end.

(** [isinstance(val, t)] for the types the type validator asks about;
    [bool] is a subclass of [int]. *)
Definition cell_is_int (val : pycell) : bool :=
  match val with CInt _ | CBool _ => true | _ => false end.
Definition cell_is_float (val : pycell) : bool :=
  match val with CFloat _ => true | _ => false end.
Definition cell_is_str (val : pycell) : bool :=
  match val with CStr _ => true | _ => false end.
Definition cell_is_datetime (val : pycell) : bool :=
  match val with CTime _ => true | _ => false end.
Definition cell_is_bool (val : pycell) : bool :=
  match val with CBool _ => true | _ => false end.

(** A value of a validator configuration.  A callable takes a cell and
    either raises or returns a value, of which the engine only uses the
    truth value.  Here it is a function of the cell whose result has a
    truth value; callables that keep state, or return an object whose
    truth test raises, are those of [StatefulValidation]. *)
Inductive pyval : Type :=
| VNone
| VBool (b : bool)
| VInt (z : Z)
| VFloat (f : pyfloat)
| VStr (s : string)
| VFunc (f : pycell -> result bool).

Definition is_none (v : pyval) : bool :=
  match v with VNone => true | _ => false end.

(** [bool(v)] *)
Definition truthy (v : pyval) : bool :=
  match v with
  | VNone => false
  | VBool b => b
  | VInt z => negb (z =? 0)%Z
  | VFloat f => float_truthy f
  | VStr s => negb (String.eqb s EmptyString)
  | VFunc _ => true
  end.

(** [type(v).__name__] *)
Definition type_name (v : pyval) : string :=
  match v with
  | VNone => "NoneType"
  | VBool _ => "bool"
  | VInt _ => "int"
  | VFloat _ => "float"
  | VStr _ => "str"
  | VFunc _ => "function"
  end.

(** [str(v)]; the text of a function object holds its address and is
    abbreviated. *)
Definition py_str (v : pyval) : string :=
  match v with
  | VNone => "None"
  | VBool b => str_of_bool b
  | VInt z => str_of_Z z
  | VFloat f => float_repr f
  | VStr s => s
  | VFunc _ => "<function>"
  end.

(** [callable(v)] *)
Definition callable (v : pyval) : bool :=
  match v with VFunc _ => true | _ => false end.

(** [v(val)] *)
Definition py_call (v : pyval) (val : pycell) : result bool :=
  match v with
  | VFunc f => f val
  | _ => Raise (TypeError ("'" ++ type_name v ++ "' object is not callable"))
  end.

(** Ordering of a float against a configuration value: numbers compare
    (a [bool] as the int it is), anything else raises [TypeError]. *)
Definition py_compare (x : pyfloat) (v : pyval) : option pycmp :=
  match v with
  | VBool b => Some (float_cmp_Z x (if b then 1 else 0)%Z)
  | VInt z => Some (float_cmp_Z x z)
  | VFloat f => Some (float_cmp x f)
  | _ => None
  end.

Definition py_order (op : string) (test : pycmp -> bool)
    (x : pyfloat) (v : pyval) : result bool :=
  match py_compare x v with
  | Some c => Ok (test c)
  | None =>
      Raise (TypeError ("'" ++ op ++ "' not supported between instances of 'float' and '"
                          ++ type_name v ++ "'"))
  end.

Definition py_lt := py_order "<" cmp_lt.
Definition py_le := py_order "<=" cmp_le.
Definition py_gt := py_order ">" cmp_gt.
Definition py_ge := py_order ">=" cmp_ge.

(** [config.get(key)] and [config.get(key, default)] *)
Definition config_get (config : dict pyval) (key : string) : pyval :=
  match dict_get config key with Some v => v | None => VNone end.

Definition config_get_default (config : dict pyval) (key : string)
    (default : pyval) : pyval :=
  match dict_get config key with Some v => v | None => default end.

End Values.

(* ================================================================== *)
(** * Tables and results ([base.py]) *)
(* ================================================================== *)

Section Engine.
Context {RT : PyRuntime}.

(** A DataFrame: the row labels of its index and its columns by name.
    Row labels are integers, as [pd.read_csv] and [pd.DataFrame] assign
    them; they need not start at 0 or be contiguous. *)
Record DataFrame : Type := {
  df_index : list Z;
  df_columns : dict (list pycell)
}.

(** [len(df)] *)
Definition df_len (df : DataFrame) : nat := length (df_index df).

(** [col in df.columns] *)
Definition df_has_column (df : DataFrame) (col : string) : bool :=
  dict_mem (df_columns df) col.

(** [df[column].items()]: the cells of the column with their row labels,
    in row order; [KeyError] when the column is absent. *)
Definition df_items (df : DataFrame) (column : string) : result (list (Z * pycell)) :=
  match dict_get (df_columns df) column with
  | Some vals => Ok (combine (df_index df) vals)
  | None => Raise (KeyError column)
  end.

(** One entry of [error_details]: [{"row": .., "value": .., "reason": ..}] *)
Record FailureDetail : Type := {
  fd_row : Z;
  fd_value : pycell;
  fd_reason : string
}.

Record ValidationResult : Type := {
  validator_name : string;
  passed : bool;
  total_records : nat;
  failed_records : nat;
  error_details : list FailureDetail;
  message : string
}.

(** The tail every [validate] shares: count the failures, derive
    [passed] and the message, build the result.  [kind] is the wording
    after "records failed". *)
Definition make_result (name kind : string) (total : nat)
    (failed_details : list FailureDetail) : ValidationResult :=
  let failed_count := length failed_details in
  let passed := Nat.eqb failed_count 0 in
  let message :=
    if passed then "All " ++ str_of_nat total ++ " records passed"
    else str_of_nat failed_count ++ "/" ++ str_of_nat total
           ++ " records failed " ++ kind in
  {| validator_name := name;
     passed := passed;
     total_records := total;
     failed_records := failed_count;
     error_details := failed_details;
     message := message |}.

(** [for idx, val in series.items(): ...] where the body either appends
    one detail to [failed_details], leaves it alone, or raises. *)
Fixpoint for_items (body : Z -> pycell -> result (option FailureDetail))
    (items : list (Z * pycell)) (failed_details : list FailureDetail)
    : result (list FailureDetail) :=
  match items with
  | [] => Ok failed_details
  | (idx, val) :: rest =>
      match body idx val with
      | Raise e => Raise e
      | Ok None => for_items body rest failed_details
      | Ok (Some d) => for_items body rest (failed_details ++ [d])%list
      end
  end.

(** ** The validator contract ([BaseValidator]) *)

(** A Python type named in a parameter schema. *)
Inductive pytype : Type :=
| TyInt | TyFloat | TyBool | TyStr
| TyTypingCallable      (* [typing.Callable] *)
| TyAbcCallable.        (* [collections.abc.Callable] *)

(** The ["type"] of a schema entry: one type or a tuple of types. *)
Inductive type_spec : Type :=
| TyOne (t : pytype)
| TyTuple (ts : list pytype).

Record ParamMeta : Type := {
  pm_type : option type_spec;
  pm_default : pyval;
  pm_description : string;
  pm_required : bool
}.

(** A validator class: what [name], [description],
    [get_required_params] and [validate] give on an instance built from
    a configuration. *)
Record ValidatorClass : Type := {
  vc_name : string;
  vc_description : string;
  vc_get_required_params : dict ParamMeta;
  vc_validate : dict pyval -> DataFrame -> string -> result ValidationResult
}.

(** An instance: the class and the [config] it was built with. *)
Record Validator : Type := {
  v_class : ValidatorClass;
  v_config : dict pyval
}.

Definition validator_validate (v : Validator) (df : DataFrame) (column : string)
    : result ValidationResult :=
  vc_validate (v_class v) (v_config v) df column.

End Engine.

(* ================================================================== *)
(** * The built-in validators ([validators/]) *)
(* ================================================================== *)

Module RangeValidator.
Section Def.
Context {RT : PyRuntime}.

Definition name : string := "range".
Definition description : string :=
  "Validate that numeric values fall within a specified range".

Definition get_required_params : dict ParamMeta :=
  [ ("min_value", {| pm_type := Some (TyTuple [TyInt; TyFloat]);
                     pm_default := VNone;
                     pm_description := "Minimum allowed value (optional)";
                     pm_required := false |});
    ("max_value", {| pm_type := Some (TyTuple [TyInt; TyFloat]);
                     pm_default := VNone;
                     pm_description := "Maximum allowed value (optional)";
                     pm_required := false |});
    ("inclusive", {| pm_type := Some (TyOne TyBool);
                     pm_default := VBool true;
                     pm_description := "Whether range bounds are inclusive";
                     pm_required := false |}) ].

Definition fail (idx : Z) (val : pycell) (reason : string)
    : result (option FailureDetail) :=
  Ok (Some {| fd_row := idx; fd_value := val; fd_reason := reason |}).

(** The lower-bound test of one row: [Some reason] when the row fails
    it (the [continue] branch). *)
Definition check_lower (min_value inclusive : pyval) (numeric_val : pyfloat)
    : result (option string) :=
  if is_none min_value then Ok None
  else if truthy inclusive then
    below <- py_lt numeric_val min_value ;;
    Ok (if below then Some ("Value below minimum " ++ py_str min_value) else None)
  else
    below <- py_le numeric_val min_value ;;
    Ok (if below
        then Some ("Value not greater than minimum " ++ py_str min_value)
        else None).

Definition check_upper (max_value inclusive : pyval) (numeric_val : pyfloat)
    : result (option string) :=
  if is_none max_value then Ok None
  else if truthy inclusive then
    above <- py_gt numeric_val max_value ;;
    Ok (if above then Some ("Value above maximum " ++ py_str max_value) else None)
  else
    above <- py_ge numeric_val max_value ;;
    Ok (if above
        then Some ("Value not less than maximum " ++ py_str max_value)
        else None).

(** The body of the loop over [series.items()]. *)
Definition check_row (min_value max_value inclusive : pyval)
    (idx : Z) (val : pycell) : result (option FailureDetail) :=
  if isna val then fail idx val "Null value"
  else
    match py_float val with
    | Raise _ => fail idx val "Value is not numeric"
    | Ok numeric_val =>
        lower <- check_lower min_value inclusive numeric_val ;;
        match lower with
        | Some reason => fail idx val reason
        | None =>
            upper <- check_upper max_value inclusive numeric_val ;;
            match upper with
            | Some reason => fail idx val reason
            | None => Ok None
            end
        end
    end.

Definition validate (config : dict pyval) (df : DataFrame) (column : string)
    : result ValidationResult :=
  let min_value := config_get config "min_value" in
  let max_value := config_get config "max_value" in
  let inclusive := config_get_default config "inclusive" (VBool true) in
  let total := df_len df in
  series <- df_items df column ;;
  failed_details <- for_items (check_row min_value max_value inclusive) series [] ;;
  Ok (make_result name "range validation" total failed_details).

Definition class : ValidatorClass :=
  {| vc_name := name;
     vc_description := description;
     vc_get_required_params := get_required_params;
     vc_validate := validate |}.

End Def.
End RangeValidator.

Module NullCheckValidator.
Section Def.
Context {RT : PyRuntime}.

Definition name : string := "null_check".
Definition description : string :=
  "Validate that null values are absent or within a threshold".

Definition get_required_params : dict ParamMeta :=
  [ ("allow_null", {| pm_type := Some (TyOne TyBool);
                      pm_default := VBool false;
                      pm_description := "Whether null values are allowed";
                      pm_required := false |});
    ("max_null_percent", {| pm_type := Some (TyOne TyFloat);
                            pm_default := VNone;
                            pm_description := "Maximum percentage (0-100) of nulls allowed";
                            pm_required := false |}) ].

(** [for idx, is_null in null_mask.items(): if is_null: append(...)];
    the appended detail always carries [None] as its value. *)
Definition record_nulls (reason : string) (idx : Z) (val : pycell)
    : result (option FailureDetail) :=
  if isna val
  then Ok (Some {| fd_row := idx; fd_value := CNone; fd_reason := reason |})
  else Ok None.

(** [int(null_mask.sum())] *)
Definition count_nulls (series : list (Z * pycell)) : nat :=
  length (filter (fun it => isna (snd it)) series).

(** [(num_null / total) * 100 if total else 0.0] *)
Definition null_percentage (num_null total : nat) : pyfloat :=
  if Nat.eqb total 0 then float_zero else percent_of num_null total.

Definition validate (config : dict pyval) (df : DataFrame) (column : string)
    : result ValidationResult :=
  let allow_null := config_get_default config "allow_null" (VBool false) in
  let max_null_percent := config_get config "max_null_percent" in
  series <- df_items df column ;;
  let total := length series in
  let num_null := count_nulls series in
  failed_details <-
    (if negb (truthy allow_null) then
       for_items (record_nulls "Null value not allowed") series []
     else if negb (is_none max_null_percent) then
       let percent := null_percentage num_null total in
       exceeds <- py_gt percent max_null_percent ;;
       if exceeds then
         for_items
           (record_nulls ("Null percentage " ++ float_fmt_2f percent
                            ++ "% exceeds limit " ++ py_str max_null_percent ++ "%"))
           series []
       else
         for_items
           (record_nulls ("Null present but within allowed "
                            ++ py_str max_null_percent ++ "% limit"))
           series []
     else Ok []) ;;
  Ok (make_result name "null check" total failed_details).

Definition class : ValidatorClass :=
  {| vc_name := name;
     vc_description := description;
     vc_get_required_params := get_required_params;
     vc_validate := validate |}.

End Def.
End NullCheckValidator.

Module RegexValidator.
Section Def.
Context {RT : PyRuntime}.

Definition name : string := "regex".
Definition description : string :=
  "Validate that string values match a regular expression pattern".

Definition get_required_params : dict ParamMeta :=
  [ ("pattern", {| pm_type := Some (TyOne TyStr);
                   pm_default := VNone;
                   pm_description := "Regular expression pattern";
                   pm_required := true |});
    ("case_sensitive", {| pm_type := Some (TyOne TyBool);
                          pm_default := VBool true;
                          pm_description := "Whether pattern matching is case sensitive";
                          pm_required := false |}) ].

(** [flags = 0 if case_sensitive else re.IGNORECASE], as the boolean
    [re_compile] takes. *)
Definition ignorecase_flag (case_sensitive : pyval) : bool :=
  if truthy case_sensitive then false else true.

(** The body of the loop over [series.items()]. *)
Definition check_row (rx : regex) (idx : Z) (val : pycell)
    : result (option FailureDetail) :=
  if isna val then
    Ok (Some {| fd_row := idx; fd_value := CNone;
                fd_reason := "Null value cannot match pattern" |})
  else
    let text := cell_str val in
    if negb (re_match rx text) then
      Ok (Some {| fd_row := idx; fd_value := CStr text;
                  fd_reason := "Does not match pattern" |})
    else Ok None.

Definition validate (config : dict pyval) (df : DataFrame) (column : string)
    : result ValidationResult :=
  let pattern_value := config_get config "pattern" in
  if is_none pattern_value then
    Raise (ValueError "'pattern' parameter is required for RegexValidator")
  else
    let pattern := py_str pattern_value in
    let case_sensitive := config_get_default config "case_sensitive" (VBool true) in
    let flags := ignorecase_flag case_sensitive in
    match re_compile pattern flags with
    | inl e => Raise (ValueError ("Invalid regular expression pattern: " ++ e))
    | inr rx =>
        let total := df_len df in
        series <- df_items df column ;;
        failed_details <- for_items (check_row rx) series [] ;;
        Ok (make_result name "regex validation" total failed_details)
    end.

Definition class : ValidatorClass :=
  {| vc_name := name;
     vc_description := description;
     vc_get_required_params := get_required_params;
     vc_validate := validate |}.

End Def.
End RegexValidator.

Module TypeValidator.
Section Def.
Context {RT : PyRuntime}.

Definition name : string := "type".
Definition description : string := "Validate that values are of a specified type".

Definition get_required_params : dict ParamMeta :=
  [ ("expected_type", {| pm_type := Some (TyOne TyStr);
                         pm_default := VNone;
                         pm_description :=
                           "Expected type ('int', 'float', 'string', 'datetime', 'bool')";
                         pm_required := true |});
    ("strict", {| pm_type := Some (TyOne TyBool);
                  pm_default := VBool false;
                  pm_description := "Whether to require exact type without conversion";
                  pm_required := false |}) ].

Definition valid_types : list string := ["int"; "float"; "string"; "datetime"; "bool"].

(** [f"{sorted(valid_types)}"] *)
Definition sorted_valid_types_repr : string :=
  "['bool', 'datetime', 'float', 'int', 'string']".

Definition expect (ok : bool) (wanted : string) (val : pycell) : result unit :=
  if ok then Ok tt
  else Raise (TypeError ("Expected " ++ wanted ++ " but got " ++ cell_type_name val)).

(** [val in (0, 1)] under [isinstance(val, (int, float))] *)
Definition is_zero_or_one (val : pycell) : bool :=
  match val with
  | CBool _ => true
  | CInt z => (z =? 0)%Z || (z =? 1)%Z
  | CFloat f => cmp_eq (float_cmp_Z f 0) || cmp_eq (float_cmp_Z f 1)
  | _ => false
  end.

(** The [try] block of one row. *)
Definition check_value (expected_type : string) (strict : pyval) (val : pycell)
    : result unit :=
  if String.eqb expected_type "int" then
    if truthy strict then expect (cell_is_int val) "int" val
    else
      f <- py_float val ;;
      int_val <- float_trunc f ;;
      f' <- py_float val ;;
      if float_differs f' int_val
      then Raise (ValueError "Non-integer value cannot be coerced to int")
      else Ok tt
  else if String.eqb expected_type "float" then
    if truthy strict then expect (cell_is_float val) "float" val
    else _ <- py_float val ;; Ok tt
  else if String.eqb expected_type "string" then
    if truthy strict then expect (cell_is_str val) "string" val
    else Ok tt
  else if String.eqb expected_type "datetime" then
    if truthy strict then expect (cell_is_datetime val) "datetime" val
    else match to_datetime val with Some e => Raise e | None => Ok tt end
  else if String.eqb expected_type "bool" then
    if truthy strict then expect (cell_is_bool val) "bool" val
    else if cell_is_bool val then Ok tt
    else if (cell_is_int val || cell_is_float val) && is_zero_or_one val then Ok tt
    else if
      match val with
      | CStr s => str_in (str_lower s) ["true"; "false"; "1"; "0"]
      | _ => false
      end
    then Ok tt
    else Raise (ValueError "Cannot coerce value to bool")
  else Ok tt.

Definition check_row (expected_type : string) (strict : pyval)
    (idx : Z) (val : pycell) : result (option FailureDetail) :=
  if isna val then
    Ok (Some {| fd_row := idx; fd_value := val; fd_reason := "Null value" |})
  else
    match check_value expected_type strict val with
    | Raise e => Ok (Some {| fd_row := idx; fd_value := val; fd_reason := exn_msg e |})
    | Ok _ => Ok None
    end.

Definition validate (config : dict pyval) (df : DataFrame) (column : string)
    : result ValidationResult :=
  let expected_type := str_lower (py_str (config_get config "expected_type")) in
  if String.eqb expected_type EmptyString then
    Raise (ValueError "'expected_type' parameter is required for TypeValidator")
  else
    let strict := config_get_default config "strict" (VBool false) in
    if negb (str_in expected_type valid_types) then
      Raise (ValueError ("Unsupported expected_type: '" ++ expected_type ++ "'."
                           ++ newline ++ "Supported types: " ++ sorted_valid_types_repr))
    else
      series <- df_items df column ;;
      let total := length series in
      failed_details <- for_items (check_row expected_type strict) series [] ;;
      Ok (make_result name "type validation" total failed_details).

Definition class : ValidatorClass :=
  {| vc_name := name;
     vc_description := description;
     vc_get_required_params := get_required_params;
     vc_validate := validate |}.

End Def.
End TypeValidator.

Module CustomFunctionValidator.
Section Def.
Context {RT : PyRuntime}.

Definition name : string := "custom_function".
Definition description : string := "Validate values using a user-provided function".

Definition get_required_params : dict ParamMeta :=
  [ ("validation_func", {| pm_type := Some (TyOne TyTypingCallable);
                           pm_default := VNone;
                           pm_description :=
                             "Callable that takes a single value and returns bool";
                           pm_required := true |});
    ("error_message", {| pm_type := Some (TyOne TyStr);
                         pm_default := VNone;
                         pm_description := "Custom error message for failures";
                         pm_required := false |}) ].

(** The body of the loop over [series.items()];
    [error_message or "Custom validation failed"] is shown as text. *)
Definition check_row (func error_message : pyval) (idx : Z) (val : pycell)
    : result (option FailureDetail) :=
  match py_call func val with
  | Raise e =>
      Ok (Some {| fd_row := idx; fd_value := val;
                  fd_reason := "Exception in validation function: " ++ exn_msg e |})
  | Ok res =>
      if negb res then
        let reason :=
          if truthy error_message then py_str error_message
          else "Custom validation failed" in
        Ok (Some {| fd_row := idx; fd_value := val; fd_reason := reason |})
      else Ok None
  end.

Definition validate (config : dict pyval) (df : DataFrame) (column : string)
    : result ValidationResult :=
  let func := config_get config "validation_func" in
  let error_message := config_get config "error_message" in
  if is_none func then
    Raise (ValueError
             "'validation_func' parameter is required for CustomFunctionValidator")
  else
    let total := df_len df in
    series <- df_items df column ;;
    failed_details <- for_items (check_row func error_message) series [] ;;
    Ok (make_result name "custom validation" total failed_details).

Definition class : ValidatorClass :=
  {| vc_name := name;
     vc_description := description;
     vc_get_required_params := get_required_params;
     vc_validate := validate |}.

End Def.
End CustomFunctionValidator.

(* ================================================================== *)
(** * The registry ([registry.py]) *)
(* ================================================================== *)

Module ValidatorRegistry.
Section Def.
Context {RT : PyRuntime}.

(** The class attribute [_validators]; the process-wide registry is
    passed explicitly to whoever consults it. *)
Definition validators : Type := dict ValidatorClass.

(** [register]: key the class by the name of an instance; a later
    registration under the same name overwrites. *)
Definition register (validator_class : ValidatorClass) (reg : validators)
    : validators :=
  dict_set reg (vc_name validator_class) validator_class.

Definition get_validator (reg : validators) (name : string)
    : option ValidatorClass :=
  dict_get reg name.

Definition create_validator (reg : validators) (name : string)
    (config : dict pyval) : option Validator :=
  match get_validator reg name with
  | None => None
  | Some validator_class =>
      Some {| v_class := validator_class; v_config := config |}
  end.

(** The registry once [validators/__init__.py] has been imported: the
    five decorators have run in import order. *)
Definition builtin : validators :=
  register CustomFunctionValidator.class
    (register TypeValidator.class
       (register RegexValidator.class
          (register NullCheckValidator.class
             (register RangeValidator.class [])))).

End Def.
End ValidatorRegistry.

(* ================================================================== *)
(** * The configuration loader ([config_loader.py]) *)
(* ================================================================== *)

Section Documents.
Context {RT : PyRuntime}.

(** One element of the [validations] list: something that is not a
    dict, or a dict, of which the code reads the keys [column],
    [validator] and [params].  The column and the validator name are
    text, [None] standing for a missing key or a null, which the code
    does not tell apart; a name of another type (a list, say, which the
    registry lookup cannot hash) is not represented.  The params are a
    mapping, [None] standing for a missing key.  The loader treats a
    null [params] like a missing one, so that for the loader [None]
    stands for both; the pipeline constructor hands a null to the
    validator as it is, and a null reaching the constructor is not
    represented (the loader never produces one). *)
Inductive RawEntry : Type :=
| EntryOther
| EntryDict (column : option string) (validator : option string)
            (params : option (dict pyval)).

(** The value under the key [validations] of the parsed document. *)
Inductive RawValidations : Type :=
| ValidationsMissing
| ValidationsNotList
| ValidationsList (validations : list RawEntry).

(** What [json.load] or [yaml.safe_load] returned. *)
Inductive RawConfig : Type :=
| ConfigNotDict
| ConfigDict (validations : RawValidations).

(** [PipelineConfig]: the list of validation specifications. *)
Record PipelineConfig : Type := {
  validations : list RawEntry
}.

End Documents.

Module ConfigLoader.
Section Def.
Context {RT : PyRuntime}.

(** [isinstance(value, t)] *)
Definition isinstance (value : pyval) (t : pytype) : bool :=
  match t, value with
  | TyInt, (VInt _ | VBool _) => true
  | TyFloat, VFloat _ => true
  | TyBool, VBool _ => true
  | TyStr, VStr _ => true
  | (TyTypingCallable | TyAbcCallable), VFunc _ => true
  | _, _ => false
  end.

(** [t.__name__] *)
Definition pytype_name (t : pytype) : string :=
  match t with
  | TyInt => "int"
  | TyFloat => "float"
  | TyBool => "bool"
  | TyStr => "str"
  | TyTypingCallable | TyAbcCallable => "Callable"
  end.

(** [repr(t)] *)
Definition pytype_repr (t : pytype) : string :=
  match t with
  | TyTypingCallable => "typing.Callable"
  | TyAbcCallable => "<class 'collections.abc.Callable'>"
  | _ => "<class '" ++ pytype_name t ++ "'>"
  end.

(** [f"{expected_type}"] for a tuple of types *)
Definition tuple_repr (ts : list pytype) : string :=
  "(" ++ join ", " (map pytype_repr ts)
      ++ (match ts with [_] => "," | _ => EmptyString end) ++ ")".

(** [expected_type == collections.abc.Callable] *)
Definition is_abc_callable (t : pytype) : bool :=
  match t with TyAbcCallable => true | _ => false end.

(** The type check of one parameter value (skipped for [None]). *)
Definition check_type (param_name validator_name : string)
    (expected_type : option type_spec) (value : pyval) : result unit :=
  match expected_type with
  | None => Ok tt
  | Some expected_type =>
      if is_none value then Ok tt
      else
        match expected_type with
        | TyTuple ts =>
            if negb (existsb (isinstance value) ts) then
              Raise (InvalidConfigError
                       ("Parameter '" ++ param_name ++ "' for validator '"
                          ++ validator_name ++ "' must be of type " ++ tuple_repr ts
                          ++ ", got " ++ type_name value))
            else Ok tt
        | TyOne t =>
            if is_abc_callable t then
              if negb (callable value) then
                Raise (InvalidConfigError
                         ("Parameter '" ++ param_name ++ "' for validator '"
                            ++ validator_name ++ "' must be callable"))
              else Ok tt
            else if negb (isinstance value t) then
              Raise (InvalidConfigError
                       ("Parameter '" ++ param_name ++ "' for validator '"
                          ++ validator_name ++ "' must be of type " ++ pytype_name t
                          ++ ", got " ++ type_name value))
            else Ok tt
        end
  end.

Definition missing_required_message (param_name validator_name : string)
    (idx : nat) (column : string) : string :=
  "Missing required parameter '" ++ param_name ++ "' for validator '"
    ++ validator_name ++ "' in entry " ++ str_of_nat idx
    ++ " (column '" ++ column ++ "').".

Definition unknown_parameter_message (param_name validator_name : string)
    (idx : nat) : string :=
  "Unknown parameter '" ++ param_name ++ "' for validator '" ++ validator_name
    ++ "' in entry " ++ str_of_nat idx.

Definition unknown_validator_message (validator_name : string) (idx : nat) : string :=
  "Unknown validator '" ++ validator_name ++ "' in validation entry " ++ str_of_nat idx.

(** The value taken for one schema parameter: the supplied one, else
    the default, unless the parameter is required and has none. *)
Definition param_value (validator_name column : string) (idx : nat)
    (params : dict pyval) (param_name : string) (meta : ParamMeta) : result pyval :=
  let default := pm_default meta in
  let required := pm_required meta in
  match dict_get params param_name with
  | Some value => Ok value
  | None =>
      if required && is_none default then
        Raise (InvalidConfigError
                 (missing_required_message param_name validator_name idx column))
      else Ok default
  end.

(** [for param_name, meta in schema.items(): ...] *)
Fixpoint fill_params (validator_name column : string) (idx : nat)
    (params : dict pyval) (schema : dict ParamMeta)
    (normalized_params : dict pyval) : result (dict pyval) :=
  match schema with
  | [] => Ok normalized_params
  | (param_name, meta) :: rest =>
      value <- param_value validator_name column idx params param_name meta ;;
      _ <- check_type param_name validator_name (pm_type meta) value ;;
      fill_params validator_name column idx params rest
        (dict_set normalized_params param_name value)
  end.

(** [for param_name in params: if param_name not in schema: raise] *)
Fixpoint check_unknown (validator_name : string) (idx : nat)
    (schema : dict ParamMeta) (param_names : list string) : result unit :=
  match param_names with
  | [] => Ok tt
  | param_name :: rest =>
      if negb (dict_mem schema param_name) then
        Raise (InvalidConfigError
                 (unknown_parameter_message param_name validator_name idx))
      else check_unknown validator_name idx schema rest
  end.

(** The body of the loop over [enumerate(validations)]. *)
Definition normalise_entry (reg : ValidatorRegistry.validators) (idx : nat)
    (entry : RawEntry) : result RawEntry :=
  match entry with
  | EntryOther =>
      Raise (InvalidConfigError
               ("Validation entry at index " ++ str_of_nat idx ++ " must be a dict"))
  | EntryDict column validator_name params =>
      let params := match params with Some p => p | None => [] end in
      match column, validator_name with
      | Some column, Some validator_name =>
          match ValidatorRegistry.get_validator reg validator_name with
          | None =>
              Raise (UnknownValidatorError
                       (unknown_validator_message validator_name idx))
          | Some validator_class =>
              let schema := vc_get_required_params validator_class in
              normalized_params <-
                fill_params validator_name column idx params schema [] ;;
              _ <- check_unknown validator_name idx schema (dict_keys params) ;;
              Ok (EntryDict (Some column) (Some validator_name)
                            (Some normalized_params))
          end
      | _, _ =>
          Raise (InvalidConfigError
                   ("Validation entry at index " ++ str_of_nat idx
                      ++ " must contain 'column' and 'validator' keys"))
      end
  end.

Fixpoint normalise_entries (reg : ValidatorRegistry.validators) (idx : nat)
    (entries : list RawEntry) (normalized : list RawEntry)
    : result (list RawEntry) :=
  match entries with
  | [] => Ok normalized
  | entry :: rest =>
      spec <- normalise_entry reg idx entry ;;
      normalise_entries reg (S idx) rest (normalized ++ [spec])%list
  end.

Definition _validate_and_normalise_config (reg : ValidatorRegistry.validators)
    (config : RawValidations) : result (list RawEntry) :=
  match config with
  | ValidationsMissing =>
      Raise (InvalidConfigError "Configuration must contain a 'validations' list")
  | ValidationsNotList => Raise (InvalidConfigError "'validations' must be a list")
  | ValidationsList validations => normalise_entries reg 0 validations []
  end.

(** [load_config] from the point where the file has been parsed. *)
Definition load_config (reg : ValidatorRegistry.validators) (config_data : RawConfig)
    : result PipelineConfig :=
  match config_data with
  | ConfigNotDict =>
      Raise (InvalidConfigError "Top level of config file must be a JSON/YAML object")
  | ConfigDict config =>
      normalized_validations <- _validate_and_normalise_config reg config ;;
      Ok {| validations := normalized_validations |}
  end.

End Def.
End ConfigLoader.

(* ================================================================== *)
(** * The pipeline ([pipeline.py]) *)
(* ================================================================== *)

Module ValidationPipeline.
Section Def.
Context {RT : PyRuntime}.

Record PipelineResult : Type := {
  pr_passed : bool;
  total_validations : nat;
  passed_validations : nat;
  failed_validations : nat;
  results : list ValidationResult
}.

(** The pipeline object: its configuration, the prepared
    [(column, validator)] pairs and the retained [last_result]. *)
Record t : Type := {
  config : PipelineConfig;
  validator_specs : list (string * Validator);
  last_result : option PipelineResult
}.

(** The body of the loop of [__init__]; [spec.get("params", {})] is
    the empty mapping when the key is missing. *)
Definition prepare_entry (reg : ValidatorRegistry.validators) (idx : nat)
    (spec : RawEntry) : result (string * Validator) :=
  match spec with
  | EntryOther =>
      Raise (InvalidConfigError
               ("Validation entry at index " ++ str_of_nat idx ++ " must be a dict."))
  | EntryDict column name params =>
      let params := match params with Some p => p | None => [] end in
      match column, name with
      | Some column, Some name =>
          match ValidatorRegistry.get_validator reg name with
          | None =>
              Raise (UnknownValidatorError
                       ("Unknown validator '" ++ name ++ "' in validation entry "
                          ++ str_of_nat idx ++ "."))
          | Some validator_class =>
              Ok (column, {| v_class := validator_class; v_config := params |})
          end
      | _, _ =>
          Raise (InvalidConfigError
                   ("Validation entry at index " ++ str_of_nat idx
                      ++ " must contain 'column' and 'validator' keys."))
      end
  end.

Fixpoint prepare_entries (reg : ValidatorRegistry.validators) (idx : nat)
    (specs : list RawEntry) (prepared : list (string * Validator))
    : result (list (string * Validator)) :=
  match specs with
  | [] => Ok prepared
  | spec :: rest =>
      p <- prepare_entry reg idx spec ;;
      prepare_entries reg (S idx) rest (prepared ++ [p])%list
  end.

(** [ValidationPipeline(config)] *)
Definition init (reg : ValidatorRegistry.validators) (cfg : PipelineConfig)
    : result t :=
  specs <- prepare_entries reg 0 (validations cfg) [] ;;
  Ok {| config := cfg; validator_specs := specs; last_result := None |}.

(** The loop of [run]: the results so far and the two counters. *)
Fixpoint run_loop (df : DataFrame) (specs : list (string * Validator))
    (results : list ValidationResult) (passed_count failed_count : nat)
    : result (list ValidationResult * nat * nat) :=
  match specs with
  | [] => Ok (results, passed_count, failed_count)
  | (col, validator) :: rest =>
      if negb (df_has_column df col) then
        Raise (InvalidConfigError ("Column '" ++ col ++ "' not found in input data."))
      else
        res <- validator_validate validator df col ;;
        if passed res
        then run_loop df rest (results ++ [res])%list (S passed_count) failed_count
        else run_loop df rest (results ++ [res])%list passed_count (S failed_count)
  end.

(** [pipeline.run(df)]: the outcome and the pipeline afterwards. *)
Definition run (self : t) (df : DataFrame) : result PipelineResult * t :=
  let total := length (validator_specs self) in
  match run_loop df (validator_specs self) [] 0 0 with
  | Raise e => (Raise e, self)
  | Ok (results, passed_count, failed_count) =>
      let overall_passed := Nat.eqb failed_count 0 in
      let pipeline_result :=
        {| pr_passed := overall_passed;
           total_validations := total;
           passed_validations := passed_count;
           failed_validations := failed_count;
           results := results |} in
      (Ok pipeline_result,
       {| config := config self;
          validator_specs := validator_specs self;
          last_result := Some pipeline_result |})
  end.

End Def.
End ValidationPipeline.

(* ================================================================== *)
(** * An executable runtime

    A [PyRuntime] on which the engine computes.  It is exact on the
    values the test-suite and the examples below use: integers of
    magnitude below 2^53 (which [float()] converts without rounding),
    decimal literals, ASCII text, and patterns built from literals,
    [.], [^], [$], character sets, class escapes and the quantifiers
    [*], [+], [?].  Floats are rationals, so arithmetic does not round,
    there is no NaN and no infinity, and there are no timestamps;
    groups, alternation, counted repetition and the escapes for
    control characters, word boundaries and code points are outside
    the pattern fragment, and text is matched byte by byte.  A pattern
    of the fragment that [re] refuses is refused with the message of
    its [re.error], position included. *)
(* ================================================================== *)

Module TestRuntime.

Definition is_digit (c : ascii) : bool :=
  (48 <=? nat_of_ascii c)%nat && (nat_of_ascii c <=? 57)%nat.
Definition is_upper (c : ascii) : bool :=
  (65 <=? nat_of_ascii c)%nat && (nat_of_ascii c <=? 90)%nat.
Definition is_lower (c : ascii) : bool :=
  (97 <=? nat_of_ascii c)%nat && (nat_of_ascii c <=? 122)%nat.
Definition is_alnum (c : ascii) : bool := is_digit c || is_upper c || is_lower c.

Definition lower_char (c : ascii) : ascii :=
  if is_upper c then ascii_of_nat (nat_of_ascii c + 32) else c.
Definition upper_char (c : ascii) : ascii :=
  if is_lower c then ascii_of_nat (nat_of_ascii c - 32) else c.

Fixpoint lower (s : string) : string :=
  match s with
  | EmptyString => EmptyString
  | String c rest => String (lower_char c) (lower rest)
  end.

(** ** Floats as rationals *)

Definition digit_val (c : ascii) : Z := Z.of_nat (nat_of_ascii c - 48).

(** The digits at the head of [s]: their value continuing from [acc],
    how many there are, and what follows. *)
Fixpoint read_digits (s : string) (acc : Z) (count : nat) : Z * nat * string :=
  match s with
  | String c rest =>
      if is_digit c then read_digits rest (acc * 10 + digit_val c)%Z (S count)
      else (acc, count, s)
  | EmptyString => (acc, count, s)
  end.

(** Whitespace as [str.strip] removes it (ASCII). *)
Definition is_space (c : ascii) : bool :=
  ((9 <=? nat_of_ascii c)%nat && (nat_of_ascii c <=? 13)%nat)
  || (nat_of_ascii c =? 32)%nat.

Fixpoint lstrip (s : string) : string :=
  match s with
  | String c rest => if is_space c then lstrip rest else s
  | EmptyString => s
  end.

Fixpoint all_space (s : string) : bool :=
  match s with
  | String c rest => is_space c && all_space rest
  | EmptyString => true
  end.

Definition read_sign (s : string) : bool * string :=
  match s with
  | String "-"%char rest => (true, rest)
  | String "+"%char rest => (false, rest)
  | _ => (false, s)
  end.

(** The optional exponent at the head of [s] and what follows; [None]
    when an [e] is not followed by digits. *)
Definition read_exponent (s : string) : option (Z * string) :=
  match s with
  | String c rest =>
      if Ascii.eqb c "e" || Ascii.eqb c "E" then
        let '(negative, body) := read_sign rest in
        let '(value, digits, after) := read_digits body 0%Z 0 in
        if Nat.eqb digits 0 then None
        else Some (if negative then (- value)%Z else value, after)
      else Some (0%Z, s)
  | EmptyString => Some (0%Z, s)
  end.

(** [mantissa * 10 ^ exponent] *)
Definition scale10 (mantissa exponent : Z) : Q :=
  if (0 <=? exponent)%Z then inject_Z (mantissa * 10 ^ exponent)
  else Qmake mantissa (Z.to_pos (10 ^ (- exponent))).

(** [float(s)] on a decimal literal: surrounding whitespace, sign,
    digits with an optional fraction (one of the two may be empty),
    optional exponent.  Underscores between digits and the words
    [inf], [infinity] and [nan], which [float] also reads, are
    refused: this runtime has no such floats. *)
Definition parse_float (s : string) : result Q :=
  let bad := Raise (ValueError ("could not convert string to float: '" ++ s ++ "'")) in
  let '(negative, body) := read_sign (lstrip s) in
  let '(int_part, int_digits, after_int) := read_digits body 0%Z 0 in
  let '(mantissa, frac_digits, after_frac) :=
    match after_int with
    | String "."%char frac => read_digits frac int_part 0
    | _ => (int_part, 0, after_int)
    end in
  if Nat.eqb (int_digits + frac_digits) 0 then bad
  else
    match read_exponent after_frac with
    | None => bad
    | Some (exponent, rest) =>
        if all_space rest then
          let q := scale10 mantissa (exponent - Z.of_nat frac_digits) in
          Ok (if negative then Qopp q else q)
        else bad
    end.

Definition q_cmp (x y : Q) : pycmp :=
  match Qcompare x y with
  | Lt => CmpLt
  | Eq => CmpEq
  | Gt => CmpGt
  end.

(** [fuel] digits of the fraction [r / d], stopping when it terminates. *)
Fixpoint fraction_digits (fuel : nat) (r d : Z) : string :=
  match fuel with
  | O => EmptyString
  | S fuel' =>
      if (r =? 0)%Z then EmptyString
      else str_of_Z (r * 10 / d) ++ fraction_digits fuel' ((r * 10) mod d) d
  end.

Definition q_repr (q : Q) : string :=
  let n := Z.abs (Qnum q) in
  let d := Z.pos (Qden q) in
  let sign := if (Qnum q <? 0)%Z then "-" else EmptyString in
  let frac := fraction_digits 17 (n mod d) d in
  sign ++ str_of_Z (n / d) ++ "."
       ++ (if String.eqb frac EmptyString then "0" else frac).

(** Two decimals, rounding half to even. *)
Definition q_fmt_2f (q : Q) : string :=
  let n := (Z.abs (Qnum q) * 100)%Z in
  let d := Z.pos (Qden q) in
  let fl := (n / d)%Z in
  let rem := (n mod d)%Z in
  let r :=
    if (2 * rem <? d)%Z then fl
    else if (d <? 2 * rem)%Z then (fl + 1)%Z
    else if Z.even fl then fl else (fl + 1)%Z in
  let cents := (r mod 100)%Z in
  (if (Qnum q <? 0)%Z then "-" else EmptyString)
    ++ str_of_Z (r / 100) ++ "."
    ++ (if (cents <? 10)%Z then "0" else EmptyString) ++ str_of_Z cents.

Definition q_percent (num_null total : nat) : Q :=
  Qmult (Qmake (Z.of_nat num_null) (Pos.of_nat total)) (inject_Z 100).

(** ** Dates: plain [YYYY-MM-DD] text and numbers convert. *)

Definition iso_date (s : string) : bool :=
  match s with
  | String y1 (String y2 (String y3 (String y4 (String "-"%char
      (String m1 (String m2 (String "-"%char
         (String d1 (String d2 EmptyString))))))))) =>
      forallb is_digit [y1; y2; y3; y4; m1; m2; d1; d2]
      && (let m := (digit_val m1 * 10 + digit_val m2)%Z in (1 <=? m)%Z && (m <=? 12)%Z)
      && (let d := (digit_val d1 * 10 + digit_val d2)%Z in (1 <=? d)%Z && (d <=? 28)%Z)
  | _ => false
  end.

Definition q_to_datetime (val : cell Q Empty_set) : option exn :=
  match val with
  | CStr s =>
      if iso_date s then None
      else Some (ValueError ("Unknown datetime string format, unable to parse: " ++ s))
  | CBool _ => Some (TypeError "<class 'bool'> is not convertible to datetime")
  | _ => None
  end.

(** ** Regular expressions *)

(** A set of characters: ranges, possibly complemented. *)
Record charset : Type := {
  cs_negated : bool;
  cs_ranges : list (ascii * ascii)
}.

Inductive atom : Type :=
| AtStart               (* [^] *)
| AtEnd                 (* [$] *)
| OneOf (cs : charset).

Inductive quantifier : Type := Once | ZeroOrMore | OneOrMore | ZeroOrOne.

Record pattern : Type := {
  pat_ignorecase : bool;
  pat_items : list (atom * quantifier)
}.

Definition in_ranges (ranges : list (ascii * ascii)) (c : ascii) : bool :=
  existsb (fun r => (nat_of_ascii (fst r) <=? nat_of_ascii c)%nat
                    && (nat_of_ascii c <=? nat_of_ascii (snd r))%nat) ranges.

Definition in_charset (ignorecase : bool) (cs : charset) (c : ascii) : bool :=
  let hit :=
    in_ranges (cs_ranges cs) c
    || (ignorecase && (in_ranges (cs_ranges cs) (lower_char c)
                       || in_ranges (cs_ranges cs) (upper_char c))) in
  if cs_negated cs then negb hit else hit.

Definition lf : ascii := ascii_of_nat 10.

(** Does the item list match at the head of [s]?  [at_start] tells
    whether [s] is the whole subject. *)
Fixpoint match_items (ignorecase : bool) (items : list (atom * quantifier))
    (at_start : bool) (s : string) {struct items} : bool :=
  match items with
  | [] => true
  | (AtStart, _) :: rest => at_start && match_items ignorecase rest at_start s
  | (AtEnd, _) :: rest =>
      (String.eqb s EmptyString || String.eqb s (String lf EmptyString))
      && match_items ignorecase rest at_start s
  | (OneOf cs, q) :: rest =>
      let continue := match_items ignorecase rest in
      let repeat :=
        fix repeat (at_start : bool) (s : string) {struct s} : bool :=
          continue at_start s
          || match s with
             | String c s' => in_charset ignorecase cs c && repeat false s'
             | EmptyString => false
             end in
      match q with
      | Once =>
          match s with
          | String c s' => in_charset ignorecase cs c && continue false s'
          | EmptyString => false
          end
      | ZeroOrOne =>
          continue at_start s
          || match s with
             | String c s' => in_charset ignorecase cs c && continue false s'
             | EmptyString => false
             end
      | ZeroOrMore => repeat at_start s
      | OneOrMore =>
          match s with
          | String c s' => in_charset ignorecase cs c && repeat false s'
          | EmptyString => false
          end
      end
  end.

(** [regex.match(text)]: a match starting at position 0. *)
Definition pat_match (p : pattern) (text : string) : bool :=
  match_items (pat_ignorecase p) (pat_items p) true text.

Fixpoint search_from (p : pattern) (at_start : bool) (text : string) : bool :=
  match_items (pat_ignorecase p) (pat_items p) at_start text
  || match text with
     | String _ rest => search_from p false rest
     | EmptyString => false
     end.

(** [regex.search(text)]: a match starting anywhere. *)
Definition pat_search (p : pattern) (text : string) : bool :=
  search_from p true text.

Definition single (c : ascii) : charset :=
  {| cs_negated := false; cs_ranges := [(c, c)] |}.

Definition digit_ranges : list (ascii * ascii) := [("0", "9")]%char.
Definition word_ranges : list (ascii * ascii) :=
  [("a", "z"); ("A", "Z"); ("0", "9"); ("_", "_")]%char.
Definition space_ranges : list (ascii * ascii) :=
  [(ascii_of_nat 9, ascii_of_nat 13); (" ", " ")]%char.

(** What a backslash escape stands for: a set of characters, an error
    of [re] ([bad escape]), or an escape this fragment leaves out. *)
Inductive escape : Type :=
| EscSet (cs : charset)
| EscBad
| EscOther.

Fixpoint has_char (s : string) (c : ascii) : bool :=
  match s with
  | String c' rest => Ascii.eqb c c' || has_char rest c
  | EmptyString => false
  end.

(** [in_set] tells whether the escape stands inside [[...]], where
    [\A], [\B] and [\Z] are no escapes. *)
Definition escape_of (in_set : bool) (c : ascii) : escape :=
  match c with
  | "d"%char => EscSet {| cs_negated := false; cs_ranges := digit_ranges |}
  | "D"%char => EscSet {| cs_negated := true; cs_ranges := digit_ranges |}
  | "w"%char => EscSet {| cs_negated := false; cs_ranges := word_ranges |}
  | "W"%char => EscSet {| cs_negated := true; cs_ranges := word_ranges |}
  | "s"%char => EscSet {| cs_negated := false; cs_ranges := space_ranges |}
  | "S"%char => EscSet {| cs_negated := true; cs_ranges := space_ranges |}
  | _ =>
      if is_digit c then EscOther
      else if is_upper c || is_lower c then
        if has_char (if in_set then "abfnrtvxuUN" else "AbBZafnrtvxuUN") c
        then EscOther else EscBad
      else EscSet (single c)
  end.

Definition outside_fragment : string := "outside the pattern fragment".

(** The text of a [re.error]: the message and where it was found.  The
    tokenizer of [re] reads one token ahead, so a lone backslash right
    after the text consumed so far ([rest]) is reported first. *)
Definition error_at (total : nat) (rest msg : string) (pos : nat) : string :=
  if String.eqb rest "\"
  then "bad escape (end of pattern) at position " ++ str_of_nat (total - 1)
  else msg ++ " at position " ++ str_of_nat pos.

(** The inside of [[...]], after the optional [^]: the ranges and the
    text after the closing bracket.  [total] is the length of the whole
    pattern and [open_pos] the position of the opening bracket. *)
Fixpoint parse_set (total open_pos : nat) (s : string) (first : bool)
    (acc : list (ascii * ascii)) : string + (list (ascii * ascii) * string) :=
  let pos := total - String.length s in
  match s with
  | EmptyString =>
      inl (error_at total EmptyString "unterminated character set" open_pos)
  | String c tail =>
      if Ascii.eqb c "]" && negb first then inr (acc, tail)
      else if Ascii.eqb c "\" then
        match tail with
        | String e rest =>
            match escape_of true e with
            | EscSet cs =>
                if cs_negated cs then inl outside_fragment
                else
                  match rest with
                  | String "-"%char (String hi _) =>
                      if Ascii.eqb hi "]"
                      then parse_set total open_pos rest false (acc ++ cs_ranges cs)%list
                      else inl outside_fragment
                  | _ => parse_set total open_pos rest false (acc ++ cs_ranges cs)%list
                  end
            | EscBad =>
                inl (error_at total rest ("bad escape \" ++ String e EmptyString) pos)
            | EscOther => inl outside_fragment
            end
        | EmptyString => inl (error_at total "\" EmptyString pos)
        end
      else
        match tail with
        | String "-"%char (String hi rest) =>
            if Ascii.eqb hi "]" then parse_set total open_pos tail false (acc ++ [(c, c)])%list
            else if Ascii.eqb hi "\" then inl outside_fragment
            else if (nat_of_ascii hi <? nat_of_ascii c)%nat
            then inl (error_at total rest
                        ("bad character range " ++ String c (String "-" (String hi EmptyString)))
                        pos)
            else parse_set total open_pos rest false (acc ++ [(c, hi)])%list
        | _ => parse_set total open_pos tail false (acc ++ [(c, c)])%list
        end
  end.

Definition is_quantifier (c : ascii) : bool :=
  Ascii.eqb c "*" || Ascii.eqb c "+" || Ascii.eqb c "?".

(** The quantifier at the head of [s], a lazy marker after it being
    skipped, and what follows.  A [+] after a quantifier (possessive in
    recent versions of [re], an error before) is left out. *)
Definition parse_quantifier (total : nat) (s : string) : string + (quantifier * string) :=
  match s with
  | String q rest =>
      if is_quantifier q then
        let quant := if Ascii.eqb q "*" then ZeroOrMore
                     else if Ascii.eqb q "+" then OneOrMore else ZeroOrOne in
        match rest with
        | String "+"%char _ => inl outside_fragment
        | _ =>
            let rest :=
              match rest with
              | String "?"%char rest' => rest'
              | _ => rest
              end in
            match rest with
            | String q' rest' =>
                if is_quantifier q'
                then inl (error_at total rest' "multiple repeat"
                            (total - String.length rest))
                else inr (quant, rest)
            | EmptyString => inr (quant, rest)
            end
        end
      else inr (Once, s)
  | EmptyString => inr (Once, s)
  end.

Definition parse_atom (total : nat) (s : string) : string + (atom * string) :=
  let pos := total - String.length s in
  match s with
  | EmptyString => inl "empty"
  | String c rest =>
      match c with
      | "^"%char => inr (AtStart, rest)
      | "$"%char => inr (AtEnd, rest)
      | "."%char => inr (OneOf {| cs_negated := true; cs_ranges := [(lf, lf)] |}, rest)
      | "["%char =>
          let '(negated, body) :=
            match rest with
            | String "^"%char body => (true, body)
            | _ => (false, rest)
            end in
          match parse_set total pos body true [] with
          | inl e => inl e
          | inr (ranges, rest') =>
              inr (OneOf {| cs_negated := negated; cs_ranges := ranges |}, rest')
          end
      | "\"%char =>
          match rest with
          | String e rest' =>
              match escape_of false e with
              | EscSet cs => inr (OneOf cs, rest')
              | EscBad =>
                  inl (error_at total rest' ("bad escape \" ++ String e EmptyString) pos)
              | EscOther => inl outside_fragment
              end
          | EmptyString => inl (error_at total s EmptyString pos)
          end
      | "*"%char | "+"%char | "?"%char => inl (error_at total rest "nothing to repeat" pos)
      | "("%char | ")"%char | "|"%char | "{"%char | "}"%char => inl outside_fragment
      | _ => inr (OneOf (single c), rest)
      end
  end.

Definition is_at (a : atom) : bool :=
  match a with
  | AtStart | AtEnd => true
  | OneOf _ => false
  end.

Fixpoint parse_items (fuel total : nat) (s : string) : string + list (atom * quantifier) :=
  match s with
  | EmptyString => inr []
  | _ =>
      match fuel with
      | O => inl "pattern too long"
      | S fuel' =>
          match parse_atom total s with
          | inl e => inl e
          | inr (a, rest) =>
              let repeated_anchor :=
                match rest with
                | String q rest' =>
                    if is_at a && is_quantifier q
                    then Some (error_at total rest' "nothing to repeat"
                                 (total - String.length rest))
                    else None
                | EmptyString => None
                end in
              match repeated_anchor with
              | Some e => inl e
              | None =>
                  match parse_quantifier total rest with
                  | inl e => inl e
                  | inr (q, rest') =>
                      match parse_items fuel' total rest' with
                      | inl e => inl e
                      | inr items => inr ((a, q) :: items)
                      end
                  end
              end
          end
      end
  end.

(** [re.compile] on the fragment.  A pattern [re] refuses is refused
    with the text of its [re.error]; a pattern outside the fragment is
    refused too, which [re] may or may not do. *)
Definition compile (pat : string) (ignorecase : bool) : string + pattern :=
  match parse_items (String.length pat) (String.length pat) pat with
  | inl e => inl e
  | inr items => inr {| pat_ignorecase := ignorecase; pat_items := items |}
  end.

#[export] Instance runtime : PyRuntime := {|
  pyfloat := Q;
  float_zero := 0%Q;
  float_is_nan := fun _ => false;
  float_truthy := fun q => negb (Qeq_bool q 0%Q);
  float_of_Z := fun z => Ok (inject_Z z);
  float_of_string := parse_float;
  float_trunc := fun q => Ok (Z.quot (Qnum q) (Z.pos (Qden q)));
  float_differs := fun q z => negb (Qeq_bool q (inject_Z z));
  float_cmp := q_cmp;
  float_cmp_Z := fun q z => q_cmp q (inject_Z z);
  float_repr := q_repr;
  float_fmt_2f := q_fmt_2f;
  percent_of := q_percent;
  timestamp := Empty_set;
  ts_is_nat := fun t => match t with end;
  ts_str := fun t => match t with end;
  to_datetime := q_to_datetime;
  str_lower := lower;
  regex := pattern;
  re_compile := compile;
  re_match := pat_match;
  re_search := pat_search
|}.

End TestRuntime.

(* ================================================================== *)
(** * What the specification says, as definitions

    These follow the wording of the specification; the theorems below
    compare them with the engine. *)
(* ================================================================== *)

Section Specification.
Context {RT : PyRuntime}.

(** [l1] lists some elements of [l2], in the order of [l2]. *)
Inductive Subsequence {A : Type} : list A -> list A -> Prop :=
| sub_done : forall l, Subsequence [] l
| sub_keep : forall x l1 l2, Subsequence l1 l2 -> Subsequence (x :: l1) (x :: l2)
| sub_drop : forall x l1 l2, Subsequence l1 l2 -> Subsequence l1 (x :: l2).

(** The cells of a column paired with their row labels, in row order. *)
Definition rows_of (df : DataFrame) (vals : list pycell) : list (Z * pycell) :=
  combine (df_index df) vals.

(** ** range *)

(** A bound as the schema declares it: unset, or a number. *)
Definition is_bound (v : pyval) : bool :=
  match v with
  | VNone | VBool _ | VInt _ | VFloat _ => true
  | _ => false
  end.

(** [v < bound] and its siblings; an unset bound disables the test. *)
Definition num_test (test : pycmp -> bool) (v : pyfloat) (bound : pyval) : bool :=
  negb (is_none bound)
  && match py_compare v bound with Some c => test c | None => false end.

Definition num_lt := num_test cmp_lt.
Definition num_le := num_test cmp_le.
Definition num_gt := num_test cmp_gt.
Definition num_ge := num_test cmp_ge.

(** [float(val)] succeeds *)
Definition is_numeric (val : pycell) : bool := is_ok (py_float val).

(** The rule the range validator applies: a row fails when its value is
    null, or is not numeric, or when [v = float(value)] has
    (inclusive and (v < min or v > max)) or (not inclusive and
    (v <= min or v >= max)).  The bounds are compared with the
    converted value [v], not with the value of the cell. *)
Definition range_fails (min_value max_value : pyval) (inclusive : bool)
    (val : pycell) : bool :=
  isna val
  || negb (is_numeric val)
  || match py_float val with
     | Ok v =>
         (inclusive && (num_lt v min_value || num_gt v max_value))
         || (negb inclusive && (num_le v min_value || num_ge v max_value))
     | Raise _ => false
     end.

(** ** regex *)

(** "a null value always fails; a non-null value is stringified and
    passes iff the compiled pattern matches at the start" *)
Definition regex_fails (rx : regex) (val : pycell) : bool :=
  isna val || negb (re_match rx (cell_str val)).

(** What is recorded for a failing row: [None] and a reason about the
    pattern for a null, the text otherwise. *)
Definition regex_detail (it : Z * pycell) : FailureDetail :=
  if isna (snd it)
  then {| fd_row := fst it; fd_value := CNone;
          fd_reason := "Null value cannot match pattern" |}
  else {| fd_row := fst it; fd_value := CStr (cell_str (snd it));
          fd_reason := "Does not match pattern" |}.

(** ** messages *)

(** "All {total} records passed" when there are zero failures, else
    "{failed}/{total} records failed {check-kind} validation" *)
Definition spec_message (kind : string) (failed total : nat) : string :=
  if Nat.eqb failed 0 then "All " ++ str_of_nat total ++ " records passed"
  else str_of_nat failed ++ "/" ++ str_of_nat total
         ++ " records failed " ++ kind ++ " validation".

(** The wording each built-in validator puts after "records failed". *)
Definition failure_wording (validator : string) : string :=
  if String.eqb validator "range" then "range validation"
  else if String.eqb validator "null_check" then "null check"
  else if String.eqb validator "regex" then "regex validation"
  else if String.eqb validator "type" then "type validation"
  else "custom validation".

Definition builtin_classes : list ValidatorClass :=
  [ RangeValidator.class; NullCheckValidator.class; RegexValidator.class;
    TypeValidator.class; CustomFunctionValidator.class ].

(** ** loader *)

(** An entry is structurally well-formed: a dict with a column and a
    validator name. *)
Definition structurally_well_formed (entry : RawEntry) : bool :=
  match entry with
  | EntryDict (Some _) (Some _) _ => true
  | _ => false
  end.

(** The entry names a validator the registry does not hold. *)
Definition unresolvable (reg : ValidatorRegistry.validators) (entry : RawEntry)
    : bool :=
  match entry with
  | EntryDict _ (Some name) _ => negb (dict_mem reg name)
  | _ => false
  end.

Definition raises_unknown_validator {A : Type} (c : result A) : bool :=
  match c with Raise e => is_UnknownValidatorError e | Ok _ => false end.

Definition raises_config_error {A : Type} (c : result A) : bool :=
  match c with Raise e => is_InvalidConfigError e | Ok _ => false end.

(** ** pipeline *)


(** Every entry's column is present and its validator returns. *)
Definition all_complete (df : DataFrame) (specs : list (string * Validator)) : bool :=
  forallb (fun spec => df_has_column df (fst spec)
                       && is_ok (validator_validate (snd spec) df (fst spec))) specs.

(** The results of the entries, in order, where every validator returns. *)
Definition results_in_order (df : DataFrame) (specs : list (string * Validator))
    (results : list ValidationResult) : Prop :=
  Forall2 (fun spec res => validator_validate (snd spec) df (fst spec) = Ok res)
          specs results.

Definition count_passed (results : list ValidationResult) : nat :=
  length (filter passed results).

Definition count_failed (results : list ValidationResult) : nat :=
  length (filter (fun res => negb (passed res)) results).

(** ** The sentences the code departs from, as worded *)


(** "for every configuration whose entries are structurally well-formed
    but reference a validator name absent from the registry, load fails
    with the unknown-validator kind" *)
Definition load_fails_with_unknown_validator (reg : ValidatorRegistry.validators)
    (entries : list RawEntry) : Prop :=
  forallb structurally_well_formed entries = true ->
  existsb (unresolvable reg) entries = true ->
  raises_unknown_validator
    (ConfigLoader.load_config reg (ConfigDict (ValidationsList entries))) = true.

(** "the message is ... {failed}/{total} records failed {check-kind}
    validation, for its check kind" *)
Definition message_as_specified (r : ValidationResult) : Prop :=
  exists kind, message r = spec_message kind (failed_records r) (total_records r).

End Specification.

(* ================================================================== *)
(** * Example tables and configurations, on the executable runtime *)
(* ================================================================== *)

Module Examples.
Import TestRuntime.

(** [pd.DataFrame({column: vals})]: one column under a [RangeIndex]. *)
Definition frame (column : string) (vals : list pycell) : DataFrame :=
  {| df_index := map Z.of_nat (seq 0 (length vals));
     df_columns := [(column, vals)] |}.

Definition ints (l : list Z) : list pycell := map CInt l.
Definition strs (l : list string) : list pycell := map CStr l.

(** The configurations of [tests/test_validators.py]. *)
Definition range_0_10 (inclusive : bool) : dict pyval :=
  [("min_value", VInt 0); ("max_value", VInt 10); ("inclusive", VBool inclusive)].

Definition lowercase_word (case_sensitive : bool) : dict pyval :=
  [("pattern", VStr "^[a-z]+$"); ("case_sensitive", VBool case_sensitive)].

(** Nulls allowed up to 50 percent; one null in four rows. *)
Definition nulls_allowed_50 : dict pyval :=
  [("allow_null", VBool true); ("max_null_percent", VFloat (50 # 1)%Q)].

Definition one_null_in_four : DataFrame :=
  frame "v" [CInt 5; CNone; CInt 11; CInt 3].



(** A document whose first entry supplies an undeclared parameter and
    whose second names an unregistered validator. *)
Definition bogus_then_unknown : RawConfig :=
  ConfigDict (ValidationsList
    [ EntryDict (Some "a") (Some "range") (Some [("bogus", VInt 1)]);
      EntryDict (Some "a") (Some "nope") None ]).

(** The pipeline of [test_pipeline_multiple_validations]. *)
Definition num_word_config : PipelineConfig :=
  {| validations :=
       [ EntryDict (Some "num") (Some "range")
                   (Some [("min_value", VInt 0); ("max_value", VInt 10)]);
         EntryDict (Some "word") (Some "regex") (Some (lowercase_word false)) ] |}.

Definition num_word_specs : list (string * Validator) :=
  [ ("num", {| v_class := RangeValidator.class;
               v_config := [("min_value", VInt 0); ("max_value", VInt 10)] |});
    ("word", {| v_class := RegexValidator.class;
                v_config := lowercase_word false |}) ].

Definition num_word_table : DataFrame :=
  {| df_index := [0; 1; 2; 3]%Z;
     df_columns :=
       [ ("num", ints [5; 0; 10; 15]%Z);
         ("word", strs ["good"; "Bad"; "ok"; "excellent"]) ] |}.

End Examples.

(* ================================================================== *)
(** * The rest of the registry and of the pipeline *)
(* ================================================================== *)

(** Python compares [str] by code point, which on UTF-8 text is the
    byte-wise order of [String.leb]. *)
Module StringOrder <: Orders.TotalLeBool.
Definition t : Type := string.
Definition leb : string -> string -> bool := String.leb.
Definition leb_total :
  forall a1 a2 : string, is_true (leb a1 a2) \/ is_true (leb a2 a1) :=
  String.leb_total.
End StringOrder.

Module StringSort := Sort StringOrder.

Section MoreOfTheEngine.
Context {RT : PyRuntime}.

(** [ValidatorRegistry.list_validators]: [sorted(cls._validators.keys())] *)
Definition list_validators (reg : ValidatorRegistry.validators) : list string :=
  StringSort.sort (dict_keys reg).

(** [repr] of a cell value, as [f"{value!r}"] shows it; the runtime
    interface has [str] only, so the summary takes it as a parameter. *)
Variable cell_repr : pycell -> string.

(** One line of the summary per failure detail; the row label, an
    [int], is shown 1-based. *)
Definition detail_line (detail : FailureDetail) : string :=
  let row_num_display := (fd_row detail + 1)%Z in
  "     - Row " ++ str_of_Z row_num_display ++ ": value="
    ++ cell_repr (fd_value detail) ++ ", reason=" ++ fd_reason detail.

(** The lines of one validator: header, status, message and, for a
    failed one, its failed records. *)
Definition result_lines (idx : nat) (spec : string * Validator)
    (res : ValidationResult) : list string :=
  let status := if passed res then "✓ PASSED" else "✗ FAILED" in
  let head : list string :=
    [ newline ++ str_of_nat idx ++ ". Validator: " ++ validator_name res
        ++ " (column: " ++ fst spec ++ ")";
      "   Status: " ++ status;
      "   Message: " ++ message res ] in
  let failed : list string :=
    if negb (passed res)
    then "   Failed Records:" :: map detail_line (error_details res)
    else [] in
  List.app head failed.

(** [for idx, (spec, result) in enumerate(zip(specs, results), start=1)] *)
Fixpoint results_lines (idx : nat) (specs : list (string * Validator))
    (results : list ValidationResult) : list string :=
  match specs, results with
  | spec :: specs', res :: results' =>
      (result_lines idx spec res ++ results_lines (S idx) specs' results')%list
  | _, _ => []
  end.

(** The lines [get_summary] joins.  [duration] is the text of
    [f"{duration_seconds:.3f}"] for the retained result, which the
    model of [run] does not time. *)
Definition summary_lines (specs : list (string * Validator))
    (last : ValidationPipeline.PipelineResult) (duration : option string)
    : list string :=
  let total := str_of_nat (ValidationPipeline.total_validations last) in
  let overall :=
    if ValidationPipeline.pr_passed last then "PASSED" else "FAILED" in
  let closing : list string :=
    [ newline ++ "==================";
      "Overall Result: " ++ overall;
      "Passed: " ++ str_of_nat (ValidationPipeline.passed_validations last)
        ++ "/" ++ total ++ " validations";
      "Failed: " ++ str_of_nat (ValidationPipeline.failed_validations last)
        ++ "/" ++ total ++ " validations" ] in
  let timing : list string :=
    match duration with
    | Some d => [ "Total validation time: " ++ d ++ " seconds." ]
    | None => []
    end in
  List.app [ "Validation Results:"; "==================" ]
    (List.app (results_lines 1 specs (ValidationPipeline.results last))
       (List.app closing timing)).

(** [ValidationPipeline.get_summary]: [inl msg] stands for
    [RuntimeError(msg)]. *)
Definition get_summary (self : ValidationPipeline.t) (duration : option string)
    : string + string :=
  match ValidationPipeline.last_result self with
  | None => inl "Pipeline has not been run yet."
  | Some last =>
      inr (join newline
             (summary_lines (ValidationPipeline.validator_specs self) last duration))
  end.

End MoreOfTheEngine.

(* ================================================================== *)
(** * Further behaviour of the validators, as definitions *)
(* ================================================================== *)

Section MoreSpecification.
Context {RT : PyRuntime}.

(** A row no bound is ever compared with: null, or not a number. *)
Definition unusable (val : pycell) : bool := isna val || negb (is_numeric val).

(** The reason the range validator gives for a failing row: null before
    non-numeric before the lower bound before the upper bound. *)
Definition range_reason (min_value max_value : pyval) (inclusive : bool)
    (val : pycell) : string :=
  if isna val then "Null value"
  else
    match py_float val with
    | Raise _ => "Value is not numeric"
    | Ok v =>
        if inclusive then
          if num_lt v min_value then "Value below minimum " ++ py_str min_value
          else "Value above maximum " ++ py_str max_value
        else
          if num_le v min_value
          then "Value not greater than minimum " ++ py_str min_value
          else "Value not less than maximum " ++ py_str max_value
    end.

(** What the null-check validator records for a null row. *)
Definition null_detail (reason : string) (it : Z * pycell) : FailureDetail :=
  {| fd_row := fst it; fd_value := CNone; fd_reason := reason |}.

Definition null_rows (series : list (Z * pycell)) : list (Z * pycell) :=
  filter (fun it => isna (snd it)) series.

(** The custom validator fails a row when the callable raises or
    returns a falsy value. *)
Definition custom_fails (func : pyval) (val : pycell) : bool :=
  match py_call func val with
  | Raise _ => true
  | Ok res => negb res
  end.

Definition custom_detail (func error_message : pyval) (it : Z * pycell)
    : FailureDetail :=
  {| fd_row := fst it;
     fd_value := snd it;
     fd_reason :=
       match py_call func (snd it) with
       | Raise e => "Exception in validation function: " ++ exn_msg e
       | Ok _ => if truthy error_message then py_str error_message
                 else "Custom validation failed"
       end |}.

(** Strict [int]: null rows and rows holding anything but an [int]
    (a [bool] is one) fail. *)
Definition strict_int_fails (val : pycell) : bool :=
  isna val || negb (cell_is_int val).

Definition strict_int_detail (it : Z * pycell) : FailureDetail :=
  {| fd_row := fst it;
     fd_value := snd it;
     fd_reason := if isna (snd it) then "Null value"
                  else "Expected int but got " ++ cell_type_name (snd it) |}.

(** Every class of the registry has a schema with distinct keys, as a
    [dict] has. *)
Definition schemas_distinct (reg : ValidatorRegistry.validators) : Prop :=
  forall name cls,
    ValidatorRegistry.get_validator reg name = Some cls ->
    NoDup (dict_keys (vc_get_required_params cls)).

(** The document a loaded configuration is, when written back. *)
Definition as_document (cfg : PipelineConfig) : RawConfig :=
  ConfigDict (ValidationsList (validations cfg)).

Definition entry_column (entry : RawEntry) : option string :=
  match entry with EntryDict column _ _ => column | EntryOther => None end.

Definition entry_validator (entry : RawEntry) : option string :=
  match entry with EntryDict _ name _ => name | EntryOther => None end.

(** The value the loader takes for a schema parameter: the supplied
    one, else the default. *)
Definition value_of (params : dict pyval) (entry : string * ParamMeta) : pyval :=
  match dict_get params (fst entry) with
  | Some supplied => supplied
  | None => pm_default (snd entry)
  end.

(** The params mapping of a normalised entry, in schema order. *)
Definition expected_params (params : dict pyval) (schema : dict ParamMeta)
    : dict pyval :=
  map (fun entry => (fst entry, value_of params entry)) schema.

End MoreSpecification.

(* ================================================================== *)
(** * A runtime whose [float] rounds integers

    [TestRuntime] with one difference: [float(i)] rounds the integer
    [i] to the nearest number with a significand of 53 bits, ties to
    even, as binary64 does, and raises [OverflowError] when that is
    2^1024 or more.  Floats are still held as rationals and compared
    exactly, which is how Python compares a float with an int. *)
(* ================================================================== *)

Module RoundingRuntime.

Definition round_to_53_bits (z : Z) : Z :=
  let a := Z.abs z in
  let excess := (Z.log2 a + 1 - 53)%Z in
  if (excess <=? 0)%Z then z
  else
    let q := Z.shiftr a excess in
    let r := (a - Z.shiftl q excess)%Z in
    let half := Z.shiftl 1 (excess - 1) in
    let q' :=
      if (r <? half)%Z then q
      else if (half <? r)%Z then (q + 1)%Z
      else if Z.even q then q else (q + 1)%Z in
    (Z.sgn z * Z.shiftl q' excess)%Z.

Definition float_of_int (z : Z) : result Q :=
  let r := round_to_53_bits z in
  if (2 ^ 1024 <=? Z.abs r)%Z
  then Raise (OverflowError "int too large to convert to float")
  else Ok (inject_Z r).

Definition runtime : PyRuntime := {|
  pyfloat := Q;
  float_zero := 0%Q;
  float_is_nan := fun _ => false;
  float_truthy := fun q => negb (Qeq_bool q 0%Q);
  float_of_Z := float_of_int;
  float_of_string := TestRuntime.parse_float;
  float_trunc := fun q => Ok (Z.quot (Qnum q) (Z.pos (Qden q)));
  float_differs := fun q z => negb (Qeq_bool q (inject_Z z));
  float_cmp := TestRuntime.q_cmp;
  float_cmp_Z := fun q z => TestRuntime.q_cmp q (inject_Z z);
  float_repr := TestRuntime.q_repr;
  float_fmt_2f := TestRuntime.q_fmt_2f;
  percent_of := TestRuntime.q_percent;
  timestamp := Empty_set;
  ts_is_nat := fun t => match t with end;
  ts_str := fun t => match t with end;
  to_datetime := TestRuntime.q_to_datetime;
  str_lower := TestRuntime.lower;
  regex := TestRuntime.pattern;
  re_compile := TestRuntime.compile;
  re_match := TestRuntime.pat_match;
  re_search := TestRuntime.pat_search
|}.

End RoundingRuntime.

(* ================================================================== *)
(** * The range rule on the value itself

    The rule of the range validator read on the value of the cell,
    before any conversion: an integer (a [bool] is one) is compared
    with the bound as the integer it is.  A float is its own value and
    a text has no other numeric value than [float] of it. *)
(* ================================================================== *)

Section RangeOnValues.
Context {RT : PyRuntime}.

Definition cmp_of (c : comparison) : pycmp :=
  match c with
  | Lt => CmpLt
  | Eq => CmpEq
  | Gt => CmpGt
  end.

Definition cmp_flip (c : pycmp) : pycmp :=
  match c with
  | CmpLt => CmpGt
  | CmpGt => CmpLt
  | _ => c
  end.

(** The order of the integer [z] against a bound. *)
Definition int_compare (z : Z) (bound : pyval) : option pycmp :=
  match bound with
  | VBool b => Some (cmp_of (z ?= (if b then 1 else 0))%Z)
  | VInt m => Some (cmp_of (z ?= m)%Z)
  | VFloat f => Some (cmp_flip (float_cmp_Z f z))
  | _ => None
  end.

(** The order of the value of a cell against a bound. *)
Definition value_compare (val : pycell) (bound : pyval) : option pycmp :=
  match val with
  | CBool b => int_compare (if b then 1 else 0)%Z bound
  | CInt z => int_compare z bound
  | _ =>
      match py_float val with
      | Ok v => py_compare v bound
      | Raise _ => None
      end
  end.

(** [value < bound] and its siblings; an unset bound disables the test. *)
Definition value_test (test : pycmp -> bool) (val : pycell) (bound : pyval) : bool :=
  negb (is_none bound)
  && match value_compare val bound with Some c => test c | None => false end.

(** "fails a row if and only if its value is null, or is not numeric,
    or (inclusive is true and (value < min_value or value > max_value))
    or (inclusive is false and (value <= min_value or value >=
    max_value)), where an unset bound disables that side" *)
Definition range_fails_on_value (min_value max_value : pyval) (inclusive : bool)
    (val : pycell) : bool :=
  isna val
  || negb (is_numeric val)
  || (inclusive
      && (value_test cmp_lt val min_value || value_test cmp_gt val max_value))
  || (negb inclusive
      && (value_test cmp_le val min_value || value_test cmp_ge val max_value)).

(** The rows [validate] fails are those the rule on values fails. *)
Definition range_validate_fails_on_value (config : dict pyval) (df : DataFrame)
    (column : string) (vals : list pycell) : Prop :=
  let min_value := config_get config "min_value" in
  let max_value := config_get config "max_value" in
  let inclusive := truthy (config_get_default config "inclusive" (VBool true)) in
  exists r, RangeValidator.validate config df column = Ok r /\
    map (fun d => (fd_row d, fd_value d)) (error_details r) =
    filter (fun it => range_fails_on_value min_value max_value inclusive (snd it))
           (rows_of df vals).

End RangeOnValues.

(* ================================================================== *)
(** * Callables and validators that keep state

    A Python callable is an object: calling it may read and change
    what it holds (a closure variable, an attribute, a global), and so
    may the [validate] of a validator class registered by a user.  Here
    that state is explicit: [store] stands for the objects the
    validators of a pipeline can reach, and every call takes the store
    and returns it, changed or not.  The validators of [validators/]
    are the special case that leaves the store alone. *)
(* ================================================================== *)

Module StatefulValidation.
Section Def.
Context {RT : PyRuntime} {store : Type}.

(** What [func(val)] does, as far as the custom-function validator can
    tell: it raises an [Exception], or it returns an object, whose
    truth test ([not result]) gives a truth value or raises in turn. *)
Inductive outcome : Type :=
| Raises (e : exn)
| Returns (truth : result bool).

Definition callable_object : Type := store -> pycell -> outcome * store.

(** A configuration value as a callable object: a function of the
    value that holds no state and returns something with a truth
    value; calling anything else raises [TypeError]. *)
Definition of_value (func : pyval) : callable_object :=
  fun s val =>
    (match py_call func val with
     | Raise e => Raises e
     | Ok res => Returns (Ok res)
     end, s).

(** The loop of [CustomFunctionValidator.validate] over
    [series.items()].  The call is inside the [try], the truth test of
    its result is after it. *)
Fixpoint custom_loop (func : callable_object) (error_message : pyval)
    (items : list (Z * pycell)) (failed_details : list FailureDetail) (s : store)
    : result (list FailureDetail) * store :=
  match items with
  | [] => (Ok failed_details, s)
  | (idx, val) :: rest =>
      let '(out, s') := func s val in
      match out with
      | Raises e =>
          custom_loop func error_message rest
            (failed_details ++
               [{| fd_row := idx; fd_value := val;
                   fd_reason := "Exception in validation function: " ++ exn_msg e |}])%list
            s'
      | Returns (Raise e) => (Raise e, s')
      | Returns (Ok res) =>
          if negb res then
            let reason :=
              if truthy error_message then py_str error_message
              else "Custom validation failed" in
            custom_loop func error_message rest
              (failed_details ++
                 [{| fd_row := idx; fd_value := val; fd_reason := reason |}])%list
              s'
          else custom_loop func error_message rest failed_details s'
      end
  end.

(** [CustomFunctionValidator.validate] with [func] the object stored
    under [validation_func]. *)
Definition custom_validate (func : callable_object) (config : dict pyval)
    (s : store) (df : DataFrame) (column : string)
    : result ValidationResult * store :=
  let error_message := config_get config "error_message" in
  let total := df_len df in
  match df_items df column with
  | Raise e => (Raise e, s)
  | Ok series =>
      match custom_loop func error_message series [] s with
      | (Raise e, s') => (Raise e, s')
      | (Ok failed_details, s') =>
          (Ok (make_result CustomFunctionValidator.name "custom validation"
                 total failed_details), s')
      end
  end.

(** [validator.validate(df, column)] of a validator instance. *)
Definition stateful_validator : Type :=
  store -> DataFrame -> string -> result ValidationResult * store.

(** An instance of a class of [validators/]. *)
Definition of_validator (v : Validator) : stateful_validator :=
  fun s df column => (validator_validate v df column, s).

(** A custom-function validator built with a callable object. *)
Definition custom (func : callable_object) (config : dict pyval)
    : stateful_validator :=
  custom_validate func config.

(** The pipeline object and the store its validators reach. *)
Record t : Type := {
  validator_specs : list (string * stateful_validator);
  heap : store;
  last_result : option ValidationPipeline.PipelineResult
}.

(** The loop of [run]: the results so far, the two counters and the
    store.  What a validator did to the store stays done when a later
    one raises. *)
Fixpoint run_loop (df : DataFrame) (specs : list (string * stateful_validator))
    (results : list ValidationResult) (passed_count failed_count : nat) (s : store)
    : result (list ValidationResult * nat * nat) * store :=
  match specs with
  | [] => (Ok (results, passed_count, failed_count), s)
  | (col, validator) :: rest =>
      if negb (df_has_column df col) then
        (Raise (InvalidConfigError ("Column '" ++ col ++ "' not found in input data.")),
         s)
      else
        match validator s df col with
        | (Raise e, s') => (Raise e, s')
        | (Ok res, s') =>
            if passed res
            then run_loop df rest (results ++ [res])%list (S passed_count) failed_count s'
            else run_loop df rest (results ++ [res])%list passed_count (S failed_count) s'
        end
  end.

(** [pipeline.run(df)]: the outcome and the pipeline afterwards. *)
Definition run (self : t) (df : DataFrame)
    : result ValidationPipeline.PipelineResult * t :=
  let total := length (validator_specs self) in
  match run_loop df (validator_specs self) [] 0 0 (heap self) with
  | (Raise e, s') =>
      (Raise e,
       {| validator_specs := validator_specs self;
          heap := s';
          last_result := last_result self |})
  | (Ok (results, passed_count, failed_count), s') =>
      let overall_passed := Nat.eqb failed_count 0 in
      let pipeline_result :=
        {| ValidationPipeline.pr_passed := overall_passed;
           ValidationPipeline.total_validations := total;
           ValidationPipeline.passed_validations := passed_count;
           ValidationPipeline.failed_validations := failed_count;
           ValidationPipeline.results := results |} in
      (Ok pipeline_result,
       {| validator_specs := validator_specs self;
          heap := s';
          last_result := Some pipeline_result |})
  end.

End Def.
End StatefulValidation.

Section StatefulSpecification.
Context {RT : PyRuntime} {store : Type}.

(** The calls the custom-function validator makes on a column, in row
    order, were no truth test to raise: row, value and what the call
    did. *)
Fixpoint calls (func : StatefulValidation.callable_object (store := store))
    (items : list (Z * pycell)) (s : store)
    : list (Z * pycell * StatefulValidation.outcome) :=
  match items with
  | [] => []
  | (idx, val) :: rest =>
      let '(out, s') := func s val in
      (idx, val, out) :: calls func rest s'
  end.

(** The truth test of the returned object raises. *)
Definition truth_raises (out : StatefulValidation.outcome) : bool :=
  match out with
  | StatefulValidation.Returns (Raise _) => true
  | _ => false
  end.

(** The call raises or returns a falsy value. *)
Definition call_fails (out : StatefulValidation.outcome) : bool :=
  match out with
  | StatefulValidation.Raises _ => true
  | StatefulValidation.Returns (Ok res) => negb res
  | StatefulValidation.Returns (Raise _) => false
  end.

Definition call_detail (error_message : pyval)
    (c : Z * pycell * StatefulValidation.outcome) : FailureDetail :=
  {| fd_row := fst (fst c);
     fd_value := snd (fst c);
     fd_reason :=
       match snd c with
       | StatefulValidation.Raises e =>
           "Exception in validation function: " ++ exn_msg e
       | StatefulValidation.Returns _ =>
           if truthy error_message then py_str error_message
           else "Custom validation failed"
       end |}.

(** What the validator returns for [column] of [df] does not depend on
    the store it finds. *)
Definition store_independent (df : DataFrame) (column : string)
    (v : StatefulValidation.stateful_validator (store := store)) : Prop :=
  forall s s', fst (v s df column) = fst (v s' df column).

Definition all_store_independent (df : DataFrame)
    (specs : list (string * StatefulValidation.stateful_validator (store := store)))
    : Prop :=
  Forall (fun spec => store_independent df (fst spec) (snd spec)) specs.

(** The results are those of the entries, in specification order. *)
Definition stateful_results_in_order (df : DataFrame)
    (specs : list (string * StatefulValidation.stateful_validator (store := store)))
    (results : list ValidationResult) : Prop :=
  Forall2 (fun spec res => forall s, fst (snd spec s df (fst spec)) = Ok res)
          specs results.

(** "Running the same pipeline instance twice on the same table yields
    two PipelineResults with identical counts and identical
    per-validator failure sets" *)
Definition run_twice_identical (self : StatefulValidation.t (store := store))
    (df : DataFrame) : Prop :=
  let first := StatefulValidation.run self df in
  let second := StatefulValidation.run (snd first) df in
  fst second = fst first.

End StatefulSpecification.

Module StatefulExamples.
Import TestRuntime.

(** A callable that accepts the first value it is ever given and no
    other:
    [seen = []]
    [def once(value): seen.append(value); return len(seen) == 1]
    The store is the length of [seen]. *)
Definition once : StatefulValidation.callable_object (store := nat) :=
  fun seen _ => (StatefulValidation.Returns (Ok (Nat.eqb seen 0)), S seen).

Definition once_pipeline : StatefulValidation.t (store := nat) :=
  {| StatefulValidation.validator_specs := [("x", StatefulValidation.custom once [])];
     StatefulValidation.heap := 0;
     StatefulValidation.last_result := None |}.

Definition once_table : DataFrame := Examples.frame "x" (Examples.ints [1]%Z).

(** The pipeline of [test_pipeline_multiple_validations], whose
    validators leave the store alone. *)
Definition num_word_pipeline : StatefulValidation.t (store := unit) :=
  {| StatefulValidation.validator_specs :=
       map (fun spec => (fst spec, StatefulValidation.of_validator (snd spec)))
           Examples.num_word_specs;
     StatefulValidation.heap := tt;
     StatefulValidation.last_result := None |}.

(** What [bool()] of a NumPy array of several elements raises. *)
Definition array_truth_error : exn :=
  ValueError ("The truth value of an array with more than one element is ambiguous. "
                ++ "Use a.any() or a.all()").

(** A callable that compares an integer with 0, raises on a null and
    on text returns an object without a truth value:
    [def positive(value):]
    [    if isinstance(value, str): return np.array([0, 1])]
    [    if type(value) is not int: raise TypeError("not a number")]
    [    return value > 0] *)
Definition no_truth_on_text : StatefulValidation.callable_object (store := unit) :=
  fun s val =>
    (match val with
     | CInt z => StatefulValidation.Returns (Ok (0 <? z)%Z)
     | CStr _ =>
         StatefulValidation.Returns (Raise array_truth_error)
     | _ => StatefulValidation.Raises (TypeError "not a number")
     end, s).

End StatefulExamples.

(* ================================================================== *)
(** * Loops over a column *)
(* ================================================================== *)

Section LoopLemmas.
Context {RT : PyRuntime}.

(** A body that never raises and appends exactly on the rows [P] selects
    leaves one detail per selected row, in row order. *)
Lemma for_items_filter {B : Type} (proj : FailureDetail -> B)
    (tag : Z * pycell -> B)
    (body : Z -> pycell -> result (option FailureDetail))
    (P : Z * pycell -> bool) :
  forall items acc,
    (forall it, In it items ->
       exists o, body (fst it) (snd it) = Ok o /\
                 (if P it then exists d, o = Some d /\ proj d = tag it
                  else o = None)) ->
    exists ds, for_items body items acc = Ok (acc ++ ds)%list /\
               map proj ds = map tag (filter P items).
Proof.
  induction items as [|[idx val] rest IH]; intros acc Hbody.
  - exists []. simpl. rewrite app_nil_r. auto.
  - destruct (Hbody (idx, val) (or_introl eq_refl)) as (o & Ho & HP).
    simpl in Ho. simpl. rewrite Ho.
    assert (Hrest : forall it, In it rest ->
              exists o, body (fst it) (snd it) = Ok o /\
                        (if P it then exists d, o = Some d /\ proj d = tag it
                         else o = None))
      by (intros it Hin; apply Hbody; right; exact Hin).
    destruct (P (idx, val)) eqn:EP.
    + destruct HP as (d & -> & Hd).
      destruct (IH (acc ++ [d])%list Hrest) as (ds & Hds & Hmap).
      exists (d :: ds). rewrite Hds, <- app_assoc. simpl.
      split; [reflexivity|]. now rewrite Hd, Hmap.
    + subst o. destruct (IH acc Hrest) as (ds & Hds & Hmap).
      exists ds. auto.
Qed.

Lemma for_items_filter_nil {B : Type} (proj : FailureDetail -> B)
    (tag : Z * pycell -> B)
    (body : Z -> pycell -> result (option FailureDetail))
    (P : Z * pycell -> bool) (items : list (Z * pycell)) :
  (forall it, In it items ->
     exists o, body (fst it) (snd it) = Ok o /\
               (if P it then exists d, o = Some d /\ proj d = tag it
                else o = None)) ->
  exists ds, for_items body items [] = Ok ds /\
             map proj ds = map tag (filter P items).
Proof.
  intros H. destruct (for_items_filter proj tag body P items [] H) as (ds & E & M).
  exists ds. auto.
Qed.

(** Whatever the body, the details a loop leaves come from rows taken
    in row order, provided each detail carries the label of its row. *)
Lemma for_items_rows (body : Z -> pycell -> result (option FailureDetail)) :
  (forall idx val d, body idx val = Ok (Some d) -> fd_row d = idx) ->
  forall items acc ds,
    for_items body items acc = Ok ds ->
    exists new, ds = (acc ++ new)%list /\
                Subsequence (map fd_row new) (map fst items).
Proof.
  intros Hrow. induction items as [|[idx val] rest IH]; intros acc ds H; simpl in H.
  - inversion H; subst. exists []. rewrite app_nil_r. split; [reflexivity|constructor].
  - destruct (body idx val) as [[d|]|e] eqn:Eb; try discriminate.
    + destruct (IH _ _ H) as (new & -> & Hsub).
      exists (d :: new). rewrite <- app_assoc. split; [reflexivity|].
      simpl. rewrite (Hrow _ _ _ Eb). now constructor.
    + destruct (IH _ _ H) as (new & -> & Hsub).
      exists new. split; [reflexivity|]. simpl. now constructor.
Qed.

Lemma Subsequence_refl {A : Type} (l : list A) : Subsequence l l.
Proof. induction l; constructor; assumption. Qed.

Lemma Subsequence_trans {A : Type} (l1 l2 l3 : list A) :
  Subsequence l1 l2 -> Subsequence l2 l3 -> Subsequence l1 l3.
Proof.
  intros H12 H23. revert l1 H12.
  induction H23 as [l|x l2 l3 H IH|x l2 l3 H IH]; intros l1 H12.
  - inversion H12; subst. constructor.
  - inversion H12; subst; constructor; auto.
  - constructor; auto.
Qed.

(** The labels of a column's rows are an initial part of the index. *)
Lemma combine_fst_Subsequence {A B : Type} (l : list A) (l' : list B) :
  Subsequence (map fst (combine l l')) l.
Proof.
  revert l'. induction l as [|a l IH]; intros [|b l']; simpl; constructor; auto.
Qed.

Lemma df_items_rows (df : DataFrame) (column : string) (series : list (Z * pycell)) :
  df_items df column = Ok series ->
  Subsequence (map fst series) (df_index df).
Proof.
  unfold df_items. destruct (dict_get (df_columns df) column); [|discriminate].
  intros H; inversion H; subst. apply combine_fst_Subsequence.
Qed.

(** [make_result] in the terms of the specification. *)
Lemma make_result_fields (name kind : string) (total : nat)
    (ds : list FailureDetail) :
  let r := make_result name kind total ds in
  error_details r = ds /\ failed_records r = length ds /\
  total_records r = total /\ validator_name r = name /\
  passed r = Nat.eqb (failed_records r) 0.
Proof. simpl. auto. Qed.

End LoopLemmas.

Lemma result_field_some {A B : Type} (f : A -> B) (c : result A) (b : B) :
  result_field f c = Some b -> exists r, c = Ok r /\ f r = b.
Proof.
  destruct c as [r|e]; simpl; intros H; [|discriminate].
  exists r. split; [reflexivity|congruence].
Qed.

(* ================================================================== *)
(** * The range validator *)
(* ================================================================== *)

Section RangeLemmas.
Context {RT : PyRuntime}.

Lemma check_lower_spec (min_value inclusive : pyval) (v : pyfloat) :
  is_bound min_value = true ->
  exists o, RangeValidator.check_lower min_value inclusive v = Ok o /\
    ((if truthy inclusive then num_lt v min_value else num_le v min_value) = true
       -> o <> None) /\
    ((if truthy inclusive then num_lt v min_value else num_le v min_value) = false
       -> o = None).
Proof.
  intros Hb. unfold RangeValidator.check_lower, num_lt, num_le, num_test,
    py_lt, py_le, py_order.
  destruct min_value; simpl in *; try discriminate;
    destruct (truthy inclusive); simpl;
    match goal with
    | |- context [cmp_lt ?c] => destruct (cmp_lt c)
    | |- context [cmp_le ?c] => destruct (cmp_le c)
    | _ => idtac
    end; eexists; (split; [reflexivity|]); split; intros; congruence.
Qed.

Lemma check_upper_spec (max_value inclusive : pyval) (v : pyfloat) :
  is_bound max_value = true ->
  exists o, RangeValidator.check_upper max_value inclusive v = Ok o /\
    ((if truthy inclusive then num_gt v max_value else num_ge v max_value) = true
       -> o <> None) /\
    ((if truthy inclusive then num_gt v max_value else num_ge v max_value) = false
       -> o = None).
Proof.
  intros Hb. unfold RangeValidator.check_upper, num_gt, num_ge, num_test,
    py_gt, py_ge, py_order.
  destruct max_value; simpl in *; try discriminate;
    destruct (truthy inclusive); simpl;
    match goal with
    | |- context [cmp_gt ?c] => destruct (cmp_gt c)
    | |- context [cmp_ge ?c] => destruct (cmp_ge c)
    | _ => idtac
    end; eexists; (split; [reflexivity|]); split; intros; congruence.
Qed.

(** One row: the loop body appends a detail for the row, carrying its
    label and value, exactly when the specification fails the row. *)
Lemma check_row_spec (min_value max_value inclusive : pyval) (idx : Z)
    (val : pycell) :
  is_bound min_value = true -> is_bound max_value = true ->
  exists o, RangeValidator.check_row min_value max_value inclusive idx val = Ok o /\
    (if range_fails min_value max_value (truthy inclusive) val
     then exists d, o = Some d /\ (fd_row d, fd_value d) = (idx, val)
     else o = None).
Proof.
  intros Hmin Hmax.
  unfold RangeValidator.check_row, range_fails, is_numeric, RangeValidator.fail.
  destruct (isna val); simpl; [eauto|].
  destruct (py_float val) as [v|e]; simpl; [|eauto].
  destruct (check_lower_spec min_value inclusive v Hmin) as (lo & -> & Hlo1 & Hlo0).
  destruct (check_upper_spec max_value inclusive v Hmax) as (up & Eup & Hup1 & Hup0).
  simpl. destruct (truthy inclusive); simpl in *.
  - destruct (num_lt v min_value); simpl.
    + destruct lo as [reason|]; [eauto|]. now destruct Hlo1.
    + rewrite (Hlo0 eq_refl), Eup. simpl.
      destruct (num_gt v max_value); simpl.
      * destruct up as [reason|]; [eauto|]. now destruct Hup1.
      * rewrite (Hup0 eq_refl). eauto.
  - destruct (num_le v min_value); simpl.
    + destruct lo as [reason|]; [eauto|]. now destruct Hlo1.
    + rewrite (Hlo0 eq_refl), Eup. simpl.
      destruct (num_ge v max_value); simpl.
      * destruct up as [reason|]; [eauto|]. now destruct Hup1.
      * rewrite (Hup0 eq_refl). eauto.
Qed.

End RangeLemmas.

(** C1. For the range validator with bounds unset or numeric and any
    [inclusive], on a column of the table [validate] returns a result
    whose failure details are, in row order, exactly the rows whose
    value is null, or not numeric, or whose conversion [float(value)]
    is outside the bounds ([<]/[>] when inclusive, [<=]/[>=] when not,
    an unset bound disabling its side); [failed_records] counts them.
    It is the converted value that is compared: an integer that
    [float] rounds is judged by what it rounds to.  In particular
    range(min=0, max=10, inclusive=false) over [0, 5, 10] has
    [failed_records = 2]. *)
Theorem range_validate_fails_iff :
  (forall (RT : PyRuntime) (config : dict pyval) (df : DataFrame)
          (column : string) (vals : list pycell),
      let min_value := config_get config "min_value" in
      let max_value := config_get config "max_value" in
      let inclusive := truthy (config_get_default config "inclusive" (VBool true)) in
      let failing :=
        filter (fun it => range_fails min_value max_value inclusive (snd it))
               (rows_of df vals) in
      is_bound min_value = true ->
      is_bound max_value = true ->
      dict_get (df_columns df) column = Some vals ->
      exists r, RangeValidator.validate config df column = Ok r /\
        map (fun d => (fd_row d, fd_value d)) (error_details r) = failing /\
        failed_records r = length failing /\
        passed r = Nat.eqb (length failing) 0)
  /\
  (exists r,
      RangeValidator.validate (RT := TestRuntime.runtime)
        (Examples.range_0_10 false)
        (Examples.frame "value" (Examples.ints [0; 5; 10]%Z)) "value" = Ok r /\
      failed_records r = 2).
Proof.
  split.
  - intros RT config df column vals min_value max_value inclusive failing
      Hmin Hmax Hcol.
    unfold RangeValidator.validate, df_items. rewrite Hcol. simpl.
    destruct (for_items_filter_nil (fun d => (fd_row d, fd_value d)) (fun it => it)
                (RangeValidator.check_row (config_get config "min_value")
                   (config_get config "max_value")
                   (config_get_default config "inclusive" (VBool true)))
                (fun it => range_fails min_value max_value inclusive (snd it))
                (combine (df_index df) vals)) as (ds & Hds & Hmap).
    { intros [idx val] _. simpl.
      destruct (check_row_spec (config_get config "min_value")
                  (config_get config "max_value")
                  (config_get_default config "inclusive" (VBool true))
                  idx val Hmin Hmax) as (o & Ho & Hspec).
      exists o. split; [exact Ho|]. exact Hspec. }
    rewrite Hds. simpl. eexists. split; [reflexivity|].
    rewrite map_id in Hmap. simpl.
    assert (Hlen : length ds = length failing).
    { rewrite <- (length_map (fun d => (fd_row d, fd_value d))), Hmap. reflexivity. }
    repeat split; [exact Hmap|exact Hlen|now rewrite Hlen].
  - apply (result_field_some failed_records). vm_compute. reflexivity.
Qed.

(** The general statement of C1 at the exclusive 0..10 range over
    [0, 5, 10]. *)
Lemma range_validate_fails_iff_witness :
  exists r,
    RangeValidator.validate (RT := TestRuntime.runtime)
      (Examples.range_0_10 false)
      (Examples.frame "value" (Examples.ints [0; 5; 10]%Z)) "value" = Ok r /\
    map (fun d => fd_row d) (error_details r) = [0; 2]%Z.
Proof.
  destruct (proj1 range_validate_fails_iff TestRuntime.runtime
              (Examples.range_0_10 false)
              (Examples.frame "value" (Examples.ints [0; 5; 10]%Z)) "value"
              (Examples.ints [0; 5; 10]%Z) eq_refl eq_refl eq_refl)
    as (r & Hr & Hrows & _).
  exists r. split; [exact Hr|].
  assert (E : map (fun d => fd_row d) (error_details r) =
              map fst (map (fun d => (fd_row d, fd_value d)) (error_details r)))
    by (rewrite map_map; reflexivity).
  rewrite E, Hrows. vm_compute. reflexivity.
Defined.

(** C1 read on the value itself fails where [float] rounds.  With
    [min_value = 2^53 + 1], inclusive, the row holding [2^53 + 1] is
    not below the minimum, yet [float] converts it to [2^53], which is,
    and the validator reports it. *)
Lemma range_validate_fails_on_value_counterexample :
  let big := (2 ^ 53 + 1)%Z in
  let config := [("min_value", @VInt RoundingRuntime.runtime big)] in
  let df :=
    @Build_DataFrame RoundingRuntime.runtime [0%Z] [("value", [CInt big])] in
  (exists r,
      RangeValidator.validate (RT := RoundingRuntime.runtime) config df "value" = Ok r /\
      map (fun d => (fd_row d, fd_reason d)) (error_details r) =
        [(0%Z, "Value below minimum 9007199254740993")]) /\
  range_fails_on_value (RT := RoundingRuntime.runtime)
    (VInt big) VNone true (CInt big) = false /\
  ~ range_validate_fails_on_value (RT := RoundingRuntime.runtime)
      config df "value" [CInt big].
Proof.
  intros big config df.
  assert (Hrun : exists r,
      RangeValidator.validate (RT := RoundingRuntime.runtime) config df "value" = Ok r /\
      map (fun d => (fd_row d, fd_reason d)) (error_details r) =
        [(0%Z, "Value below minimum 9007199254740993")]).
  { apply (result_field_some
             (fun r => map (fun d => (fd_row d, fd_reason d)) (error_details r))).
    vm_compute. reflexivity. }
  split; [exact Hrun|]. split; [vm_compute; reflexivity|].
  intros (r & Hr & Hrows).
  destruct Hrun as (r' & Hr' & Hdetails).
  rewrite Hr in Hr'. injection Hr' as <-.
  assert (Hnone :
    filter (fun it : Z * pycell =>
              range_fails_on_value
                (config_get config "min_value") (config_get config "max_value")
                (truthy (config_get_default config "inclusive" (VBool true)))
                (snd it))
           (rows_of df [CInt big]) = []) by (vm_compute; reflexivity).
  rewrite Hnone in Hrows.
  apply (f_equal (@length _)) in Hrows.
  apply (f_equal (@length _)) in Hdetails.
  rewrite length_map in Hrows, Hdetails. simpl in Hrows, Hdetails. congruence.
Qed.

(* ================================================================== *)
(** * The null-check validator *)
(* ================================================================== *)

Section NullCheckLemmas.
Context {RT : PyRuntime}.

(** The loop that records nulls leaves one detail per null row, with
    [None] as value and the given reason. *)
Lemma record_nulls_spec (reason : string) (series : list (Z * pycell)) :
  for_items (NullCheckValidator.record_nulls reason) series [] =
  Ok (map (fun it => {| fd_row := fst it; fd_value := CNone; fd_reason := reason |})
          (filter (fun it => isna (snd it)) series)).
Proof.
  destruct (for_items_filter_nil (fun d => d)
              (fun it => {| fd_row := fst it; fd_value := CNone; fd_reason := reason |})
              (NullCheckValidator.record_nulls reason)
              (fun it => isna (snd it)) series) as (ds & Hds & Hmap).
  - intros [idx val] _. unfold NullCheckValidator.record_nulls. simpl.
    destruct (isna val); eauto.
  - rewrite map_id in Hmap. now rewrite Hds, Hmap.
Qed.

End NullCheckLemmas.

(** C2. With [allow_null] true and [max_null_percent] set, when the
    null percentage does not exceed the limit the null-check validator
    still records one failure detail per null row, its reason citing
    the allowed limit; since [passed] is [failed_records == 0], the
    result has [passed = false] as soon as the column holds a null. *)
Theorem null_check_within_limit_still_fails :
  forall (RT : PyRuntime) (config : dict pyval) (df : DataFrame)
         (column : string) (vals : list pycell),
    let allow_null := config_get_default config "allow_null" (VBool false) in
    let max_null_percent := config_get config "max_null_percent" in
    let series := rows_of df vals in
    let nulls := filter (fun it => isna (snd it)) series in
    truthy allow_null = true ->
    is_none max_null_percent = false ->
    dict_get (df_columns df) column = Some vals ->
    py_gt (NullCheckValidator.null_percentage (length nulls) (length series))
          max_null_percent = Ok false ->
    exists r, NullCheckValidator.validate config df column = Ok r /\
      error_details r =
        map (fun it => {| fd_row := fst it; fd_value := CNone;
                          fd_reason := "Null present but within allowed "
                                         ++ py_str max_null_percent ++ "% limit" |})
            nulls /\
      failed_records r = length nulls /\
      passed r = Nat.eqb (failed_records r) 0 /\
      (nulls <> [] -> passed r = false).
Proof.
  intros RT config df column vals allow_null max_null_percent series nulls
    Hallow Hset Hcol Hwithin.
  unfold NullCheckValidator.validate, df_items. rewrite Hcol. simpl.
  fold allow_null max_null_percent. rewrite Hallow, Hset. simpl.
  unfold NullCheckValidator.count_nulls.
  fold (rows_of df vals). fold series. fold nulls. rewrite Hwithin. simpl.
  rewrite record_nulls_spec. simpl. fold nulls.
  eexists. split; [reflexivity|]. simpl. rewrite length_map.
  repeat split; try reflexivity.
  intros Hne. destruct nulls; [congruence|reflexivity].
Qed.

(** C2 on a column with one null among four rows and a limit of 50. *)
Lemma null_check_within_limit_still_fails_witness :
  exists r,
    NullCheckValidator.validate (RT := TestRuntime.runtime)
      Examples.nulls_allowed_50 Examples.one_null_in_four "v" = Ok r /\
    passed r = false /\
    map fd_reason (error_details r) =
      ["Null present but within allowed 50.0% limit"].
Proof.
  destruct (null_check_within_limit_still_fails TestRuntime.runtime
              Examples.nulls_allowed_50 Examples.one_null_in_four "v"
              [CInt 5; CNone; CInt 11; CInt 3]
              eq_refl eq_refl eq_refl eq_refl)
    as (r & Hr & Hdetails & _ & _ & Hfail).
  exists r. split; [exact Hr|]. split.
  - apply Hfail. vm_compute. discriminate.
  - rewrite Hdetails. vm_compute. reflexivity.
Defined.

(** C10. With [allow_null] true and [max_null_percent] unset, the
    null-check validator accepts any column of the table: [passed] is
    true, [failed_records] is 0 and no detail is recorded, however many
    nulls the column holds. *)
Theorem null_check_unlimited_accepts :
  forall (RT : PyRuntime) (config : dict pyval) (df : DataFrame)
         (column : string) (vals : list pycell),
    truthy (config_get_default config "allow_null" (VBool false)) = true ->
    is_none (config_get config "max_null_percent") = true ->
    dict_get (df_columns df) column = Some vals ->
    exists r, NullCheckValidator.validate config df column = Ok r /\
      passed r = true /\ failed_records r = 0 /\ error_details r = [] /\
      total_records r = length (rows_of df vals).
Proof.
  intros RT config df column vals Hallow Hunset Hcol.
  unfold NullCheckValidator.validate, df_items. rewrite Hcol. simpl.
  rewrite Hallow, Hunset. simpl.
  eexists. split; [reflexivity|]. simpl. auto.
Qed.

(** C10 on a column made of nulls only. *)
Lemma null_check_unlimited_accepts_witness :
  exists r,
    NullCheckValidator.validate (RT := TestRuntime.runtime)
      [("allow_null", VBool true)]
      (Examples.frame "v" [CNone; CNone; CNone]) "v" = Ok r /\
    passed r = true /\ failed_records r = 0 /\ error_details r = [] /\
    total_records r = 3.
Proof.
  exact (null_check_unlimited_accepts TestRuntime.runtime
           [("allow_null", VBool true)]
           (Examples.frame "v" [CNone; CNone; CNone]) "v"
           [CNone; CNone; CNone] eq_refl eq_refl eq_refl).
Defined.

(* ================================================================== *)
(** * The regex validator *)
(* ================================================================== *)

Section RegexLemmas.
Context {RT : PyRuntime}.

Lemma ignorecase_flag_spec (case_sensitive : pyval) :
  RegexValidator.ignorecase_flag case_sensitive = negb (truthy case_sensitive).
Proof. unfold RegexValidator.ignorecase_flag. now destruct (truthy case_sensitive). Qed.

Lemma regex_check_row_spec (rx : regex) (series : list (Z * pycell)) :
  for_items (RegexValidator.check_row rx) series [] =
  Ok (map regex_detail (filter (fun it => regex_fails rx (snd it)) series)).
Proof.
  destruct (for_items_filter_nil (fun d => d) regex_detail
              (RegexValidator.check_row rx)
              (fun it => regex_fails rx (snd it)) series) as (ds & Hds & Hmap).
  - intros [idx val] _.
    unfold RegexValidator.check_row, regex_fails, regex_detail. simpl.
    destruct (isna val); simpl; [eauto|].
    destruct (re_match rx (cell_str val)); simpl; eauto.
  - rewrite map_id in Hmap. now rewrite Hds, Hmap.
Qed.

End RegexLemmas.

(** C6. For the regex validator with a pattern that compiles (case
    ignored exactly when [case_sensitive] is false), on a column of the
    table the failing rows are, in row order, the null rows (reason
    "Null value cannot match pattern") and the rows whose text
    [str(val)] the pattern does not match at its start ([match], not
    [search]).  With pattern [^[a-z]+$]: case-sensitively over
    "abc", "Xyz" and the empty string two records fail; case-insensitively over
    ["ABC", "xyz"] the result passes.  The pattern [b] fails the text
    "ab", which [search] would accept. *)
Theorem regex_validate_match_at_start :
  (forall (RT : PyRuntime) (config : dict pyval) (df : DataFrame)
          (column : string) (vals : list pycell) (rx : regex),
      let pattern_value := config_get config "pattern" in
      let case_sensitive :=
        truthy (config_get_default config "case_sensitive" (VBool true)) in
      let failing :=
        filter (fun it => regex_fails rx (snd it)) (rows_of df vals) in
      is_none pattern_value = false ->
      re_compile (py_str pattern_value) (negb case_sensitive) = inr rx ->
      dict_get (df_columns df) column = Some vals ->
      exists r, RegexValidator.validate config df column = Ok r /\
        error_details r = map regex_detail failing /\
        failed_records r = length failing /\
        passed r = Nat.eqb (length failing) 0)
  /\
  (exists r,
      RegexValidator.validate (RT := TestRuntime.runtime)
        (Examples.lowercase_word true)
        (Examples.frame "text" (Examples.strs ["abc"; "Xyz"; EmptyString]))
        "text" = Ok r /\
      failed_records r = 2)
  /\
  (exists r,
      RegexValidator.validate (RT := TestRuntime.runtime)
        (Examples.lowercase_word false)
        (Examples.frame "text" (Examples.strs ["ABC"; "xyz"])) "text" = Ok r /\
      passed r = true)
  /\
  (exists rx r,
      TestRuntime.compile "b" false = inr rx /\
      TestRuntime.pat_search rx "ab" = true /\
      RegexValidator.validate (RT := TestRuntime.runtime)
        [("pattern", VStr "b")] (Examples.frame "text" (Examples.strs ["ab"]))
        "text" = Ok r /\
      failed_records r = 1).
Proof.
  split; [|split; [|split]].
  - intros RT config df column vals rx pattern_value case_sensitive failing
      Hpat Hrx Hcol.
    unfold RegexValidator.validate. fold pattern_value. rewrite Hpat.
    rewrite ignorecase_flag_spec. fold case_sensitive. rewrite Hrx.
    unfold df_items. rewrite Hcol. simpl.
    rewrite regex_check_row_spec. simpl.
    eexists. split; [reflexivity|]. simpl. fold (rows_of df vals). fold failing.
    rewrite length_map. auto.
  - apply (result_field_some failed_records). vm_compute. reflexivity.
  - apply (result_field_some passed). vm_compute. reflexivity.
  - exists {| TestRuntime.pat_ignorecase := false;
              TestRuntime.pat_items :=
                [(TestRuntime.OneOf (TestRuntime.single "b"), TestRuntime.Once)] |}.
    assert (Hrun : exists r,
               RegexValidator.validate (RT := TestRuntime.runtime)
                 [("pattern", VStr "b")]
                 (Examples.frame "text" (Examples.strs ["ab"])) "text" = Ok r /\
               failed_records r = 1)
      by (apply (result_field_some failed_records); vm_compute; reflexivity).
    destruct Hrun as (r & Hr & Hfailed). exists r.
    split; [vm_compute; reflexivity|].
    split; [vm_compute; reflexivity|]. auto.
Qed.

(** The general statement of C6 at the case-sensitive test column. *)
Lemma regex_validate_match_at_start_witness :
  exists r,
    RegexValidator.validate (RT := TestRuntime.runtime)
      (Examples.lowercase_word true)
      (Examples.frame "text" [CStr "abc"; CStr "Xyz"; CNone]) "text" = Ok r /\
    map fd_reason (error_details r) =
      ["Does not match pattern"; "Null value cannot match pattern"].
Proof.
  destruct (TestRuntime.compile "^[a-z]+$" false) as [msg|rx] eqn:Erx;
    [vm_compute in Erx; discriminate|].
  destruct (proj1 regex_validate_match_at_start TestRuntime.runtime
              (Examples.lowercase_word true)
              (Examples.frame "text" [CStr "abc"; CStr "Xyz"; CNone]) "text"
              [CStr "abc"; CStr "Xyz"; CNone] rx eq_refl Erx eq_refl)
    as (r & Hr & Hdetails & _).
  exists r. split; [exact Hr|]. rewrite Hdetails.
  vm_compute in Erx. inversion Erx; subst rx. vm_compute. reflexivity.
Defined.

(* ================================================================== *)
(** * The pipeline *)
(* ================================================================== *)

Section PipelineLemmas.
Context {RT : PyRuntime}.

Import ValidationPipeline.

Lemma count_passed_app (l1 l2 : list ValidationResult) :
  count_passed (l1 ++ l2) = count_passed l1 + count_passed l2.
Proof. unfold count_passed. now rewrite filter_app, length_app. Qed.

Lemma count_failed_app (l1 l2 : list ValidationResult) :
  count_failed (l1 ++ l2) = count_failed l1 + count_failed l2.
Proof. unfold count_failed. now rewrite filter_app, length_app. Qed.

Lemma count_failed_zero (rs : list ValidationResult) :
  Nat.eqb (count_failed rs) 0 = forallb passed rs.
Proof.
  unfold count_failed. induction rs as [|r rs IH]; simpl; [reflexivity|].
  destruct (passed r); simpl; [exact IH|reflexivity].
Qed.

(** The loop over a concatenation runs the first part, then the second
    from where the first left the results and the counters. *)
Lemma run_loop_app (df : DataFrame) (pre rest : list (string * Validator)) :
  forall results passed_count failed_count,
    run_loop df (pre ++ rest) results passed_count failed_count =
    match run_loop df pre results passed_count failed_count with
    | Ok (results', passed', failed') => run_loop df rest results' passed' failed'
    | Raise e => Raise e
    end.
Proof.
  induction pre as [|[col v] pre IH]; intros results p f; simpl; [reflexivity|].
  destruct (df_has_column df col); simpl; [|reflexivity].
  destruct (validator_validate v df col) as [res|e]; simpl; [|reflexivity].
  destruct (passed res); apply IH.
Qed.

(** Where every column is present and every validator returns, the
    loop returns the results in order and has counted them. *)
Lemma run_loop_complete (df : DataFrame) (specs : list (string * Validator)) :
  all_complete df specs = true ->
  exists rs, results_in_order df specs rs /\
    forall results passed_count failed_count,
      run_loop df specs results passed_count failed_count =
      Ok ((results ++ rs)%list, passed_count + count_passed rs,
          failed_count + count_failed rs).
Proof.
  induction specs as [|[col v] specs IH]; simpl; intros Hall.
  - exists []. split; [constructor|]. intros.
    now rewrite app_nil_r, !Nat.add_0_r.
  - apply andb_prop in Hall. destruct Hall as [Hhead Hall].
    apply andb_prop in Hhead. destruct Hhead as [Hcol Hok]. simpl in Hcol, Hok.
    destruct (validator_validate v df col) as [res|e] eqn:Ev; [|discriminate].
    destruct (IH Hall) as (rs & Hord & Hrun).
    exists (res :: rs). split; [constructor; assumption|].
    intros results p f. rewrite Hcol. simpl.
    unfold count_passed, count_failed in *. simpl.
    destruct (passed res); simpl; rewrite Hrun, <- app_assoc; simpl;
      repeat f_equal; lia.
Qed.


Lemma run_loop_ok (df : DataFrame) (specs : list (string * Validator)) :
  forall results passed_count failed_count out,
    run_loop df specs results passed_count failed_count = Ok out ->
    all_complete df specs = true.
Proof.
  induction specs as [|[col v] specs IH]; simpl; intros results p f out H;
    [reflexivity|].
  destruct (df_has_column df col); simpl in *; [|discriminate].
  destruct (validator_validate v df col) as [res|e]; simpl in *; [|discriminate].
  destruct (passed res); eapply IH; eassumption.
Qed.

(** What stops the loop at an entry reached with everything before it
    complete. *)
Lemma run_loop_stops_at (df : DataFrame) (pre post : list (string * Validator))
    (col : string) (v : Validator) (e : exn) :
  all_complete df pre = true ->
  (df_has_column df col = false /\
   e = InvalidConfigError ("Column '" ++ col ++ "' not found in input data."))
  \/ (df_has_column df col = true /\ validator_validate v df col = Raise e) ->
  run_loop df (pre ++ (col, v) :: post) [] 0 0 = Raise e.
Proof.
  intros Hpre Hstop. rewrite run_loop_app.
  destruct (run_loop_complete df pre Hpre) as (rs & _ & Hrun). rewrite Hrun.
  simpl. destruct Hstop as [[Hcol ->]|[Hcol Hv]]; rewrite Hcol; simpl;
    [reflexivity|]. now rewrite Hv.
Qed.

(** A run that raises returns no result and leaves the pipeline as it
    was. *)
Lemma run_raise (self : t) (df : DataFrame) (e : exn) :
  run_loop df (validator_specs self) [] 0 0 = Raise e ->
  run self df = (Raise e, self).
Proof. intros H. unfold run. now rewrite H. Qed.

End PipelineLemmas.

(** C7. A regex validator whose pattern is missing or does not compile,
    and a custom-function validator whose callable is missing, fail the
    whole [validate] call with an error rather than returning a result;
    in a pipeline run that reaches such a validator the error is not
    caught: the run raises it, returns no result and retains nothing. *)
Theorem missing_parameter_is_fatal :
  forall (RT : PyRuntime),
    (forall config df column,
        is_none (config_get config "pattern") = true ->
        RegexValidator.validate config df column =
        Raise (ValueError "'pattern' parameter is required for RegexValidator"))
    /\
    (forall config df column msg,
        is_none (config_get config "pattern") = false ->
        re_compile (py_str (config_get config "pattern"))
          (negb (truthy (config_get_default config "case_sensitive" (VBool true))))
          = inl msg ->
        RegexValidator.validate config df column =
        Raise (ValueError ("Invalid regular expression pattern: " ++ msg)))
    /\
    (forall config df column,
        is_none (config_get config "validation_func") = true ->
        CustomFunctionValidator.validate config df column =
        Raise (ValueError
                 "'validation_func' parameter is required for CustomFunctionValidator"))
    /\
    (forall (self : ValidationPipeline.t) df pre col v post e,
        ValidationPipeline.validator_specs self = (pre ++ (col, v) :: post)%list ->
        all_complete df pre = true ->
        df_has_column df col = true ->
        validator_validate v df col = Raise e ->
        ValidationPipeline.run self df = (Raise e, self)).
Proof.
  intros RT. split; [|split; [|split]].
  - intros config df column Hnone. unfold RegexValidator.validate.
    now rewrite Hnone.
  - intros config df column msg Hset Hbad. unfold RegexValidator.validate.
    now rewrite Hset, ignorecase_flag_spec, Hbad.
  - intros config df column Hnone. unfold CustomFunctionValidator.validate.
    now rewrite Hnone.
  - intros self df pre col v post e Hspecs Hpre Hcol Hv.
    apply run_raise. rewrite Hspecs. apply run_loop_stops_at; auto.
Qed.

(** C7 on a pipeline whose second validator has a pattern that does not
    compile: the run raises the validator's error. *)
Lemma missing_parameter_is_fatal_witness :
  let broken : Validator :=
    {| v_class := RegexValidator.class (RT := TestRuntime.runtime);
       v_config := [("pattern", VStr "[a-z")] |} in
  let self :=
    {| ValidationPipeline.config := Examples.num_word_config;
       ValidationPipeline.validator_specs :=
         [ ("num", {| v_class := RangeValidator.class; v_config := [] |});
           ("word", broken) ];
       ValidationPipeline.last_result := None |} in
  ValidationPipeline.run self Examples.num_word_table =
  (Raise (ValueError
            "Invalid regular expression pattern: unterminated character set at position 0"),
   self).
Proof.
  intros broken self.
  destruct (missing_parameter_is_fatal TestRuntime.runtime)
    as (_ & Hcompile & _ & Hrun).
  apply (Hrun self Examples.num_word_table
           [("num", {| v_class := RangeValidator.class; v_config := [] |})]
           "word" broken []); [reflexivity|reflexivity|reflexivity|].
  apply (Hcompile [("pattern", VStr "[a-z")] Examples.num_word_table "word"
           "unterminated character set at position 0"); reflexivity.
Defined.




(* ================================================================== *)
(** * Row order of the recorded failures *)
(* ================================================================== *)

Section OrderLemmas.
Context {RT : PyRuntime}.

Ltac break_result H :=
  repeat (simpl in H;
          match type of H with
          | Ok _ = Ok _ => inversion H; subst; clear H
          | Raise _ = Ok _ => discriminate H
          | context [match ?x with _ => _ end] => destruct x eqn:?
          end).

Lemma loop_rows (body : Z -> pycell -> result (option FailureDetail))
    (df : DataFrame) (column : string) (series : list (Z * pycell))
    (ds : list FailureDetail) :
  (forall idx val d, body idx val = Ok (Some d) -> fd_row d = idx) ->
  df_items df column = Ok series ->
  for_items body series [] = Ok ds ->
  Subsequence (map fd_row ds) (df_index df).
Proof.
  intros Hrow Hseries Hloop.
  destruct (for_items_rows body Hrow series [] ds Hloop) as (new & -> & Hsub).
  simpl. eapply Subsequence_trans; [exact Hsub|].
  eapply df_items_rows; eassumption.
Qed.

Lemma range_row_label (min_value max_value inclusive : pyval) :
  forall idx val d,
    RangeValidator.check_row min_value max_value inclusive idx val = Ok (Some d) ->
    fd_row d = idx.
Proof.
  intros idx val d H.
  unfold RangeValidator.check_row, RangeValidator.fail, bind in H.
  break_result H; reflexivity.
Qed.

Lemma null_row_label (reason : string) :
  forall idx val d,
    NullCheckValidator.record_nulls reason idx val = Ok (Some d) -> fd_row d = idx.
Proof.
  intros idx val d H. unfold NullCheckValidator.record_nulls in H.
  break_result H; reflexivity.
Qed.

Lemma regex_row_label (rx : regex) :
  forall idx val d,
    RegexValidator.check_row rx idx val = Ok (Some d) -> fd_row d = idx.
Proof.
  intros idx val d H. unfold RegexValidator.check_row in H.
  break_result H; reflexivity.
Qed.

Lemma type_row_label (expected_type : string) (strict : pyval) :
  forall idx val d,
    TypeValidator.check_row expected_type strict idx val = Ok (Some d) ->
    fd_row d = idx.
Proof.
  intros idx val d H. unfold TypeValidator.check_row in H.
  break_result H; reflexivity.
Qed.

Lemma custom_row_label (func error_message : pyval) :
  forall idx val d,
    CustomFunctionValidator.check_row func error_message idx val = Ok (Some d) ->
    fd_row d = idx.
Proof.
  intros idx val d H. unfold CustomFunctionValidator.check_row in H.
  break_result H; reflexivity.
Qed.

(** Every built-in validator lists its failures in row order. *)
Lemma builtin_details_in_row_order (cls : ValidatorClass) (config : dict pyval)
    (df : DataFrame) (column : string) (res : ValidationResult) :
  In cls builtin_classes ->
  vc_validate cls config df column = Ok res ->
  Subsequence (map fd_row (error_details res)) (df_index df).
Proof.
  intros Hin H. simpl in Hin.
  destruct Hin as [<-|[<-|[<-|[<-|[<-|[]]]]]]; simpl in H.
  - unfold RangeValidator.validate, bind in H.
    destruct (df_items df column) as [series|] eqn:Es; [|discriminate].
    destruct (for_items _ series []) as [ds|] eqn:El; [|discriminate].
    inversion H; subst; simpl.
    eapply loop_rows; [apply range_row_label|exact Es|exact El].
  - unfold NullCheckValidator.validate, bind in H.
    destruct (df_items df column) as [series|] eqn:Es; [|discriminate].
    destruct (negb (truthy _)).
    + destruct (for_items _ series []) as [ds|] eqn:El; [|discriminate].
      inversion H; subst; simpl.
      eapply loop_rows; [apply null_row_label|exact Es|exact El].
    + destruct (negb (is_none _)).
      * destruct (py_gt _ _) as [[|]|]; [| |discriminate];
          (destruct (for_items _ series []) as [ds|] eqn:El; [|discriminate];
           inversion H; subst; simpl;
           eapply loop_rows; [apply null_row_label|exact Es|exact El]).
      * inversion H; subst; simpl. constructor.
  - unfold RegexValidator.validate, bind in H.
    destruct (is_none _); [discriminate|].
    destruct (re_compile _ _) as [msg|rx]; [discriminate|].
    destruct (df_items df column) as [series|] eqn:Es; [|discriminate].
    destruct (for_items _ series []) as [ds|] eqn:El; [|discriminate].
    inversion H; subst; simpl.
    eapply loop_rows; [apply regex_row_label|exact Es|exact El].
  - unfold TypeValidator.validate, bind in H.
    destruct (String.eqb _ EmptyString); [discriminate|].
    destruct (negb (str_in _ _)); [discriminate|].
    destruct (df_items df column) as [series|] eqn:Es; [|discriminate].
    destruct (for_items _ series []) as [ds|] eqn:El; [|discriminate].
    inversion H; subst; simpl.
    eapply loop_rows; [apply type_row_label|exact Es|exact El].
  - unfold CustomFunctionValidator.validate, bind in H.
    destruct (is_none _); [discriminate|].
    destruct (df_items df column) as [series|] eqn:Es; [|discriminate].
    destruct (for_items _ series []) as [ds|] eqn:El; [|discriminate].
    inversion H; subst; simpl.
    eapply loop_rows; [apply custom_row_label|exact Es|exact El].
Qed.

End OrderLemmas.

(* ================================================================== *)
(** * Validators that keep state *)
(* ================================================================== *)

Section StatefulLemmas.
Context {RT : PyRuntime} {store : Type}.

(** While no truth test raises, the loop of the custom-function
    validator appends one detail per failing call, in row order. *)
Lemma custom_loop_exact
    (func : StatefulValidation.callable_object (store := store))
    (error_message : pyval) :
  forall items acc s,
    forallb (fun c => negb (truth_raises (snd c))) (calls func items s) = true ->
    fst (StatefulValidation.custom_loop func error_message items acc s) =
    Ok (acc ++ map (call_detail error_message)
                   (filter (fun c => call_fails (snd c)) (calls func items s)))%list.
Proof.
  induction items as [|[idx val] rest IH]; intros acc s H; simpl in *.
  - now rewrite app_nil_r.
  - destruct (func s val) as [out s1]. simpl in H.
    destruct out as [e|[res|e]]; simpl in H |- *.
    + rewrite (IH _ _ H), <- app_assoc. reflexivity.
    + destruct res; simpl.
      * apply IH, H.
      * rewrite (IH _ _ H), <- app_assoc. reflexivity.
    + discriminate H.
Qed.

(** The first truth test that raises ends the loop with its error. *)
Lemma custom_loop_truth_raises
    (func : StatefulValidation.callable_object (store := store))
    (error_message : pyval) :
  forall items acc s pre idx val e post,
    calls func items s =
      (pre ++ (idx, val, StatefulValidation.Returns (Raise e)) :: post)%list ->
    forallb (fun c => negb (truth_raises (snd c))) pre = true ->
    fst (StatefulValidation.custom_loop func error_message items acc s) = Raise e.
Proof.
  induction items as [|[idx0 val0] rest IH]; intros acc s pre idx val e post H Hpre;
    simpl in *.
  - destruct pre; discriminate H.
  - destruct (func s val0) as [out s1].
    destruct pre as [|c pre']; simpl in H.
    + injection H as _ _ Hout _. subst out. reflexivity.
    + injection H as Hc Hrest. subst c. simpl in Hpre.
      destruct out as [e0|[res|e0]]; simpl in Hpre; try discriminate Hpre.
      * eapply IH; eassumption.
      * destruct res; simpl; eapply IH; eassumption.
Qed.

(** On a configuration value the loop is the one of
    [CustomFunctionValidator] and leaves the store alone. *)
Lemma custom_loop_of_value (func error_message : pyval) :
  forall items acc (s : store),
    StatefulValidation.custom_loop (StatefulValidation.of_value func)
      error_message items acc s =
    (for_items (CustomFunctionValidator.check_row func error_message) items acc, s).
Proof.
  induction items as [|[idx val] rest IH]; intros acc s; simpl; [reflexivity|].
  unfold StatefulValidation.of_value at 1, CustomFunctionValidator.check_row.
  destruct (py_call func val) as [res|e]; simpl.
  - destruct res; simpl; apply IH.
  - apply IH.
Qed.

Lemma custom_validate_of_value (config : dict pyval) (s : store)
    (df : DataFrame) (column : string) :
  is_none (config_get config "validation_func") = false ->
  StatefulValidation.custom_validate
    (StatefulValidation.of_value (config_get config "validation_func"))
    config s df column =
  (CustomFunctionValidator.validate config df column, s).
Proof.
  intros Hfunc.
  unfold StatefulValidation.custom_validate, CustomFunctionValidator.validate.
  rewrite Hfunc.
  destruct (df_items df column) as [series|e]; simpl; [|reflexivity].
  rewrite custom_loop_of_value.
  destruct (for_items _ series []); reflexivity.
Qed.

(** Whatever the callable does, the details come from rows taken in
    row order. *)
Lemma custom_loop_rows
    (func : StatefulValidation.callable_object (store := store))
    (error_message : pyval) :
  forall items acc s ds s',
    StatefulValidation.custom_loop func error_message items acc s = (Ok ds, s') ->
    exists new, ds = (acc ++ new)%list /\
                Subsequence (map fd_row new) (map fst items).
Proof.
  induction items as [|[idx val] rest IH]; intros acc s ds s' H; simpl in H.
  - injection H as <- _. exists []. rewrite app_nil_r. split; [reflexivity|constructor].
  - destruct (func s val) as [out s1].
    destruct out as [e|[res|e]]; [| |discriminate H].
    + destruct (IH _ _ _ _ H) as (new & -> & Hsub).
      eexists (_ :: new). rewrite <- app_assoc. split; [reflexivity|].
      simpl. now constructor.
    + destruct res; simpl in H.
      * destruct (IH _ _ _ _ H) as (new & -> & Hsub).
        exists new. split; [reflexivity|]. simpl. now constructor.
      * destruct (IH _ _ _ _ H) as (new & -> & Hsub).
        eexists (_ :: new). rewrite <- app_assoc. split; [reflexivity|].
        simpl. now constructor.
Qed.

Lemma custom_validate_rows
    (func : StatefulValidation.callable_object (store := store))
    (config : dict pyval) (s : store) (df : DataFrame) (column : string)
    (res : ValidationResult) :
  fst (StatefulValidation.custom_validate func config s df column) = Ok res ->
  Subsequence (map fd_row (error_details res)) (df_index df).
Proof.
  unfold StatefulValidation.custom_validate.
  destruct (df_items df column) as [series|e] eqn:Es; [|discriminate].
  destruct (StatefulValidation.custom_loop func _ series [] s) as [[ds|e] s1] eqn:El;
    simpl; [|discriminate].
  intros H. injection H as <-. simpl.
  destruct (custom_loop_rows _ _ _ _ _ _ _ El) as (new & -> & Hsub). simpl.
  eapply Subsequence_trans; [exact Hsub|]. eapply df_items_rows; eassumption.
Qed.

(** Validators whose results do not depend on the store give the same
    loop outcome from any store. *)
Lemma run_loop_store_independent (df : DataFrame)
    (specs : list (string * StatefulValidation.stateful_validator (store := store))) :
  all_store_independent df specs ->
  forall results p f s s',
    fst (StatefulValidation.run_loop df specs results p f s) =
    fst (StatefulValidation.run_loop df specs results p f s').
Proof.
  induction 1 as [|[col v] rest Hv Hrest IH]; intros results p f s s'; simpl;
    [reflexivity|].
  destruct (negb (df_has_column df col)); [reflexivity|].
  specialize (Hv s s'). simpl in Hv.
  destruct (v s df col) as [[res|e] s1], (v s' df col) as [[res'|e'] s1'];
    simpl in Hv; try discriminate Hv.
  - injection Hv as <-. destruct (passed res); apply IH.
  - injection Hv as <-. reflexivity.
Qed.

Lemma run_loop_results (df : DataFrame)
    (specs : list (string * StatefulValidation.stateful_validator (store := store))) :
  all_store_independent df specs ->
  forall results p f s rs p' f' s',
    StatefulValidation.run_loop df specs results p f s = (Ok (rs, p', f'), s') ->
    exists new, rs = (results ++ new)%list /\
                stateful_results_in_order df specs new /\
                p' + f' = p + f + length specs.
Proof.
  induction 1 as [|[col v] rest Hv Hrest IH]; intros results p f s rs p' f' s' H;
    simpl in H.
  - injection H as <- <- <- _. exists []. rewrite app_nil_r.
    split; [reflexivity|]. split; [constructor|simpl; lia].
  - destruct (negb (df_has_column df col)); [discriminate H|].
    destruct (v s df col) as [[res|e] s1] eqn:Ev; [|discriminate H].
    assert (Hres : forall s0, fst (v s0 df col) = Ok res).
    { intros s0. pose proof (Hv s0 s) as E. simpl in E. rewrite E, Ev. reflexivity. }
    destruct (passed res);
      destruct (IH _ _ _ _ _ _ _ _ H) as (new & -> & Hord & Hcount);
      exists (res :: new); rewrite <- app_assoc;
      (split; [reflexivity|]); (split; [constructor; assumption|simpl; lia]).
Qed.

Lemma of_validator_store_independent (v : Validator) (df : DataFrame)
    (column : string) :
  store_independent (store := store) df column (StatefulValidation.of_validator v).
Proof. intros s s'. reflexivity. Qed.

End StatefulLemmas.

(** C8. Running the same pipeline twice on the same table returns the
    same result both times, counts and failure details alike, provided
    no validator's result depends on state that a call can change:
    the second run starts from the pipeline and the store the first
    run left, and [run] reads neither the retained result nor anything
    else of it.  The results are those of the entries in specification
    order.  The validators of [validators/] qualify, the custom one
    when its callable is a function of the value.  Whatever the
    callable, every validator lists its failures in row order. *)
Theorem run_twice_same :
  forall (RT : PyRuntime) (store : Type),
    (forall (self : StatefulValidation.t (store := store)) (df : DataFrame),
        all_store_independent df (StatefulValidation.validator_specs self) ->
        run_twice_identical self df /\
        (forall r, fst (StatefulValidation.run self df) = Ok r ->
           stateful_results_in_order df (StatefulValidation.validator_specs self)
             (ValidationPipeline.results r) /\
           ValidationPipeline.passed_validations r
             + ValidationPipeline.failed_validations r
           = ValidationPipeline.total_validations r))
    /\
    (forall (v : Validator) df column,
        store_independent (store := store) df column
          (StatefulValidation.of_validator v))
    /\
    (forall config df column,
        is_none (config_get config "validation_func") = false ->
        store_independent (store := store) df column
          (StatefulValidation.custom
             (StatefulValidation.of_value (config_get config "validation_func"))
             config))
    /\
    (forall cls config df column res,
        In cls builtin_classes ->
        vc_validate cls config df column = Ok res ->
        Subsequence (map fd_row (error_details res)) (df_index df))
    /\
    (forall (func : StatefulValidation.callable_object (store := store))
            config s df column res,
        fst (StatefulValidation.custom func config s df column) = Ok res ->
        Subsequence (map fd_row (error_details res)) (df_index df)).
Proof.
  intros RT store. split; [|split; [|split; [|split]]].
  - intros self df Hind. split.
    + unfold run_twice_identical, StatefulValidation.run.
      destruct (StatefulValidation.run_loop df _ [] 0 0 (StatefulValidation.heap self))
        as [[[[rs p] f]|e] s1] eqn:E1; simpl;
        pose proof (run_loop_store_independent df _ Hind [] 0 0 s1
                      (StatefulValidation.heap self)) as Hsame;
        rewrite E1 in Hsame; simpl in Hsame;
        destruct (StatefulValidation.run_loop df _ [] 0 0 s1) as [out s2];
        simpl in Hsame; subst out; reflexivity.
    + intros r Hr. unfold StatefulValidation.run in Hr.
      destruct (StatefulValidation.run_loop df _ [] 0 0 (StatefulValidation.heap self))
        as [[[[rs p] f]|e] s1] eqn:E1; simpl in Hr; [|discriminate Hr].
      injection Hr as <-. simpl.
      destruct (run_loop_results df _ Hind _ _ _ _ _ _ _ _ E1)
        as (new & -> & Hord & Hcount).
      simpl. split; [exact Hord|]. simpl in Hcount. exact Hcount.
  - intros v df column. apply of_validator_store_independent.
  - intros config df column Hfunc s s'. unfold StatefulValidation.custom.
    now rewrite !custom_validate_of_value.
  - intros cls config df column res. apply builtin_details_in_row_order.
  - intros func config s df column res. apply custom_validate_rows.
Qed.

(** C8 on the pipeline and table of the test-suite: both runs report
    two validations, one passed and one failed, the failure being the
    row holding 15. *)
Lemma run_twice_same_witness :
  let self := StatefulExamples.num_word_pipeline in
  let first := StatefulValidation.run self Examples.num_word_table in
  let second := StatefulValidation.run (snd first) Examples.num_word_table in
  fst second = fst first /\
  exists r, fst second = Ok r /\
    ValidationPipeline.pr_passed r = false /\
    ValidationPipeline.total_validations r = 2 /\
    ValidationPipeline.passed_validations r = 1 /\
    ValidationPipeline.failed_validations r = 1 /\
    map (fun res => map fd_row (error_details res)) (ValidationPipeline.results r)
      = [[3%Z]; []].
Proof.
  intros self first second.
  destruct (run_twice_same TestRuntime.runtime unit) as (Hrun & Hpure & _).
  destruct (Hrun self Examples.num_word_table) as (Hsame & _).
  { repeat constructor; apply Hpure. }
  unfold run_twice_identical in Hsame. fold first second in Hsame.
  split; [exact Hsame|]. rewrite Hsame.
  destruct (result_field_some
              (fun r => (ValidationPipeline.pr_passed r,
                         ValidationPipeline.total_validations r,
                         ValidationPipeline.passed_validations r,
                         ValidationPipeline.failed_validations r,
                         map (fun res => map fd_row (error_details res))
                             (ValidationPipeline.results r)))
              (fst first) (false, 2, 1, 1, [[3%Z]; []]))
    as (r & Hr & Hfields); [vm_compute; reflexivity|].
  exists r. split; [exact Hr|].
  injection Hfields as H1 H2 H3 H4 H5.
  repeat split; assumption.
Defined.

(** C8 as worded fails for a callable that keeps state.  The callable
    [once] accepts the first value it is ever given: the first run of
    the pipeline passes its one row, the second run, on the same table,
    fails it. *)
Lemma run_twice_identical_counterexample :
  let first := StatefulValidation.run StatefulExamples.once_pipeline
                 StatefulExamples.once_table in
  let second := StatefulValidation.run (snd first) StatefulExamples.once_table in
  (exists r1 r2,
      fst first = Ok r1 /\ fst second = Ok r2 /\
      (ValidationPipeline.pr_passed r1,
       ValidationPipeline.failed_validations r1,
       map (fun res => map fd_row (error_details res)) (ValidationPipeline.results r1))
        = (true, 0, [[]]) /\
      (ValidationPipeline.pr_passed r2,
       ValidationPipeline.failed_validations r2,
       map (fun res => map fd_row (error_details res)) (ValidationPipeline.results r2))
        = (false, 1, [[0%Z]])) /\
  ~ run_twice_identical StatefulExamples.once_pipeline StatefulExamples.once_table.
Proof.
  intros first second.
  destruct (result_field_some
              (fun r => (ValidationPipeline.pr_passed r,
                         ValidationPipeline.failed_validations r,
                         map (fun res => map fd_row (error_details res))
                             (ValidationPipeline.results r)))
              (fst first) (true, 0, [[]]))
    as (r1 & Hr1 & Hfields1); [vm_compute; reflexivity|].
  destruct (result_field_some
              (fun r => (ValidationPipeline.pr_passed r,
                         ValidationPipeline.failed_validations r,
                         map (fun res => map fd_row (error_details res))
                             (ValidationPipeline.results r)))
              (fst second) (false, 1, [[0%Z]]))
    as (r2 & Hr2 & Hfields2); [vm_compute; reflexivity|].
  split; [exists r1, r2; auto|].
  unfold run_twice_identical. fold first second. rewrite Hr1, Hr2.
  intros H. injection H as ->. rewrite Hfields1 in Hfields2. discriminate Hfields2.
Qed.

(* ================================================================== *)
(** * Dictionaries *)
(* ================================================================== *)

Section DictLemmas.
Context {V : Type}.

Lemma dict_get_set (d : dict V) (k k' : string) (v : V) :
  dict_get (dict_set d k v) k' = if String.eqb k' k then Some v else dict_get d k'.
Proof.
  induction d as [|[k0 v0] rest IH]; simpl.
  - reflexivity.
  - destruct (String.eqb_spec k k0) as [->|Hne]; simpl.
    + destruct (String.eqb k' k0); reflexivity.
    + rewrite IH. destruct (String.eqb_spec k' k0) as [->|Hne'].
      * destruct (String.eqb_spec k0 k) as [->|_]; [congruence|reflexivity].
      * reflexivity.
Qed.

Lemma dict_mem_set (d : dict V) (k k' : string) (v : V) :
  dict_mem (dict_set d k v) k' = String.eqb k' k || dict_mem d k'.
Proof.
  unfold dict_mem. rewrite dict_get_set. now destruct (String.eqb k' k).
Qed.

Lemma dict_get_None (d : dict V) (k : string) :
  dict_get d k = None <-> ~ In k (dict_keys d).
Proof.
  induction d as [|[k0 v0] rest IH]; simpl.
  - tauto.
  - destruct (String.eqb_spec k k0) as [->|Hne].
    + split; [discriminate|]. intros H. exfalso. apply H. now left.
    + rewrite IH. split; intros H; [intros [E|Hin]; [congruence|tauto]|tauto].
Qed.

Lemma dict_mem_In (d : dict V) (k : string) :
  dict_mem d k = true <-> In k (dict_keys d).
Proof.
  unfold dict_mem. destruct (dict_get d k) eqn:E.
  - split; [intros _|reflexivity].
    destruct (in_dec string_dec k (dict_keys d)) as [Hin|Hout]; [exact Hin|].
    apply dict_get_None in Hout. congruence.
  - split; [discriminate|]. intros Hin. apply dict_get_None in E. tauto.
Qed.

Lemma dict_keys_set (d : dict V) (k : string) (v : V) :
  dict_keys (dict_set d k v) =
  if dict_mem d k then dict_keys d else (dict_keys d ++ [k])%list.
Proof.
  unfold dict_mem. induction d as [|[k0 v0] rest IH]; simpl.
  - reflexivity.
  - destruct (String.eqb_spec k k0) as [->|Hne]; simpl; [reflexivity|].
    rewrite IH. now destruct (dict_get rest k).
Qed.

Lemma NoDup_dict_set (d : dict V) (k : string) (v : V) :
  NoDup (dict_keys d) -> NoDup (dict_keys (dict_set d k v)).
Proof.
  intros Hnd. rewrite dict_keys_set. destruct (dict_mem d k) eqn:E; [exact Hnd|].
  apply NoDup_app; [exact Hnd|repeat constructor; simpl; tauto|].
  intros x Hin [<-|[]]. apply dict_mem_In in Hin. congruence.
Qed.

End DictLemmas.

(* ================================================================== *)
(** * The configuration loader *)
(* ================================================================== *)

Section LoaderLemmas.
Context {RT : PyRuntime}.

Import ConfigLoader.

Lemma check_type_raise (param_name validator_name : string)
    (expected_type : option type_spec) (value : pyval) (e : exn) :
  check_type param_name validator_name expected_type value = Raise e ->
  is_InvalidConfigError e = true.
Proof.
  unfold check_type. intros H.
  repeat match type of H with
         | Raise _ = Raise _ => inversion H; subst; clear H
         | Ok _ = Raise _ => discriminate H
         | context [match ?x with _ => _ end] => destruct x
         end; reflexivity.
Qed.

Lemma param_value_raise (validator_name column : string) (idx : nat)
    (params : dict pyval) (param_name : string) (meta : ParamMeta) (e : exn) :
  param_value validator_name column idx params param_name meta = Raise e ->
  e = InvalidConfigError
        (missing_required_message param_name validator_name idx column) /\
  dict_get params param_name = None /\
  pm_required meta = true /\ is_none (pm_default meta) = true.
Proof.
  unfold param_value. destruct (dict_get params param_name); [discriminate|].
  destruct (pm_required meta); simpl; [|discriminate].
  destruct (is_none (pm_default meta)); [|discriminate].
  intros H; inversion H; auto.
Qed.

Lemma param_value_ok (validator_name column : string) (idx : nat)
    (params : dict pyval) (param_name : string) (meta : ParamMeta) (value : pyval) :
  param_value validator_name column idx params param_name meta = Ok value ->
  value = match dict_get params param_name with
          | Some supplied => supplied
          | None => pm_default meta
          end.
Proof.
  unfold param_value. destruct (dict_get params param_name).
  - intros H; now inversion H.
  - destruct (pm_required meta && is_none (pm_default meta)); [discriminate|].
    intros H; now inversion H.
Qed.

(** The loop over the schema raises configuration errors only. *)
Lemma fill_params_raise (validator_name column : string) (idx : nat)
    (params : dict pyval) (schema : dict ParamMeta) :
  forall acc e,
    fill_params validator_name column idx params schema acc = Raise e ->
    is_InvalidConfigError e = true.
Proof.
  induction schema as [|[p meta] rest IH]; simpl; intros acc e H; [discriminate|].
  destruct (param_value validator_name column idx params p meta) as [value|e']
    eqn:Ev; simpl in H.
  - destruct (check_type p validator_name (pm_type meta) value) as [u|e'']
      eqn:Et; simpl in H.
    + eapply IH; eassumption.
    + inversion H; subst. eapply check_type_raise; eassumption.
  - inversion H; subst. apply param_value_raise in Ev. now destruct Ev as [-> _].
Qed.

Lemma fill_params_app (validator_name column : string) (idx : nat)
    (params : dict pyval) (before rest : dict ParamMeta) :
  forall acc,
    fill_params validator_name column idx params (before ++ rest)%list acc =
    (acc' <- fill_params validator_name column idx params before acc ;;
     fill_params validator_name column idx params rest acc').
Proof.
  induction before as [|[p meta] before IH]; simpl; intros acc; [reflexivity|].
  destruct (param_value validator_name column idx params p meta); simpl;
    [|reflexivity].
  destruct (check_type p validator_name (pm_type meta) a); simpl; [|reflexivity].
  apply IH.
Qed.

(** Parameters outside the schema part being filled are left alone. *)
Lemma fill_params_other (validator_name column : string) (idx : nat)
    (params : dict pyval) (schema : dict ParamMeta) :
  forall acc out k,
    fill_params validator_name column idx params schema acc = Ok out ->
    dict_get schema k = None ->
    dict_get out k = dict_get acc k.
Proof.
  induction schema as [|[p meta] rest IH]; simpl; intros acc out k H Hk.
  - now inversion H.
  - destruct (param_value validator_name column idx params p meta) as [value|]
      eqn:Ev; simpl in H; [|discriminate].
    destruct (check_type p validator_name (pm_type meta) value); simpl in H;
      [|discriminate].
    destruct (String.eqb k p) eqn:Ekp; [discriminate|].
    rewrite (IH _ _ _ H Hk), dict_get_set. now rewrite Ekp.
Qed.

(** After the loop the keys are those held before and those of the
    schema. *)
Lemma fill_params_mem (validator_name column : string) (idx : nat)
    (params : dict pyval) (schema : dict ParamMeta) :
  forall acc out k,
    fill_params validator_name column idx params schema acc = Ok out ->
    dict_mem out k = dict_mem acc k || dict_mem schema k.
Proof.
  induction schema as [|[p meta] rest IH]; simpl; intros acc out k H.
  - inversion H. now rewrite orb_false_r.
  - destruct (param_value validator_name column idx params p meta) as [value|];
      simpl in H; [|discriminate].
    destruct (check_type p validator_name (pm_type meta) value); simpl in H;
      [|discriminate].
    assert (Hcons : dict_mem ((p, meta) :: rest) k
                    = String.eqb k p || dict_mem rest k)
      by (unfold dict_mem; simpl; destruct (String.eqb k p); reflexivity).
    rewrite (IH _ _ k H), dict_mem_set, Hcons.
    destruct (String.eqb k p), (dict_mem acc k), (dict_mem rest k); reflexivity.
Qed.

Lemma fill_params_NoDup (validator_name column : string) (idx : nat)
    (params : dict pyval) (schema : dict ParamMeta) :
  forall acc out,
    fill_params validator_name column idx params schema acc = Ok out ->
    NoDup (dict_keys acc) -> NoDup (dict_keys out).
Proof.
  induction schema as [|[p meta] rest IH]; simpl; intros acc out H Hnd.
  - now inversion H; subst.
  - destruct (param_value validator_name column idx params p meta) as [value|];
      simpl in H; [|discriminate].
    destruct (check_type p validator_name (pm_type meta) value); simpl in H;
      [|discriminate].
    eapply IH; [eassumption|]. now apply NoDup_dict_set.
Qed.

(** With distinct schema keys, the keys come out in schema order after
    those held before. *)
Lemma fill_params_keys (validator_name column : string) (idx : nat)
    (params : dict pyval) (schema : dict ParamMeta) :
  forall acc out,
    fill_params validator_name column idx params schema acc = Ok out ->
    NoDup (dict_keys acc ++ dict_keys schema) ->
    dict_keys out = (dict_keys acc ++ dict_keys schema)%list.
Proof.
  induction schema as [|[p meta] rest IH]; simpl; intros acc out H Hnd.
  - inversion H. now rewrite app_nil_r.
  - destruct (param_value validator_name column idx params p meta) as [value|];
      simpl in H; [|discriminate].
    destruct (check_type p validator_name (pm_type meta) value); simpl in H;
      [|discriminate].
    assert (Hfresh : dict_mem acc p = false).
    { destruct (dict_mem acc p) eqn:E; [|reflexivity].
      apply dict_mem_In in E. apply NoDup_remove_2 in Hnd.
      exfalso. apply Hnd. apply in_or_app. now left. }
    assert (Hkeys : dict_keys (dict_set acc p value) = (dict_keys acc ++ [p])%list)
      by (rewrite dict_keys_set; now rewrite Hfresh).
    rewrite (IH _ _ H); rewrite Hkeys, <- app_assoc; [reflexivity|exact Hnd].
Qed.

(** With distinct schema keys, every declared parameter comes out with
    the supplied value, or with its default when none was supplied. *)
Lemma fill_params_values (validator_name column : string) (idx : nat)
    (params : dict pyval) (schema : dict ParamMeta) :
  forall acc out k meta,
    fill_params validator_name column idx params schema acc = Ok out ->
    NoDup (dict_keys schema) ->
    dict_get schema k = Some meta ->
    dict_get out k = Some (match dict_get params k with
                           | Some supplied => supplied
                           | None => pm_default meta
                           end).
Proof.
  induction schema as [|[p m] rest IH]; simpl; intros acc out k meta H Hnd Hk;
    [discriminate|].
  destruct (param_value validator_name column idx params p m) as [value|] eqn:Ev;
    simpl in H; [|discriminate].
  destruct (check_type p validator_name (pm_type m) value); simpl in H;
    [|discriminate].
  inversion Hnd as [|? ? Hfresh Hnd']; subst.
  destruct (String.eqb_spec k p) as [->|Hne].
  - inversion Hk; subst m.
    rewrite (fill_params_other _ _ _ _ _ _ _ p H).
    + rewrite dict_get_set, String.eqb_refl. f_equal.
      eapply param_value_ok; eassumption.
    + now apply dict_get_None.
  - eapply IH; eassumption.
Qed.

(** A required parameter without default that is not supplied makes the
    loop over the schema raise. *)
Lemma fill_params_missing (validator_name column : string) (idx : nat)
    (params : dict pyval) (schema : dict ParamMeta) (p : string) (meta : ParamMeta) :
  In (p, meta) schema ->
  pm_required meta = true -> is_none (pm_default meta) = true ->
  dict_get params p = None ->
  forall acc, is_ok (fill_params validator_name column idx params schema acc) = false.
Proof.
  intros Hin Hreq Hdef Habsent.
  induction schema as [|[p0 m0] rest IH]; simpl; intros acc; [destruct Hin|].
  destruct Hin as [E|Hin].
  - inversion E; subst. unfold param_value. now rewrite Habsent, Hreq, Hdef.
  - destruct (param_value validator_name column idx params p0 m0); simpl;
      [|reflexivity].
    destruct (check_type p0 validator_name (pm_type m0) a); simpl; [|reflexivity].
    now apply IH.
Qed.

Lemma check_unknown_ok (validator_name : string) (idx : nat)
    (schema : dict ParamMeta) (param_names : list string) :
  check_unknown validator_name idx schema param_names = Ok tt ->
  forall k, In k param_names -> dict_mem schema k = true.
Proof.
  induction param_names as [|k0 rest IH]; simpl; intros H k Hin; [destruct Hin|].
  destruct (dict_mem schema k0) eqn:E; simpl in H; [|discriminate].
  destruct Hin as [<-|Hin]; auto.
Qed.

Lemma check_unknown_raise (validator_name : string) (idx : nat)
    (schema : dict ParamMeta) (param_names : list string) (e : exn) :
  check_unknown validator_name idx schema param_names = Raise e ->
  exists k, In k param_names /\ dict_mem schema k = false /\
            e = InvalidConfigError (unknown_parameter_message k validator_name idx).
Proof.
  induction param_names as [|k0 rest IH]; simpl; intros H; [discriminate|].
  destruct (dict_mem schema k0) eqn:E; simpl in H.
  - destruct (IH H) as (k & Hin & Hk & He). exists k. auto.
  - inversion H. exists k0. auto.
Qed.

(** An entry raises one of the two kinds of error of [exceptions.py]. *)
Lemma normalise_entry_raise (reg : ValidatorRegistry.validators) (idx : nat)
    (entry : RawEntry) (e : exn) :
  normalise_entry reg idx entry = Raise e ->
  is_InvalidConfigError e = true \/ is_UnknownValidatorError e = true.
Proof.
  unfold normalise_entry. intros H.
  destruct entry as [|[column|] [name|] params];
    try (inversion H; subst; now left).
  destruct (ValidatorRegistry.get_validator reg name) as [cls|];
    [|inversion H; subst; now right].
  destruct (fill_params _ _ _ _ _ _) as [normalized|e'] eqn:Ef; simpl in H.
  - destruct (check_unknown _ _ _ _) as [u|e'] eqn:Ec; simpl in H; [discriminate|].
    inversion H; subst. apply check_unknown_raise in Ec.
    destruct Ec as (k & _ & _ & ->). now left.
  - inversion H; subst. left. eapply fill_params_raise; eassumption.
Qed.

Lemma normalise_entries_app (reg : ValidatorRegistry.validators)
    (pre rest : list RawEntry) :
  forall idx acc,
    normalise_entries reg idx (pre ++ rest)%list acc =
    (acc' <- normalise_entries reg idx pre acc ;;
     normalise_entries reg (idx + length pre) rest acc').
Proof.
  induction pre as [|entry pre IH]; simpl; intros idx acc.
  - now rewrite Nat.add_0_r.
  - destruct (normalise_entry reg idx entry); simpl; [|reflexivity].
    rewrite IH. now rewrite Nat.add_succ_r.
Qed.

(** The loader stops at the first entry that raises, with its error. *)
Lemma load_stops_at (reg : ValidatorRegistry.validators)
    (pre post : list RawEntry) (entry : RawEntry) (e : exn) :
  is_ok (normalise_entries reg 0 pre []) = true ->
  normalise_entry reg (length pre) entry = Raise e ->
  load_config reg (ConfigDict (ValidationsList (pre ++ entry :: post))) = Raise e.
Proof.
  intros Hpre He. simpl. rewrite normalise_entries_app.
  destruct (normalise_entries reg 0 pre []); [|discriminate]. simpl.
  now rewrite He.
Qed.

(** Each entry of a loaded configuration is the normal form of the
    entry at its position. *)
Lemma normalise_entries_ok (reg : ValidatorRegistry.validators)
    (entries : list RawEntry) :
  forall idx acc out,
    normalise_entries reg idx entries acc = Ok out ->
    exists specs, out = (acc ++ specs)%list /\
      Forall2 (fun entry spec => exists i, normalise_entry reg i entry = Ok spec)
              entries specs.
Proof.
  induction entries as [|entry rest IH]; simpl; intros idx acc out H.
  - inversion H. exists []. rewrite app_nil_r. split; [reflexivity|constructor].
  - destruct (normalise_entry reg idx entry) as [spec|] eqn:Es; simpl in H;
      [|discriminate].
    destruct (IH _ _ _ H) as (specs & -> & Hall).
    exists (spec :: specs). rewrite <- app_assoc. split; [reflexivity|].
    constructor; eauto.
Qed.

End LoaderLemmas.

(** C3. Every entry the loader accepts comes out with a params mapping
    whose keys are exactly those of the schema of the validator it
    names, each declared parameter holding the supplied value or, when
    none was supplied, its default; no supplied parameter is outside
    the schema.  An entry that supplies an undeclared parameter, and an
    entry that lacks a required parameter without default, make the
    loader raise a configuration error; the latter names the parameter
    and the index of the entry, the missing parameter being the first
    the schema loop rejects, as is the required parameter of each
    built-in validator.  The loader stops at the first entry that
    raises. *)
Theorem normalised_params_match_schema :
  forall (RT : PyRuntime),
    (forall (reg : ValidatorRegistry.validators),
        (forall idx entry spec,
            ConfigLoader.normalise_entry reg idx entry = Ok spec ->
            exists column name params cls normalized,
              entry = EntryDict (Some column) (Some name) params /\
              ValidatorRegistry.get_validator reg name = Some cls /\
              spec = EntryDict (Some column) (Some name) (Some normalized) /\
              let schema := vc_get_required_params cls in
              let supplied := match params with Some p => p | None => [] end in
              (forall k, dict_mem normalized k = dict_mem schema k) /\
              NoDup (dict_keys normalized) /\
              (forall k, dict_mem supplied k = true -> dict_mem schema k = true) /\
              (NoDup (dict_keys schema) ->
               dict_keys normalized = dict_keys schema /\
               forall k meta,
                 dict_get schema k = Some meta ->
                 dict_get normalized k =
                 Some (match dict_get supplied k with
                       | Some value => value
                       | None => pm_default meta
                       end)))
        /\
        (forall entries cfg,
            ConfigLoader.load_config reg (ConfigDict (ValidationsList entries))
              = Ok cfg ->
            Forall2 (fun entry spec =>
                       exists i, ConfigLoader.normalise_entry reg i entry = Ok spec)
                    entries (validations cfg))
        /\
        (forall idx column name params cls k,
            ValidatorRegistry.get_validator reg name = Some cls ->
            dict_mem params k = true ->
            dict_mem (vc_get_required_params cls) k = false ->
            raises_config_error
              (ConfigLoader.normalise_entry reg idx
                 (EntryDict (Some column) (Some name) (Some params))) = true)
        /\
        (forall idx column name params cls p meta,
            let supplied := match params with Some p => p | None => [] end in
            ValidatorRegistry.get_validator reg name = Some cls ->
            In (p, meta) (vc_get_required_params cls) ->
            pm_required meta = true ->
            is_none (pm_default meta) = true ->
            dict_get supplied p = None ->
            raises_config_error
              (ConfigLoader.normalise_entry reg idx
                 (EntryDict (Some column) (Some name) params)) = true)
        /\
        (forall idx column name params cls before p meta after,
            let supplied := match params with Some p => p | None => [] end in
            ValidatorRegistry.get_validator reg name = Some cls ->
            vc_get_required_params cls = (before ++ (p, meta) :: after)%list ->
            is_ok (ConfigLoader.fill_params name column idx supplied before [])
              = true ->
            pm_required meta = true ->
            is_none (pm_default meta) = true ->
            dict_get supplied p = None ->
            ConfigLoader.normalise_entry reg idx
              (EntryDict (Some column) (Some name) params) =
            Raise (InvalidConfigError
                     (ConfigLoader.missing_required_message p name idx column)))
        /\
        (forall pre entry post e,
            is_ok (ConfigLoader.normalise_entries reg 0 pre []) = true ->
            ConfigLoader.normalise_entry reg (length pre) entry = Raise e ->
            ConfigLoader.load_config reg
              (ConfigDict (ValidationsList (pre ++ entry :: post))) = Raise e))
    /\
    (forall idx column params name p,
        let supplied := match params with Some p => p | None => [] end in
        In (name, p) [ ("regex", "pattern"); ("type", "expected_type");
                       ("custom_function", "validation_func") ] ->
        dict_get supplied p = None ->
        ConfigLoader.normalise_entry ValidatorRegistry.builtin idx
          (EntryDict (Some column) (Some name) params) =
        Raise (InvalidConfigError
                 (ConfigLoader.missing_required_message p name idx column))).
Proof.
  intros RT. split; [intros reg; repeat apply conj|].
  - intros idx entry spec H. unfold ConfigLoader.normalise_entry in H.
    destruct entry as [|[column|] [name|] params]; try discriminate.
    destruct (ValidatorRegistry.get_validator reg name) as [cls|] eqn:Ecls;
      [|discriminate].
    destruct (ConfigLoader.fill_params _ _ _ _ _ _) as [normalized|] eqn:Ef;
      simpl in H; [|discriminate].
    destruct (ConfigLoader.check_unknown _ _ _ _) as [[]|] eqn:Ec; simpl in H;
      [|discriminate].
    inversion H; subst spec.
    exists column, name, params, cls, normalized.
    split; [reflexivity|]. split; [exact Ecls|]. split; [reflexivity|].
    cbv zeta. split; [|split; [|split]].
    + intros k. now rewrite (fill_params_mem _ _ _ _ _ _ _ k Ef).
    + eapply fill_params_NoDup; [exact Ef|constructor].
    + intros k Hk. eapply check_unknown_ok; [exact Ec|].
      now apply dict_mem_In.
    + intros Hnd. split.
      * now apply (fill_params_keys _ _ _ _ _ _ _ Ef).
      * intros k meta Hk. eapply fill_params_values; eassumption.
  - intros entries cfg H. simpl in H.
    destruct (ConfigLoader.normalise_entries reg 0 entries []) as [out|] eqn:E;
      simpl in H; [|discriminate].
    inversion H; subst cfg. simpl.
    destruct (normalise_entries_ok reg entries _ _ _ E) as (specs & -> & Hall).
    exact Hall.
  - intros idx column name params cls k Hcls Hk Hundeclared. simpl. rewrite Hcls.
    destruct (ConfigLoader.fill_params _ _ _ _ _ _) as [normalized|e] eqn:Ef;
      simpl.
    + destruct (ConfigLoader.check_unknown _ _ _ _) as [[]|e] eqn:Ec; simpl.
      * apply dict_mem_In in Hk.
        rewrite (check_unknown_ok _ _ _ _ Ec k Hk) in Hundeclared. discriminate.
      * apply check_unknown_raise in Ec. now destruct Ec as (k' & _ & _ & ->).
    + eapply fill_params_raise; eassumption.
  - intros idx column name params cls p meta supplied Hcls Hin Hreq Hdef Habsent.
    subst supplied.
    pose proof (fill_params_missing name column idx _ _ p meta
                  Hin Hreq Hdef Habsent []) as Hfail.
    simpl. rewrite Hcls.
    destruct (ConfigLoader.fill_params _ _ _ _ _ _) as [normalized|e] eqn:Ef;
      [discriminate|]. simpl. eapply fill_params_raise; eassumption.
  - intros idx column name params cls before p meta after supplied
      Hcls Hschema Hbefore Hreq Hdef Habsent.
    subst supplied. destruct params as [supplied|];
      simpl; rewrite Hcls, Hschema, fill_params_app;
      (destruct (ConfigLoader.fill_params name column idx _ before [])
         as [acc|]; [|discriminate]);
      simpl; unfold ConfigLoader.param_value; now rewrite Habsent, Hreq, Hdef.
  - intros pre entry post e. apply load_stops_at.
  - intros idx column params name p supplied Hin Habsent.
    subst supplied. simpl in Hin.
    destruct Hin as [E|[E|[E|[]]]]; inversion E; subst name p;
      unfold ConfigLoader.normalise_entry.
    all: destruct params as [supplied|]; simpl in Habsent |- *;
      unfold ConfigLoader.param_value; simpl; rewrite ?Habsent; reflexivity.
Qed.

(** C3 on a regex entry that supplies only its pattern: it comes out
    with both schema keys, [case_sensitive] holding its default; and a
    regex entry without pattern at index 4 is refused by name. *)
Lemma normalised_params_match_schema_witness :
  (exists normalized,
      ConfigLoader.normalise_entry (RT := TestRuntime.runtime)
        ValidatorRegistry.builtin 0
        (EntryDict (Some "email") (Some "regex") (Some [("pattern", VStr "x")]))
      = Ok (EntryDict (Some "email") (Some "regex") (Some normalized)) /\
      dict_keys normalized = ["pattern"; "case_sensitive"] /\
      dict_get normalized "pattern" = Some (VStr "x") /\
      dict_get normalized "case_sensitive" = Some (VBool true))
  /\
  ConfigLoader.normalise_entry (RT := TestRuntime.runtime)
    ValidatorRegistry.builtin 4
    (EntryDict (Some "email") (Some "regex")
               (Some [("case_sensitive", VBool false)]))
  = Raise (InvalidConfigError
             "Missing required parameter 'pattern' for validator 'regex' in entry 4 (column 'email').").
Proof.
  destruct (normalised_params_match_schema TestRuntime.runtime)
    as (Hreg & Hbuiltin).
  split.
  - destruct (proj1 (Hreg ValidatorRegistry.builtin) 0
                (EntryDict (Some "email") (Some "regex")
                           (Some [("pattern", VStr "x")]))
                _ eq_refl)
      as (column & name & params & cls & normalized & Hentry & Hcls & Hspec
          & _ & _ & _ & Hvalues).
    inversion Hentry; subst column name params.
    inversion Hcls; subst cls. inversion Hspec; subst normalized.
    eexists. split; [reflexivity|].
    destruct Hvalues as (Hkeys & Hget).
    + simpl. repeat constructor; simpl; intuition discriminate.
    + split; [exact Hkeys|]. split.
      * exact (Hget "pattern" _ eq_refl).
      * exact (Hget "case_sensitive" _ eq_refl).
  - exact (Hbuiltin 4 "email" (Some [("case_sensitive", VBool false)])
             "regex" "pattern" (or_introl eq_refl) eq_refl).
Defined.

(* ================================================================== *)
(** * Unknown validators *)
(* ================================================================== *)

Section UnknownValidatorLemmas.
Context {RT : PyRuntime}.

Lemma unresolvable_get (reg : ValidatorRegistry.validators) (column : option string)
    (name : string) (params : option (dict pyval)) :
  unresolvable reg (EntryDict column (Some name) params) = true <->
  ValidatorRegistry.get_validator reg name = None.
Proof.
  unfold unresolvable, dict_mem, ValidatorRegistry.get_validator.
  destruct (dict_get reg name); simpl; split; congruence.
Qed.

(** A well-formed entry naming an unregistered validator raises the
    unknown-validator error in the loader. *)
Lemma normalise_entry_unknown (reg : ValidatorRegistry.validators) (idx : nat)
    (column name : string) (params : option (dict pyval)) :
  ValidatorRegistry.get_validator reg name = None ->
  ConfigLoader.normalise_entry reg idx (EntryDict (Some column) (Some name) params)
  = Raise (UnknownValidatorError
             (ConfigLoader.unknown_validator_message name idx)).
Proof. intros H. simpl. now rewrite H. Qed.

(** A document holding a well-formed entry that names an unregistered
    validator is never accepted, and what the loader raises is one of
    the two kinds of [exceptions.py]. *)
Lemma normalise_entries_unresolvable (reg : ValidatorRegistry.validators)
    (entries : list RawEntry) :
  forallb structurally_well_formed entries = true ->
  existsb (unresolvable reg) entries = true ->
  forall idx acc,
    exists e, ConfigLoader.normalise_entries reg idx entries acc = Raise e /\
              (is_UnknownValidatorError e = true \/ is_InvalidConfigError e = true).
Proof.
  induction entries as [|entry rest IH]; simpl; intros Hwf Hun idx acc;
    [discriminate|].
  apply andb_prop in Hwf. destruct Hwf as [Hwf Hwfs].
  destruct (ConfigLoader.normalise_entry reg idx entry) as [spec|e] eqn:Es; simpl.
  - apply orb_prop in Hun. destruct Hun as [Hun|Hun]; [|now apply IH].
    destruct entry as [|[column|] [name|] params]; try discriminate.
    apply unresolvable_get in Hun.
    rewrite (normalise_entry_unknown reg idx column name params Hun) in Es.
    discriminate.
  - exists e. split; [reflexivity|].
    destruct (normalise_entry_raise reg idx entry e Es); auto.
Qed.

Lemma prepare_entries_app (reg : ValidatorRegistry.validators)
    (pre rest : list RawEntry) :
  forall idx acc,
    ValidationPipeline.prepare_entries reg idx (pre ++ rest)%list acc =
    (acc' <- ValidationPipeline.prepare_entries reg idx pre acc ;;
     ValidationPipeline.prepare_entries reg (idx + length pre) rest acc').
Proof.
  induction pre as [|entry pre IH]; simpl; intros idx acc.
  - now rewrite Nat.add_0_r.
  - destruct (ValidationPipeline.prepare_entry reg idx entry); simpl;
      [|reflexivity].
    rewrite IH. now rewrite Nat.add_succ_r.
Qed.

(** Construction passes over well-formed entries whose validators are
    registered, whatever their parameters. *)
Lemma prepare_entries_resolvable (reg : ValidatorRegistry.validators)
    (pre : list RawEntry) :
  forallb structurally_well_formed pre = true ->
  existsb (unresolvable reg) pre = false ->
  forall idx acc, is_ok (ValidationPipeline.prepare_entries reg idx pre acc) = true.
Proof.
  induction pre as [|entry pre IH]; simpl; intros Hwf Hres idx acc; [reflexivity|].
  apply andb_prop in Hwf. destruct Hwf as [Hwf Hwfs].
  apply orb_false_elim in Hres. destruct Hres as [Hres Hress].
  destruct entry as [|[column|] [name|] params]; try discriminate.
  simpl. simpl in Hres. unfold ValidatorRegistry.get_validator, dict_mem in *.
  destruct (dict_get reg name); [|discriminate]. simpl. now apply IH.
Qed.

End UnknownValidatorLemmas.

(** The claim C4 as worded fails: both entries of this document are
    structurally well-formed and the second names an unregistered
    validator, yet the loader raises the configuration error of the
    first entry's undeclared parameter. *)
Lemma load_fails_with_unknown_validator_counterexample :
  let entries :=
    [ EntryDict (Some "a") (Some "range") (Some [("bogus", VInt 1)]);
      EntryDict (Some "a") (Some "nope") None ] in
  ConfigLoader.load_config (RT := TestRuntime.runtime) ValidatorRegistry.builtin
    (ConfigDict (ValidationsList entries))
  = Raise (InvalidConfigError
             "Unknown parameter 'bogus' for validator 'range' in entry 0") /\
  ~ load_fails_with_unknown_validator (RT := TestRuntime.runtime)
      ValidatorRegistry.builtin entries.
Proof.
  intros entries. split; [reflexivity|].
  intros Hclaim. specialize (Hclaim eq_refl eq_refl). discriminate Hclaim.
Qed.

(** C4, amended.  The loader and the constructor go through the entries
    in order and stop at the first that raises.  A structurally
    well-formed entry naming an unregistered validator raises the
    unknown-validator error, with the name and the index: in the loader
    when every entry before it has been accepted, parameters included;
    in pipeline construction, which does not inspect parameters, when
    the entries before it are well-formed and resolvable.  A document
    of well-formed entries one of which is unresolvable is never
    accepted by the loader; it raises the unknown-validator error or
    the configuration error of an earlier entry. *)
Theorem unknown_validator_fails_fast :
  forall (RT : PyRuntime) (reg : ValidatorRegistry.validators),
    (forall pre column name params post,
        is_ok (ConfigLoader.normalise_entries reg 0 pre []) = true ->
        ValidatorRegistry.get_validator reg name = None ->
        ConfigLoader.load_config reg
          (ConfigDict (ValidationsList
             (pre ++ EntryDict (Some column) (Some name) params :: post)))
        = Raise (UnknownValidatorError
                   (ConfigLoader.unknown_validator_message name (length pre))))
    /\
    (forall entries,
        forallb structurally_well_formed entries = true ->
        existsb (unresolvable reg) entries = true ->
        let loaded :=
          ConfigLoader.load_config reg (ConfigDict (ValidationsList entries)) in
        raises_unknown_validator loaded = true \/ raises_config_error loaded = true)
    /\
    (forall pre column name params post,
        forallb structurally_well_formed pre = true ->
        existsb (unresolvable reg) pre = false ->
        ValidatorRegistry.get_validator reg name = None ->
        ValidationPipeline.init reg
          {| validations :=
               pre ++ EntryDict (Some column) (Some name) params :: post |}
        = Raise (UnknownValidatorError
                   ("Unknown validator '" ++ name ++ "' in validation entry "
                      ++ str_of_nat (length pre) ++ "."))).
Proof.
  intros RT reg. split; [|split].
  - intros pre column name params post Hpre Hname.
    apply load_stops_at; [exact Hpre|]. now apply normalise_entry_unknown.
  - intros entries Hwf Hun loaded. subst loaded. simpl.
    destruct (normalise_entries_unresolvable reg entries Hwf Hun 0 [])
      as (e & -> & He). simpl. exact He.
  - intros pre column name params post Hwf Hres Hname.
    unfold ValidationPipeline.init. simpl. rewrite prepare_entries_app.
    pose proof (prepare_entries_resolvable reg pre Hwf Hres 0 []) as Hok.
    destruct (ValidationPipeline.prepare_entries reg 0 pre []); [|discriminate].
    simpl. now rewrite Hname.
Qed.

(** C4, amended, on a document and a pipeline specification whose
    second entry names the unregistered validator [nope]. *)
Lemma unknown_validator_fails_fast_witness :
  let first := EntryDict (Some "a") (Some "range") (Some [("max_value", VInt 3)]) in
  ConfigLoader.load_config (RT := TestRuntime.runtime) ValidatorRegistry.builtin
    (ConfigDict (ValidationsList [first; EntryDict (Some "a") (Some "nope") None]))
  = Raise (UnknownValidatorError "Unknown validator 'nope' in validation entry 1")
  /\
  ValidationPipeline.init (RT := TestRuntime.runtime) ValidatorRegistry.builtin
    {| validations := [first; EntryDict (Some "a") (Some "nope") None] |}
  = Raise (UnknownValidatorError "Unknown validator 'nope' in validation entry 1.").
Proof.
  intros first.
  destruct (unknown_validator_fails_fast TestRuntime.runtime
              ValidatorRegistry.builtin) as (Hload & _ & Hinit).
  split.
  - exact (Hload [first] "a" "nope" None [] eq_refl eq_refl).
  - exact (Hinit [first] "a" "nope" None [] eq_refl eq_refl eq_refl).
Defined.

(* ================================================================== *)
(** * Messages *)
(* ================================================================== *)

Section MessageLemmas.
Context {RT : PyRuntime}.

Lemma string_length_app (s1 s2 : string) :
  String.length (s1 ++ s2) = String.length s1 + String.length s2.
Proof. induction s1 as [|c s1 IH]; simpl; [reflexivity|now rewrite IH]. Qed.

(** Every built-in [validate] that returns has gone through the shared
    tail, with the validator's name and its wording. *)
Lemma builtin_result_shape (cls : ValidatorClass) (config : dict pyval)
    (df : DataFrame) (column : string) (r : ValidationResult) :
  In cls builtin_classes ->
  vc_validate cls config df column = Ok r ->
  exists total ds,
    r = make_result (vc_name cls) (failure_wording (vc_name cls)) total ds.
Proof.
  intros Hin H. simpl in Hin.
  destruct Hin as [<-|[<-|[<-|[<-|[<-|[]]]]]]; simpl in H.
  - unfold RangeValidator.validate, bind in H.
    destruct (df_items df column) as [series|]; [|discriminate].
    destruct (for_items _ series []) as [ds|]; [|discriminate].
    inversion H. do 2 eexists. reflexivity.
  - unfold NullCheckValidator.validate, bind in H.
    destruct (df_items df column) as [series|]; [|discriminate].
    match type of H with
    | match ?c with _ => _ end = _ => destruct c as [ds|]; [|discriminate]
    end.
    inversion H. do 2 eexists. reflexivity.
  - unfold RegexValidator.validate, bind in H.
    destruct (is_none _); [discriminate|].
    destruct (re_compile _ _) as [msg|rx]; [discriminate|].
    destruct (df_items df column) as [series|]; [|discriminate].
    destruct (for_items _ series []) as [ds|]; [|discriminate].
    inversion H. do 2 eexists. reflexivity.
  - unfold TypeValidator.validate, bind in H.
    destruct (String.eqb _ EmptyString); [discriminate|].
    destruct (negb (str_in _ _)); [discriminate|].
    destruct (df_items df column) as [series|]; [|discriminate].
    destruct (for_items _ series []) as [ds|]; [|discriminate].
    inversion H. do 2 eexists. reflexivity.
  - unfold CustomFunctionValidator.validate, bind in H.
    destruct (is_none _); [discriminate|].
    destruct (df_items df column) as [series|]; [|discriminate].
    destruct (for_items _ series []) as [ds|]; [|discriminate].
    inversion H. do 2 eexists. reflexivity.
Qed.

End MessageLemmas.

(** The claim C9 as worded fails: over a column holding one null the
    null-check validator reports "1/1 records failed null check", which
    is not "1/1 records failed {kind} validation" for any kind. *)
Lemma message_as_specified_counterexample :
  exists r,
    NullCheckValidator.validate (RT := TestRuntime.runtime)
      [] (Examples.frame "v" [CNone]) "v" = Ok r /\
    message r = "1/1 records failed null check" /\
    ~ message_as_specified r.
Proof.
  destruct (result_field_some
              (fun r => (message r, failed_records r, total_records r))
              (NullCheckValidator.validate (RT := TestRuntime.runtime)
                 [] (Examples.frame "v" [CNone]) "v")
              ("1/1 records failed null check", 1, 1))
    as (r & Hr & Hfields); [vm_compute; reflexivity|].
  injection Hfields as Hmsg Hfailed Htotal.
  exists r. split; [exact Hr|]. split; [exact Hmsg|].
  intros [kind Hkind]. rewrite Hmsg, Hfailed, Htotal in Hkind.
  unfold spec_message in Hkind. simpl in Hkind.
  repeat match type of Hkind with
         | String _ _ = String _ _ => injection Hkind as Hkind
         end.
  apply (f_equal String.length) in Hkind.
  rewrite string_length_app in Hkind. simpl in Hkind. lia.
Qed.

(** C9, amended.  Each of the five built-in validators computes its
    message as "All {total} records passed" when no record failed, and
    otherwise as "{failed}/{total} records failed " followed by its own
    wording: "range validation", "regex validation", "type validation"
    and "custom validation" for four of them, and "null check", without
    the word validation, for the null-check validator. *)
Theorem builtin_messages :
  forall (RT : PyRuntime) (cls : ValidatorClass) (config : dict pyval)
         (df : DataFrame) (column : string) (r : ValidationResult),
    In cls builtin_classes ->
    vc_validate cls config df column = Ok r ->
    message r =
      (if Nat.eqb (failed_records r) 0
       then "All " ++ str_of_nat (total_records r) ++ " records passed"
       else str_of_nat (failed_records r) ++ "/" ++ str_of_nat (total_records r)
              ++ " records failed " ++ failure_wording (vc_name cls))
    /\ (vc_name cls <> "null_check" ->
        exists kind,
          In kind ["range"; "regex"; "type"; "custom"] /\
          message r = spec_message kind (failed_records r) (total_records r))
    /\ passed r = Nat.eqb (failed_records r) 0.
Proof.
  intros RT cls config df column r Hin H.
  destruct (builtin_result_shape cls config df column r Hin H)
    as (total & ds & ->).
  split; [reflexivity|]. split; [|reflexivity].
  intros Hname. simpl in Hin.
  destruct Hin as [<-|[<-|[<-|[<-|[<-|[]]]]]].
  - exists "range". split; [simpl; auto|reflexivity].
  - now destruct Hname.
  - exists "regex". split; [simpl; auto|reflexivity].
  - exists "type". split; [simpl; auto|reflexivity].
  - exists "custom". split; [simpl; auto|reflexivity].
Qed.

(** C9, amended, on the exclusive range over [0, 5, 10]. *)
Lemma builtin_messages_witness :
  exists r,
    RangeValidator.validate (RT := TestRuntime.runtime)
      (Examples.range_0_10 false)
      (Examples.frame "value" (Examples.ints [0; 5; 10]%Z)) "value" = Ok r /\
    message r = "2/3 records failed range validation".
Proof.
  destruct (result_field_some
              (fun r => (failed_records r, total_records r))
              (RangeValidator.validate (RT := TestRuntime.runtime)
                 (Examples.range_0_10 false)
                 (Examples.frame "value" (Examples.ints [0; 5; 10]%Z)) "value")
              (2, 3))
    as (r & Hr & Hfields); [vm_compute; reflexivity|].
  injection Hfields as Hfailed Htotal.
  exists r. split; [exact Hr|].
  destruct (builtin_messages TestRuntime.runtime RangeValidator.class
              (Examples.range_0_10 false)
              (Examples.frame "value" (Examples.ints [0; 5; 10]%Z)) "value" r
              (or_introl eq_refl) Hr) as (Hmsg & _).
  rewrite Hmsg, Hfailed, Htotal. reflexivity.
Defined.

(* ================================================================== *)
(** * Further properties: the registry *)
(* ================================================================== *)

(** X1. Registration and lookup: after [register] the class is found
    under its name and every other name resolves as before; a second
    registration under the same name replaces the first (the last one
    wins) without adding a key; the names stay distinct. *)
Theorem register_then_lookup :
  forall (RT : PyRuntime) (cls : ValidatorClass)
         (reg : ValidatorRegistry.validators),
    (forall name,
        ValidatorRegistry.get_validator (ValidatorRegistry.register cls reg) name =
        if String.eqb name (vc_name cls) then Some cls
        else ValidatorRegistry.get_validator reg name)
    /\
    (forall cls' name,
        vc_name cls' = vc_name cls ->
        ValidatorRegistry.get_validator
          (ValidatorRegistry.register cls' (ValidatorRegistry.register cls reg)) name
        = ValidatorRegistry.get_validator (ValidatorRegistry.register cls' reg) name
        /\ dict_keys (ValidatorRegistry.register cls'
                        (ValidatorRegistry.register cls reg))
           = dict_keys (ValidatorRegistry.register cls reg))
    /\
    (NoDup (dict_keys reg) ->
     NoDup (dict_keys (ValidatorRegistry.register cls reg))).
Proof.
  intros RT cls reg. unfold ValidatorRegistry.register, ValidatorRegistry.get_validator.
  split; [|split].
  - intros name. apply dict_get_set.
  - intros cls' name Hname. rewrite Hname. split.
    + rewrite !dict_get_set. now destruct (String.eqb name (vc_name cls)).
    + rewrite dict_keys_set, dict_mem_set, String.eqb_refl. reflexivity.
  - apply NoDup_dict_set.
Qed.

(** X1 on the built-in registry: registering a second class under the
    name [range] replaces the range validator and adds no name. *)
Lemma register_then_lookup_witness :
  let other : ValidatorClass :=
    {| vc_name := "range"; vc_description := "replacement";
       vc_get_required_params := [];
       vc_validate := NullCheckValidator.validate (RT := TestRuntime.runtime) |} in
  let reg := ValidatorRegistry.register other ValidatorRegistry.builtin in
  ValidatorRegistry.get_validator reg "range" = Some other /\
  dict_keys reg = dict_keys (ValidatorRegistry.builtin (RT := TestRuntime.runtime)) /\
  NoDup (dict_keys reg).
Proof.
  intros other reg.
  destruct (register_then_lookup TestRuntime.runtime other ValidatorRegistry.builtin)
    as (Hget & _ & Hnodup).
  split; [exact (Hget "range")|]. split; [reflexivity|].
  apply Hnodup. simpl. repeat constructor; simpl; intuition discriminate.
Defined.

(** X2. [list_validators] returns the registered names, each once, in
    ascending order. *)
Theorem list_validators_sorted :
  forall (RT : PyRuntime) (reg : ValidatorRegistry.validators),
    NoDup (dict_keys reg) ->
    LocallySorted (fun a b => String.leb a b = true) (list_validators reg) /\
    NoDup (list_validators reg) /\
    (forall name,
        In name (list_validators reg) <->
        ValidatorRegistry.get_validator reg name <> None).
Proof.
  intros RT reg Hnd. unfold list_validators.
  pose proof (StringSort.Permuted_sort (dict_keys reg)) as Hperm.
  split; [|split].
  - exact (StringSort.LocallySorted_sort (dict_keys reg)).
  - eapply Permutation_NoDup; eassumption.
  - intros name. split.
    + intros Hin. apply (Permutation_in _ (Permutation_sym Hperm)) in Hin.
      unfold ValidatorRegistry.get_validator. intros Hnone.
      apply dict_get_None in Hnone. contradiction.
    + intros Hsome. apply (Permutation_in _ Hperm).
      apply dict_mem_In. unfold dict_mem, ValidatorRegistry.get_validator in *.
      now destruct (dict_get reg name).
Qed.

(** X2 on the built-in registry. *)
Lemma list_validators_sorted_witness :
  list_validators (RT := TestRuntime.runtime) ValidatorRegistry.builtin
  = ["custom_function"; "null_check"; "range"; "regex"; "type"] /\
  NoDup (list_validators (RT := TestRuntime.runtime) ValidatorRegistry.builtin).
Proof.
  split; [vm_compute; reflexivity|].
  apply (list_validators_sorted TestRuntime.runtime ValidatorRegistry.builtin).
  simpl. repeat constructor; simpl; intuition discriminate.
Defined.

(** X3. Once the package is imported the registry resolves exactly the
    five built-in names, each to its own class. *)
Theorem builtin_registry_names :
  forall (RT : PyRuntime),
    (forall cls, In cls builtin_classes ->
       ValidatorRegistry.get_validator ValidatorRegistry.builtin (vc_name cls)
       = Some cls)
    /\
    (forall name cls,
        ValidatorRegistry.get_validator ValidatorRegistry.builtin name = Some cls ->
        In cls builtin_classes /\ vc_name cls = name)
    /\
    (forall name config,
        ValidatorRegistry.create_validator ValidatorRegistry.builtin name config
          = None <->
        ~ In name ["range"; "null_check"; "regex"; "type"; "custom_function"]).
Proof.
  intros RT.
  assert (Hget : forall name cls,
             ValidatorRegistry.get_validator ValidatorRegistry.builtin name
               = Some cls ->
             In cls builtin_classes /\ vc_name cls = name).
  { intros name cls. unfold ValidatorRegistry.get_validator. simpl.
    repeat match goal with
           | |- context [String.eqb name ?s] =>
               destruct (String.eqb_spec name s) as [->|?]
           end; intros H; inversion H; subst; simpl; auto 10. }
  split; [|split].
  - intros cls Hin. simpl in Hin.
    destruct Hin as [<-|[<-|[<-|[<-|[<-|[]]]]]]; reflexivity.
  - exact Hget.
  - intros name config. unfold ValidatorRegistry.create_validator.
    destruct (ValidatorRegistry.get_validator ValidatorRegistry.builtin name)
      as [cls|] eqn:E.
    + split; [discriminate|]. intros Hout. exfalso. apply Hout.
      destruct (Hget name cls E) as (Hin & <-). simpl in Hin.
      destruct Hin as [<-|[<-|[<-|[<-|[<-|[]]]]]]; simpl; auto 10.
    + split; [|reflexivity]. intros _ Hin. simpl in Hin.
      destruct Hin as [<-|[<-|[<-|[<-|[<-|[]]]]]]; discriminate E.
Qed.

(** X3 at an unregistered name and at a registered one. *)
Lemma builtin_registry_names_witness :
  ValidatorRegistry.create_validator (RT := TestRuntime.runtime)
    ValidatorRegistry.builtin "nope" [] = None /\
  ValidatorRegistry.get_validator (RT := TestRuntime.runtime)
    ValidatorRegistry.builtin "regex" = Some RegexValidator.class.
Proof.
  destruct (builtin_registry_names TestRuntime.runtime) as (Hcls & _ & Hcreate).
  split.
  - apply Hcreate. simpl. intuition discriminate.
  - apply (Hcls RegexValidator.class). simpl. auto.
Defined.

(* ================================================================== *)
(** * Further properties: the results of the built-in validators *)
(* ================================================================== *)

Section ResultLemmas.
Context {RT : PyRuntime}.

Lemma for_items_length (body : Z -> pycell -> result (option FailureDetail)) :
  forall items acc ds,
    for_items body items acc = Ok ds ->
    length ds <= length acc + length items.
Proof.
  induction items as [|[idx val] rest IH]; simpl; intros acc ds H.
  - inversion H; subst. lia.
  - destruct (body idx val) as [[d|]|e]; try discriminate.
    + apply IH in H. rewrite length_app in H. simpl in H. lia.
    + apply IH in H. lia.
Qed.

Lemma df_items_length (df : DataFrame) (column : string)
    (series : list (Z * pycell)) :
  df_items df column = Ok series -> length series <= df_len df.
Proof.
  unfold df_items, df_len. destruct (dict_get (df_columns df) column);
    [|discriminate].
  intros H; inversion H; subst. rewrite length_combine. lia.
Qed.

(** Every built-in [validate] that returns has read the column and
    recorded at most one detail per row, and counts as total the rows
    of the table or of the column. *)
Lemma builtin_result_loop (cls : ValidatorClass) (config : dict pyval)
    (df : DataFrame) (column : string) (r : ValidationResult) :
  In cls builtin_classes ->
  vc_validate cls config df column = Ok r ->
  exists total series ds,
    df_items df column = Ok series /\
    r = make_result (vc_name cls) (failure_wording (vc_name cls)) total ds /\
    length ds <= length series /\ length series <= total /\ total <= df_len df.
Proof.
  intros Hin H. simpl in Hin.
  destruct Hin as [<-|[<-|[<-|[<-|[<-|[]]]]]]; simpl in H.
  - unfold RangeValidator.validate, bind in H.
    destruct (df_items df column) as [series|] eqn:Es; [|discriminate].
    destruct (for_items _ series []) as [ds|] eqn:El; [|discriminate].
    inversion H. exists (df_len df), series, ds.
    pose proof (for_items_length _ _ _ _ El). pose proof (df_items_length _ _ _ Es).
    simpl in *. repeat split; auto; lia.
  - unfold NullCheckValidator.validate, bind in H.
    destruct (df_items df column) as [series|] eqn:Es; [|discriminate].
    pose proof (df_items_length _ _ _ Es).
    destruct (negb (truthy _)).
    + destruct (for_items _ series []) as [ds|] eqn:El; [|discriminate].
      inversion H. exists (length series), series, ds.
      pose proof (for_items_length _ _ _ _ El). simpl in *. repeat split; auto; lia.
    + destruct (negb (is_none _)).
      * destruct (py_gt _ _) as [[|]|]; [| |discriminate];
          (destruct (for_items _ series []) as [ds|] eqn:El; [|discriminate];
           inversion H; exists (length series), series, ds;
           pose proof (for_items_length _ _ _ _ El); simpl in *;
           repeat split; auto; lia).
      * inversion H. exists (length series), series, [].
        simpl. repeat split; auto; lia.
  - unfold RegexValidator.validate, bind in H.
    destruct (is_none _); [discriminate|].
    destruct (re_compile _ _) as [msg|rx]; [discriminate|].
    destruct (df_items df column) as [series|] eqn:Es; [|discriminate].
    destruct (for_items _ series []) as [ds|] eqn:El; [|discriminate].
    inversion H. exists (df_len df), series, ds.
    pose proof (for_items_length _ _ _ _ El). pose proof (df_items_length _ _ _ Es).
    simpl in *. repeat split; auto; lia.
  - unfold TypeValidator.validate, bind in H.
    destruct (String.eqb _ EmptyString); [discriminate|].
    destruct (negb (str_in _ _)); [discriminate|].
    destruct (df_items df column) as [series|] eqn:Es; [|discriminate].
    destruct (for_items _ series []) as [ds|] eqn:El; [|discriminate].
    inversion H. exists (length series), series, ds.
    pose proof (for_items_length _ _ _ _ El). pose proof (df_items_length _ _ _ Es).
    simpl in *. repeat split; auto; lia.
  - unfold CustomFunctionValidator.validate, bind in H.
    destruct (is_none _); [discriminate|].
    destruct (df_items df column) as [series|] eqn:Es; [|discriminate].
    destruct (for_items _ series []) as [ds|] eqn:El; [|discriminate].
    inversion H. exists (df_len df), series, ds.
    pose proof (for_items_length _ _ _ _ El). pose proof (df_items_length _ _ _ Es).
    simpl in *. repeat split; auto; lia.
Qed.

End ResultLemmas.

(** X4. A result returned by a built-in validator is coherent:
    [failed_records] is the number of details, it does not exceed
    [total_records], which does not exceed the rows of the table;
    [passed] holds exactly when no detail was recorded; the result
    carries the validator's registered name. *)
Theorem builtin_result_coherent :
  forall (RT : PyRuntime) (cls : ValidatorClass) (config : dict pyval)
         (df : DataFrame) (column : string) (r : ValidationResult),
    In cls builtin_classes ->
    vc_validate cls config df column = Ok r ->
    failed_records r = length (error_details r) /\
    failed_records r <= total_records r /\
    total_records r <= df_len df /\
    (passed r = true <-> error_details r = []) /\
    validator_name r = vc_name cls /\
    df_has_column df column = true.
Proof.
  intros RT cls config df column r Hin H.
  destruct (builtin_result_loop cls config df column r Hin H)
    as (total & series & ds & Hseries & -> & Hds & Hlen & Htotal).
  simpl. repeat split; try lia.
  - destruct ds; [reflexivity|discriminate].
  - intros ->. reflexivity.
  - unfold df_items in Hseries. unfold df_has_column, dict_mem.
    now destruct (dict_get (df_columns df) column).
Qed.

(** X4 on the case-sensitive regex test. *)
Lemma builtin_result_coherent_witness :
  exists r,
    RegexValidator.validate (RT := TestRuntime.runtime)
      (Examples.lowercase_word true)
      (Examples.frame "text" (Examples.strs ["abc"; "Xyz"])) "text" = Ok r /\
    failed_records r = length (error_details r) /\
    failed_records r <= total_records r /\
    validator_name r = "regex".
Proof.
  destruct (result_field_some failed_records
              (RegexValidator.validate (RT := TestRuntime.runtime)
                 (Examples.lowercase_word true)
                 (Examples.frame "text" (Examples.strs ["abc"; "Xyz"])) "text")
              1)
    as (r & Hr & _); [vm_compute; reflexivity|].
  exists r. split; [exact Hr|].
  destruct (builtin_result_coherent TestRuntime.runtime RegexValidator.class
              (Examples.lowercase_word true)
              (Examples.frame "text" (Examples.strs ["abc"; "Xyz"])) "text" r)
    as (H1 & H2 & _ & _ & H5 & _); [simpl; auto|exact Hr|].
  auto.
Defined.

(** X5. Called on a column the table does not have, no built-in
    validator returns a result.  The range and null-check validators
    raise [KeyError] for the column; so does the regex validator once
    its pattern is set and compiles; the type and custom-function
    validators raise that [KeyError] unless their own parameter check
    raises its [ValueError] first. *)
Theorem builtin_missing_column_raises :
  forall (RT : PyRuntime) (config : dict pyval) (df : DataFrame) (column : string),
    df_has_column df column = false ->
    RangeValidator.validate config df column = Raise (KeyError column) /\
    NullCheckValidator.validate config df column = Raise (KeyError column) /\
    (forall rx,
        is_none (config_get config "pattern") = false ->
        re_compile (py_str (config_get config "pattern"))
          (negb (truthy (config_get_default config "case_sensitive" (VBool true))))
          = inr rx ->
        RegexValidator.validate config df column = Raise (KeyError column)) /\
    (exists e, TypeValidator.validate config df column = Raise e /\
               (e = KeyError column \/ exists msg, e = ValueError msg)) /\
    (exists e, CustomFunctionValidator.validate config df column = Raise e /\
               (e = KeyError column \/ exists msg, e = ValueError msg)) /\
    (forall cls, In cls builtin_classes ->
       is_ok (vc_validate cls config df column) = false).
Proof.
  intros RT config df column Habsent.
  assert (Hitems : df_items df column = Raise (KeyError column)).
  { unfold df_items. unfold df_has_column, dict_mem in Habsent.
    now destruct (dict_get (df_columns df) column). }
  assert (Hrange : RangeValidator.validate config df column = Raise (KeyError column))
    by (unfold RangeValidator.validate; now rewrite Hitems).
  assert (Hnull : NullCheckValidator.validate config df column
                  = Raise (KeyError column))
    by (unfold NullCheckValidator.validate; now rewrite Hitems).
  assert (Htype : exists e, TypeValidator.validate config df column = Raise e /\
                            (e = KeyError column \/ exists msg, e = ValueError msg)).
  { unfold TypeValidator.validate.
    destruct (String.eqb _ EmptyString); [eauto|].
    destruct (negb (str_in _ _)); [eauto|]. rewrite Hitems. simpl. eauto. }
  assert (Hcustom : exists e,
             CustomFunctionValidator.validate config df column = Raise e /\
             (e = KeyError column \/ exists msg, e = ValueError msg)).
  { unfold CustomFunctionValidator.validate.
    destruct (is_none _); [eauto|]. rewrite Hitems. simpl. eauto. }
  split; [exact Hrange|]. split; [exact Hnull|].
  split; [|split; [exact Htype|split; [exact Hcustom|]]].
  - intros rx Hset Hrx. unfold RegexValidator.validate.
    rewrite Hset, ignorecase_flag_spec, Hrx, Hitems. reflexivity.
  - intros cls Hin. simpl in Hin.
    destruct Hin as [<-|[<-|[<-|[<-|[<-|[]]]]]]; simpl.
    + now rewrite Hrange.
    + now rewrite Hnull.
    + unfold RegexValidator.validate.
      destruct (is_none _); [reflexivity|].
      destruct (re_compile _ _); [reflexivity|]. now rewrite Hitems.
    + destruct Htype as (e & -> & _). reflexivity.
    + destruct Hcustom as (e & -> & _). reflexivity.
Qed.

(** X5 on a table without the column [age]. *)
Lemma builtin_missing_column_raises_witness :
  RangeValidator.validate (RT := TestRuntime.runtime)
    (Examples.range_0_10 true) (Examples.frame "value" (Examples.ints [1]%Z)) "age"
  = Raise (KeyError "age").
Proof.
  exact (proj1 (builtin_missing_column_raises TestRuntime.runtime
                  (Examples.range_0_10 true)
                  (Examples.frame "value" (Examples.ints [1]%Z)) "age" eq_refl)).
Defined.

(* ================================================================== *)
(** * Further properties: the range validator *)
(* ================================================================== *)

Section MoreRangeLemmas.
Context {RT : PyRuntime}.

Lemma for_items_app (body : Z -> pycell -> result (option FailureDetail))
    (pre rest : list (Z * pycell)) :
  forall acc,
    for_items body (pre ++ rest)%list acc =
    (ds <- for_items body pre acc ;; for_items body rest ds).
Proof.
  induction pre as [|[idx val] pre IH]; simpl; intros acc; [reflexivity|].
  destruct (body idx val) as [[d|]|e]; simpl; auto.
Qed.

(** A null or non-numeric row fails before any bound is looked at. *)
Lemma check_row_unusable (min_value max_value inclusive : pyval) (idx : Z)
    (val : pycell) :
  unusable val = true ->
  exists d, RangeValidator.check_row min_value max_value inclusive idx val
            = Ok (Some d) /\ fd_row d = idx.
Proof.
  unfold unusable, is_numeric, RangeValidator.check_row, RangeValidator.fail.
  destruct (isna val); simpl; [eauto|].
  destruct (py_float val); simpl; [discriminate|eauto].
Qed.

Lemma check_lower_exact (min_value inclusive : pyval) (v : pyfloat) :
  is_bound min_value = true ->
  RangeValidator.check_lower min_value inclusive v =
  Ok (if truthy inclusive
      then (if num_lt v min_value
            then Some ("Value below minimum " ++ py_str min_value) else None)
      else (if num_le v min_value
            then Some ("Value not greater than minimum " ++ py_str min_value)
            else None)).
Proof.
  intros Hb. unfold RangeValidator.check_lower, num_lt, num_le, num_test,
    py_lt, py_le, py_order.
  destruct min_value; simpl in *; try discriminate;
    destruct (truthy inclusive); reflexivity.
Qed.

Lemma check_upper_exact (max_value inclusive : pyval) (v : pyfloat) :
  is_bound max_value = true ->
  RangeValidator.check_upper max_value inclusive v =
  Ok (if truthy inclusive
      then (if num_gt v max_value
            then Some ("Value above maximum " ++ py_str max_value) else None)
      else (if num_ge v max_value
            then Some ("Value not less than maximum " ++ py_str max_value)
            else None)).
Proof.
  intros Hb. unfold RangeValidator.check_upper, num_gt, num_ge, num_test,
    py_gt, py_ge, py_order.
  destruct max_value; simpl in *; try discriminate;
    destruct (truthy inclusive); reflexivity.
Qed.

Lemma check_row_exact (min_value max_value inclusive : pyval) (idx : Z)
    (val : pycell) :
  is_bound min_value = true -> is_bound max_value = true ->
  RangeValidator.check_row min_value max_value inclusive idx val =
  Ok (if range_fails min_value max_value (truthy inclusive) val
      then Some {| fd_row := idx; fd_value := val;
                   fd_reason := range_reason min_value max_value
                                  (truthy inclusive) val |}
      else None).
Proof.
  intros Hmin Hmax.
  unfold RangeValidator.check_row, range_fails, range_reason, is_numeric,
    RangeValidator.fail.
  destruct (isna val); simpl; [reflexivity|].
  destruct (py_float val) as [v|e]; simpl; [|reflexivity].
  rewrite (check_lower_exact _ _ _ Hmin).
  destruct (truthy inclusive) eqn:E; simpl.
  - destruct (num_lt v min_value); simpl; [reflexivity|].
    rewrite (check_upper_exact _ _ _ Hmax), E. simpl.
    destruct (num_gt v max_value); reflexivity.
  - destruct (num_le v min_value); simpl; [reflexivity|].
    rewrite (check_upper_exact _ _ _ Hmax), E. simpl.
    destruct (num_ge v max_value); reflexivity.
Qed.

End MoreRangeLemmas.

(** X6. The range validator compares a row with a bound only when the
    row is a non-null number.  On a column whose rows are all null or
    non-numeric it returns, failing every row, whatever the bounds are.
    With [min_value] set to something that is not a number, it raises
    [TypeError] at the first non-null numeric row, naming the
    comparison it attempted. *)
Theorem range_bound_type_error :
  forall (RT : PyRuntime) (config : dict pyval) (df : DataFrame)
         (column : string) (vals : list pycell),
    let min_value := config_get config "min_value" in
    let inclusive := config_get_default config "inclusive" (VBool true) in
    dict_get (df_columns df) column = Some vals ->
    (forallb (fun it => unusable (snd it)) (rows_of df vals) = true ->
     exists r, RangeValidator.validate config df column = Ok r /\
               map fd_row (error_details r) = map fst (rows_of df vals))
    /\
    (forall pre idx val post,
        is_bound min_value = false ->
        rows_of df vals = (pre ++ (idx, val) :: post)%list ->
        forallb (fun it => unusable (snd it)) pre = true ->
        unusable val = false ->
        RangeValidator.validate config df column =
        Raise (TypeError
                 ("'" ++ (if truthy inclusive then "<" else "<=")
                      ++ "' not supported between instances of 'float' and '"
                      ++ type_name min_value ++ "'"))).
Proof.
  intros RT config df column vals min_value inclusive Hcol.
  assert (Hpre : forall items,
             forallb (fun it => unusable (snd it)) items = true ->
             exists ds,
               for_items (RangeValidator.check_row min_value
                            (config_get config "max_value") inclusive) items []
               = Ok ds /\ map fd_row ds = map fst items).
  { intros items Hall.
    destruct (for_items_filter_nil fd_row fst
                (RangeValidator.check_row min_value
                   (config_get config "max_value") inclusive)
                (fun _ => true) items) as (ds & Hds & Hmap).
    - intros [idx val] Hin. simpl.
      assert (Hu : unusable val = true).
      { rewrite forallb_forall in Hall. exact (Hall (idx, val) Hin). }
      destruct (check_row_unusable min_value (config_get config "max_value")
                  inclusive idx val Hu) as (d & Hd & Hrow).
      eauto.
    - exists ds. split; [exact Hds|]. rewrite Hmap.
      f_equal. clear. induction items as [|it items IH]; simpl; congruence. }
  split.
  - intros Hall. unfold RangeValidator.validate, df_items. rewrite Hcol. simpl.
    fold min_value inclusive. fold (rows_of df vals).
    destruct (Hpre _ Hall) as (ds & -> & Hmap). simpl. eauto.
  - intros pre idx val post Hbad Hrows Hall Hval.
    unfold RangeValidator.validate, df_items. rewrite Hcol. simpl.
    fold min_value inclusive. fold (rows_of df vals).
    rewrite Hrows, for_items_app.
    destruct (Hpre _ Hall) as (ds & -> & _). simpl.
    unfold unusable, is_numeric in Hval. apply orb_false_elim in Hval.
    destruct Hval as [Hna Hnum].
    unfold RangeValidator.check_row. rewrite Hna.
    destruct (py_float val) as [v|e]; [|discriminate]. simpl.
    unfold RangeValidator.check_lower, py_lt, py_le, py_order.
    destruct min_value; simpl in Hbad |- *; try discriminate;
      destruct (truthy inclusive); reflexivity.
Qed.

(** X6 with the minimum given as the text "0": the nulls before the
    first number fail quietly, the number raises. *)
Lemma range_bound_type_error_witness :
  RangeValidator.validate (RT := TestRuntime.runtime)
    [("min_value", VStr "0")]
    (Examples.frame "value" [CNone; CInt 5]) "value"
  = Raise (TypeError "'<' not supported between instances of 'float' and 'str'").
Proof.
  exact (proj2 (range_bound_type_error TestRuntime.runtime
                  [("min_value", VStr "0")]
                  (Examples.frame "value" [CNone; CInt 5]) "value"
                  [CNone; CInt 5] eq_refl)
           [(0%Z, CNone)] 1%Z (CInt 5) [] eq_refl eq_refl eq_refl eq_refl).
Defined.

(** X7. With bounds unset or numeric, the range validator records for
    each failing row its label, its value and one reason, chosen in
    this order: null, not numeric, the lower bound, the upper bound;
    so a number that violates both bounds is reported against the
    minimum.  [total_records] is the number of rows of the table. *)
Theorem range_reasons_in_order :
  forall (RT : PyRuntime) (config : dict pyval) (df : DataFrame)
         (column : string) (vals : list pycell),
    let min_value := config_get config "min_value" in
    let max_value := config_get config "max_value" in
    let inclusive := truthy (config_get_default config "inclusive" (VBool true)) in
    is_bound min_value = true ->
    is_bound max_value = true ->
    dict_get (df_columns df) column = Some vals ->
    exists r, RangeValidator.validate config df column = Ok r /\
      error_details r =
        map (fun it => {| fd_row := fst it; fd_value := snd it;
                          fd_reason := range_reason min_value max_value
                                         inclusive (snd it) |})
            (filter (fun it => range_fails min_value max_value inclusive (snd it))
                    (rows_of df vals)) /\
      total_records r = df_len df.
Proof.
  intros RT config df column vals min_value max_value inclusive Hmin Hmax Hcol.
  unfold RangeValidator.validate, df_items. rewrite Hcol. simpl.
  destruct (for_items_filter_nil (fun d => d)
              (fun it => {| fd_row := fst it; fd_value := snd it;
                            fd_reason := range_reason min_value max_value
                                           inclusive (snd it) |})
              (RangeValidator.check_row (config_get config "min_value")
                 (config_get config "max_value")
                 (config_get_default config "inclusive" (VBool true)))
              (fun it => range_fails min_value max_value inclusive (snd it))
              (combine (df_index df) vals)) as (ds & Hds & Hmap).
  { intros [idx val] _. simpl.
    rewrite (check_row_exact _ _ _ idx val Hmin Hmax).
    fold min_value max_value inclusive.
    destruct (range_fails min_value max_value inclusive val); eauto. }
  rewrite Hds. simpl. rewrite map_id in Hmap.
  eexists. split; [reflexivity|]. simpl. split; [exact Hmap|reflexivity].
Qed.

(** X7 on the crossed range min 10, max 0: the value 5 violates both
    bounds and is reported below the minimum. *)
Lemma range_reasons_in_order_witness :
  exists r,
    RangeValidator.validate (RT := TestRuntime.runtime)
      [("min_value", VInt 10); ("max_value", VInt 0)]
      (Examples.frame "value" [CInt 5; CStr "n/a"; CNone]) "value" = Ok r /\
    map fd_reason (error_details r) =
      ["Value below minimum 10"; "Value is not numeric"; "Null value"].
Proof.
  destruct (range_reasons_in_order TestRuntime.runtime
              [("min_value", VInt 10); ("max_value", VInt 0)]
              (Examples.frame "value" [CInt 5; CStr "n/a"; CNone]) "value"
              [CInt 5; CStr "n/a"; CNone] eq_refl eq_refl eq_refl)
    as (r & Hr & Hdetails & _).
  exists r. split; [exact Hr|]. rewrite Hdetails. vm_compute. reflexivity.
Defined.

(* ================================================================== *)
(** * Further properties: the null-check validator *)
(* ================================================================== *)

(** X8. Whatever its configuration, when the null-check validator
    returns it has failed either no row or exactly the null rows, all
    with one reason and [None] as value: a non-null row never fails,
    and [failed_records] is 0 or the number of nulls.  [total_records]
    is the length of the column. *)
Theorem null_check_fails_nulls_only :
  forall (RT : PyRuntime) (config : dict pyval) (df : DataFrame)
         (column : string) (vals : list pycell) (r : ValidationResult),
    dict_get (df_columns df) column = Some vals ->
    NullCheckValidator.validate config df column = Ok r ->
    let nulls := null_rows (rows_of df vals) in
    total_records r = length (rows_of df vals) /\
    (error_details r = [] \/
     exists reason, error_details r = map (null_detail reason) nulls) /\
    (failed_records r = 0 \/ failed_records r = length nulls).
Proof.
  intros RT config df column vals r Hcol H nulls.
  unfold NullCheckValidator.validate, df_items in H. rewrite Hcol in H.
  simpl in H. fold (rows_of df vals) in H.
  assert (Hshape : forall reason ds,
             for_items (NullCheckValidator.record_nulls reason)
                       (rows_of df vals) [] = Ok ds ->
             ds = map (null_detail reason) nulls).
  { intros reason ds Hds. rewrite record_nulls_spec in Hds. now inversion Hds. }
  destruct (negb (truthy _)).
  - destruct (for_items _ _ []) as [ds|] eqn:El; [|discriminate].
    inversion H; subst r; simpl. apply Hshape in El. subst ds.
    rewrite length_map. split; [reflexivity|]. split; right; eauto.
  - destruct (negb (is_none _)).
    + destruct (py_gt _ _) as [[|]|]; [| |discriminate]; simpl in H;
        (destruct (for_items _ _ []) as [ds|] eqn:El; [|discriminate];
         inversion H; subst r; simpl; apply Hshape in El; subst ds;
         rewrite length_map; split; [reflexivity|]; split; right; eauto).
    + inversion H; subst r; simpl. auto.
Qed.

(** X8 on a column with one null in four rows, nulls disallowed. *)
Lemma null_check_fails_nulls_only_witness :
  exists r,
    NullCheckValidator.validate (RT := TestRuntime.runtime)
      [] Examples.one_null_in_four "v" = Ok r /\
    total_records r = 4 /\ (failed_records r = 0 \/ failed_records r = 1).
Proof.
  destruct (result_field_some failed_records
              (NullCheckValidator.validate (RT := TestRuntime.runtime)
                 [] Examples.one_null_in_four "v") 1)
    as (r & Hr & _); [vm_compute; reflexivity|].
  exists r. split; [exact Hr|].
  destruct (null_check_fails_nulls_only TestRuntime.runtime []
              Examples.one_null_in_four "v" [CInt 5; CNone; CInt 11; CInt 3] r
              eq_refl Hr) as (Htotal & _ & Hfailed).
  split; [exact Htotal|exact Hfailed].
Defined.

(** X9. With nulls disallowed ([allow_null] falsy or absent) the
    null-check validator never consults [max_null_percent]: on a
    column of the table it always returns, failing exactly the null
    rows with the reason "Null value not allowed". *)
Theorem null_check_disallowed :
  forall (RT : PyRuntime) (config : dict pyval) (df : DataFrame)
         (column : string) (vals : list pycell),
    truthy (config_get_default config "allow_null" (VBool false)) = false ->
    dict_get (df_columns df) column = Some vals ->
    exists r, NullCheckValidator.validate config df column = Ok r /\
      error_details r =
        map (null_detail "Null value not allowed") (null_rows (rows_of df vals)) /\
      (passed r = true <-> null_rows (rows_of df vals) = []).
Proof.
  intros RT config df column vals Hallow Hcol.
  unfold NullCheckValidator.validate, df_items. rewrite Hcol. simpl.
  rewrite Hallow. simpl. rewrite record_nulls_spec. simpl.
  eexists. split; [reflexivity|]. simpl. split; [reflexivity|].
  fold (rows_of df vals). unfold null_rows.
  destruct (filter _ (rows_of df vals)); simpl; split; congruence.
Qed.

(** X9 with a limit that is not even a number. *)
Lemma null_check_disallowed_witness :
  exists r,
    NullCheckValidator.validate (RT := TestRuntime.runtime)
      [("max_null_percent", VStr "ten")] Examples.one_null_in_four "v" = Ok r /\
    map fd_row (error_details r) = [1%Z].
Proof.
  destruct (null_check_disallowed TestRuntime.runtime
              [("max_null_percent", VStr "ten")] Examples.one_null_in_four "v"
              [CInt 5; CNone; CInt 11; CInt 3] eq_refl eq_refl)
    as (r & Hr & Hdetails & _).
  exists r. split; [exact Hr|]. rewrite Hdetails. vm_compute. reflexivity.
Defined.

(** X10. With nulls allowed and a limit set, when the null percentage
    exceeds the limit every null row fails, the reason giving the
    percentage with two decimals and the limit; the percentage of an
    empty column is 0.0. *)
Theorem null_check_limit_exceeded :
  forall (RT : PyRuntime) (config : dict pyval) (df : DataFrame)
         (column : string) (vals : list pycell),
    let max_null_percent := config_get config "max_null_percent" in
    let nulls := null_rows (rows_of df vals) in
    let percent :=
      NullCheckValidator.null_percentage (length nulls)
                                         (length (rows_of df vals)) in
    truthy (config_get_default config "allow_null" (VBool false)) = true ->
    is_none max_null_percent = false ->
    dict_get (df_columns df) column = Some vals ->
    py_gt percent max_null_percent = Ok true ->
    (rows_of df vals = [] -> percent = float_zero) /\
    exists r, NullCheckValidator.validate config df column = Ok r /\
      error_details r =
        map (null_detail ("Null percentage " ++ float_fmt_2f percent
                            ++ "% exceeds limit " ++ py_str max_null_percent ++ "%"))
            nulls.
Proof.
  intros RT config df column vals max_null_percent nulls percent
    Hallow Hset Hcol Hexceeds.
  split.
  - intros Hempty. subst percent nulls. now rewrite Hempty.
  - unfold NullCheckValidator.validate, df_items. rewrite Hcol. simpl.
    fold max_null_percent. rewrite Hallow, Hset. simpl.
    unfold NullCheckValidator.count_nulls. fold (rows_of df vals).
    fold (null_rows (rows_of df vals)). fold nulls. fold percent.
    rewrite Hexceeds. simpl. rewrite record_nulls_spec. simpl.
    eexists. split; reflexivity.
Qed.

(** X10 on one null in three rows against a limit of 10. *)
Lemma null_check_limit_exceeded_witness :
  exists r,
    NullCheckValidator.validate (RT := TestRuntime.runtime)
      [("allow_null", VBool true); ("max_null_percent", @VFloat TestRuntime.runtime (10 # 1)%Q)]
      (Examples.frame "v" [CInt 5; CNone; CInt 11]) "v" = Ok r /\
    map fd_reason (error_details r) =
      ["Null percentage 33.33% exceeds limit 10.0%"].
Proof.
  destruct (null_check_limit_exceeded TestRuntime.runtime
              [("allow_null", VBool true); ("max_null_percent", @VFloat TestRuntime.runtime (10 # 1)%Q)]
              (Examples.frame "v" [CInt 5; CNone; CInt 11]) "v"
              [CInt 5; CNone; CInt 11] eq_refl eq_refl eq_refl eq_refl)
    as (_ & r & Hr & Hdetails).
  exists r. split; [exact Hr|]. rewrite Hdetails. vm_compute. reflexivity.
Defined.

(** X11. With nulls allowed and [max_null_percent] set to something
    that is not a number, the null-check validator raises [TypeError]
    on any column of the table, with or without nulls. *)
Theorem null_check_limit_type_error :
  forall (RT : PyRuntime) (config : dict pyval) (df : DataFrame)
         (column : string) (vals : list pycell),
    let max_null_percent := config_get config "max_null_percent" in
    truthy (config_get_default config "allow_null" (VBool false)) = true ->
    is_bound max_null_percent = false ->
    dict_get (df_columns df) column = Some vals ->
    NullCheckValidator.validate config df column =
    Raise (TypeError ("'>' not supported between instances of 'float' and '"
                        ++ type_name max_null_percent ++ "'")).
Proof.
  intros RT config df column vals max_null_percent Hallow Hbad Hcol.
  unfold NullCheckValidator.validate, df_items. rewrite Hcol. simpl.
  fold max_null_percent. rewrite Hallow. simpl.
  unfold py_gt, py_order.
  destruct max_null_percent; simpl in Hbad |- *; try discriminate; reflexivity.
Qed.

(** X11 on a column without nulls. *)
Lemma null_check_limit_type_error_witness :
  NullCheckValidator.validate (RT := TestRuntime.runtime)
    [("allow_null", VBool true); ("max_null_percent", VStr "10")]
    (Examples.frame "v" (Examples.ints [1; 2]%Z)) "v"
  = Raise (TypeError "'>' not supported between instances of 'float' and 'str'").
Proof.
  exact (null_check_limit_type_error TestRuntime.runtime
           [("allow_null", VBool true); ("max_null_percent", VStr "10")]
           (Examples.frame "v" (Examples.ints [1; 2]%Z)) "v"
           (Examples.ints [1; 2]%Z) eq_refl eq_refl eq_refl).
Defined.

(* ================================================================== *)
(** * Further properties: the custom-function and type validators *)
(* ================================================================== *)

Section MoreValidatorLemmas.
Context {RT : PyRuntime}.

Lemma custom_check_row_exact (func error_message : pyval) (idx : Z) (val : pycell) :
  CustomFunctionValidator.check_row func error_message idx val =
  Ok (if custom_fails func val
      then Some (custom_detail func error_message (idx, val))
      else None).
Proof.
  unfold CustomFunctionValidator.check_row, custom_fails, custom_detail. simpl.
  destruct (py_call func val) as [res|e]; [|reflexivity].
  destruct res; reflexivity.
Qed.

Lemma filter_all {A : Type} (l : list A) : filter (fun _ => true) l = l.
Proof. induction l as [|a l IH]; simpl; congruence. Qed.

(** With no bound set, the range validator fails the null and the
    non-numeric rows only. *)
Lemma range_fails_unbounded (min_value max_value : pyval) (inclusive : bool)
    (val : pycell) :
  is_none min_value = true -> is_none max_value = true ->
  range_fails min_value max_value inclusive val = unusable val.
Proof.
  intros Hmin Hmax. unfold range_fails, unusable, num_lt, num_le, num_gt, num_ge,
    num_test. rewrite Hmin, Hmax. simpl.
  destruct (py_float val); simpl; rewrite ?andb_false_r, ?orb_false_r; reflexivity.
Qed.

Lemma is_none_bound (v : pyval) : is_none v = true -> is_bound v = true.
Proof. destruct v; simpl; congruence. Qed.

End MoreValidatorLemmas.

(** X12. The custom-function validator hands every value of the
    column to its callable, nulls included, in row order.  While the
    truth test of every returned object succeeds it fails exactly the
    rows on which the call raises or returns a falsy value; the reason
    is the exception text in the first case and, in the second, the
    configured [error_message] or "Custom validation failed".  The
    call is guarded, the truth test of its result is not: the first
    returned object whose truth test raises ends [validate] with that
    error.  This holds for a callable that keeps state too; on a
    callable that is a function of the value it is the [validate] of
    the registered class. *)
Theorem custom_fails_on_raise_or_falsy :
  forall (RT : PyRuntime) (store : Type),
    (forall (func : StatefulValidation.callable_object (store := store))
            config s df column vals,
        let trace := calls func (rows_of df vals) s in
        dict_get (df_columns df) column = Some vals ->
        forallb (fun c => negb (truth_raises (snd c))) trace = true ->
        exists r,
          fst (StatefulValidation.custom_validate func config s df column) = Ok r /\
          error_details r =
            map (call_detail (config_get config "error_message"))
                (filter (fun c => call_fails (snd c)) trace) /\
          total_records r = df_len df)
    /\
    (forall (func : StatefulValidation.callable_object (store := store))
            config s df column vals pre idx val e post,
        dict_get (df_columns df) column = Some vals ->
        calls func (rows_of df vals) s =
          (pre ++ (idx, val, StatefulValidation.Returns (Raise e)) :: post)%list ->
        forallb (fun c => negb (truth_raises (snd c))) pre = true ->
        fst (StatefulValidation.custom_validate func config s df column) = Raise e)
    /\
    (forall config (s : store) df column,
        is_none (config_get config "validation_func") = false ->
        StatefulValidation.custom_validate
          (StatefulValidation.of_value (config_get config "validation_func"))
          config s df column =
        (CustomFunctionValidator.validate config df column, s)).
Proof.
  intros RT store. split; [|split].
  - intros func config s df column vals trace Hcol Htruth.
    unfold StatefulValidation.custom_validate, df_items. rewrite Hcol.
    pose proof (custom_loop_exact func (config_get config "error_message")
                  (combine (df_index df) vals) [] s Htruth) as Hloop.
    destruct (StatefulValidation.custom_loop func _ (combine (df_index df) vals) [] s)
      as [[ds|e] s1]; simpl in Hloop; [|discriminate Hloop].
    injection Hloop as ->. simpl. eexists. split; [reflexivity|]. simpl. auto.
  - intros func config s df column vals pre idx val e post Hcol Htrace Hpre.
    unfold StatefulValidation.custom_validate, df_items. rewrite Hcol.
    pose proof (custom_loop_truth_raises func (config_get config "error_message")
                  (combine (df_index df) vals) [] s pre idx val e post Htrace Hpre)
      as Hloop.
    destruct (StatefulValidation.custom_loop func _ (combine (df_index df) vals) [] s)
      as [[ds|e'] s1]; simpl in Hloop; [discriminate Hloop|].
    injection Hloop as ->. reflexivity.
  - intros config s df column. apply custom_validate_of_value.
Qed.

(** X12 with the callable [no_truth_on_text].  On a column of a null
    and two numbers the null row fails because the call raises and the
    negative number because the result is falsy; on a column with a
    text after them [validate] raises the error of the truth test. *)
Lemma custom_fails_on_raise_or_falsy_witness :
  (exists r,
      fst (StatefulValidation.custom_validate (RT := TestRuntime.runtime)
             StatefulExamples.no_truth_on_text [("error_message", VStr "not positive")]
             tt (Examples.frame "v" [CNone; CInt (-1); CInt 2]) "v") = Ok r /\
      map (fun d => (fd_row d, fd_reason d)) (error_details r) =
        [(0%Z, "Exception in validation function: not a number");
         (1%Z, "not positive")]) /\
  fst (StatefulValidation.custom_validate (RT := TestRuntime.runtime)
         StatefulExamples.no_truth_on_text [("error_message", VStr "not positive")]
         tt (Examples.frame "v" [CNone; CInt (-1); CStr "x"; CInt 2]) "v")
  = Raise StatefulExamples.array_truth_error.
Proof.
  destruct (custom_fails_on_raise_or_falsy TestRuntime.runtime unit)
    as (Hfails & Hraises & _).
  split.
  - destruct (Hfails StatefulExamples.no_truth_on_text
                [("error_message", VStr "not positive")] tt
                (Examples.frame "v" [CNone; CInt (-1); CInt 2]) "v"
                [CNone; CInt (-1); CInt 2] eq_refl eq_refl)
      as (r & Hr & Hdetails & _).
    exists r. split; [exact Hr|]. rewrite Hdetails. reflexivity.
  - apply (Hraises StatefulExamples.no_truth_on_text
             [("error_message", VStr "not positive")] tt
             (Examples.frame "v" [CNone; CInt (-1); CStr "x"; CInt 2]) "v"
             [CNone; CInt (-1); CStr "x"; CInt 2]
             [(0%Z, CNone, StatefulValidation.Raises (TypeError "not a number"));
              (1%Z, CInt (-1), StatefulValidation.Returns (Ok false))]
             2%Z (CStr "x") StatefulExamples.array_truth_error
             [(3%Z, CInt 2, StatefulValidation.Returns (Ok true))]);
      reflexivity.
Defined.

(** X13. Given a [validation_func] that is set but not callable, the
    custom-function validator does not raise: the failed call is caught
    row by row, so every row of the column fails, with the reason that
    the object is not callable. *)
Theorem custom_not_callable_fails_every_row :
  forall (RT : PyRuntime) (config : dict pyval) (df : DataFrame)
         (column : string) (vals : list pycell),
    let func := config_get config "validation_func" in
    is_none func = false ->
    callable func = false ->
    dict_get (df_columns df) column = Some vals ->
    exists r, CustomFunctionValidator.validate config df column = Ok r /\
      error_details r =
        map (fun it =>
               {| fd_row := fst it; fd_value := snd it;
                  fd_reason := "Exception in validation function: '"
                                 ++ type_name func ++ "' object is not callable" |})
            (rows_of df vals) /\
      failed_records r = length (rows_of df vals).
Proof.
  intros RT config df column vals func Hfunc Hcall Hcol.
  unfold CustomFunctionValidator.validate, df_items. fold func.
  rewrite Hfunc, Hcol. simpl.
  destruct (for_items_filter_nil (fun d => d)
              (fun it =>
                 {| fd_row := fst it; fd_value := snd it;
                    fd_reason := "Exception in validation function: '"
                                   ++ type_name func ++ "' object is not callable" |})
              (CustomFunctionValidator.check_row func
                 (config_get config "error_message"))
              (fun _ => true)
              (combine (df_index df) vals)) as (ds & Hds & Hmap).
  { intros [idx val] _. simpl. unfold CustomFunctionValidator.check_row, py_call.
    destruct func; simpl in Hcall |- *; try discriminate; eauto. }
  rewrite Hds. simpl. rewrite map_id, filter_all in Hmap.
  eexists. split; [reflexivity|]. simpl. split; [exact Hmap|].
  rewrite Hmap, length_map. reflexivity.
Qed.

(** X13 with the text "is_positive" where a function is expected. *)
Lemma custom_not_callable_fails_every_row_witness :
  exists r,
    CustomFunctionValidator.validate (RT := TestRuntime.runtime)
      [("validation_func", VStr "is_positive")]
      (Examples.frame "v" (Examples.ints [1; 2]%Z)) "v" = Ok r /\
    failed_records r = 2 /\
    map fd_reason (error_details r) =
      ["Exception in validation function: 'str' object is not callable";
       "Exception in validation function: 'str' object is not callable"].
Proof.
  destruct (custom_not_callable_fails_every_row TestRuntime.runtime
              [("validation_func", VStr "is_positive")]
              (Examples.frame "v" (Examples.ints [1; 2]%Z)) "v"
              (Examples.ints [1; 2]%Z) eq_refl eq_refl eq_refl)
    as (r & Hr & Hdetails & Hfailed).
  exists r. split; [exact Hr|]. split; [exact Hfailed|].
  rewrite Hdetails. vm_compute. reflexivity.
Defined.

(** X14. The type validator in strict mode with expected type [int]
    (in any letter case) converts nothing: it fails the null rows and
    the rows whose value is not an [int], and since a [bool] is an
    [int] it accepts booleans. *)
Theorem type_strict_int :
  forall (RT : PyRuntime) (config : dict pyval) (df : DataFrame)
         (column : string) (vals : list pycell),
    str_lower (py_str (config_get config "expected_type")) = "int" ->
    truthy (config_get_default config "strict" (VBool false)) = true ->
    dict_get (df_columns df) column = Some vals ->
    exists r, TypeValidator.validate config df column = Ok r /\
      error_details r =
        map strict_int_detail
            (filter (fun it => strict_int_fails (snd it)) (rows_of df vals)) /\
      total_records r = length (rows_of df vals).
Proof.
  intros RT config df column vals Htype Hstrict Hcol.
  unfold TypeValidator.validate, df_items. rewrite Htype, Hcol. simpl.
  destruct (for_items_filter_nil (fun d => d) strict_int_detail
              (TypeValidator.check_row "int"
                 (config_get_default config "strict" (VBool false)))
              (fun it => strict_int_fails (snd it))
              (combine (df_index df) vals)) as (ds & Hds & Hmap).
  { intros [idx val] _. simpl.
    unfold TypeValidator.check_row, TypeValidator.check_value,
      strict_int_fails, strict_int_detail, TypeValidator.expect.
    simpl. rewrite Hstrict.
    destruct (isna val); simpl; [eauto|].
    destruct (cell_is_int val); simpl; eauto. }
  rewrite Hds. simpl. rewrite map_id in Hmap.
  eexists. split; [reflexivity|]. simpl. split; [exact Hmap|reflexivity].
Qed.

(** X14 with expected type "INT": the boolean passes, the text and the
    null fail. *)
Lemma type_strict_int_witness :
  exists r,
    TypeValidator.validate (RT := TestRuntime.runtime)
      [("expected_type", VStr "INT"); ("strict", VBool true)]
      (Examples.frame "v" [CBool true; CStr "7"; CInt 7; CNone]) "v" = Ok r /\
    map (fun d => (fd_row d, fd_reason d)) (error_details r) =
      [(1%Z, "Expected int but got str"); (3%Z, "Null value")].
Proof.
  destruct (type_strict_int TestRuntime.runtime
              [("expected_type", VStr "INT"); ("strict", VBool true)]
              (Examples.frame "v" [CBool true; CStr "7"; CInt 7; CNone]) "v"
              [CBool true; CStr "7"; CInt 7; CNone] eq_refl eq_refl eq_refl)
    as (r & Hr & Hdetails & _).
  exists r. split; [exact Hr|]. rewrite Hdetails. vm_compute. reflexivity.
Defined.

(** X15. The type validator with expected type [float], not strict,
    and the range validator with no bound set fail the same rows of a
    column: the null ones and those [float()] rejects. *)
Theorem type_float_agrees_with_unbounded_range :
  forall (RT : PyRuntime) (type_config range_config : dict pyval)
         (df : DataFrame) (column : string) (vals : list pycell),
    str_lower (py_str (config_get type_config "expected_type")) = "float" ->
    truthy (config_get_default type_config "strict" (VBool false)) = false ->
    is_none (config_get range_config "min_value") = true ->
    is_none (config_get range_config "max_value") = true ->
    dict_get (df_columns df) column = Some vals ->
    exists rt rr,
      TypeValidator.validate type_config df column = Ok rt /\
      RangeValidator.validate range_config df column = Ok rr /\
      map (fun d => (fd_row d, fd_value d)) (error_details rt)
        = filter (fun it => unusable (snd it)) (rows_of df vals) /\
      map (fun d => (fd_row d, fd_value d)) (error_details rr)
        = filter (fun it => unusable (snd it)) (rows_of df vals) /\
      failed_records rt = failed_records rr.
Proof.
  intros RT type_config range_config df column vals Htype Hstrict Hmin Hmax Hcol.
  unfold TypeValidator.validate, RangeValidator.validate, df_items.
  rewrite Htype, Hcol. simpl.
  destruct (for_items_filter_nil (fun d => (fd_row d, fd_value d)) (fun it => it)
              (TypeValidator.check_row "float"
                 (config_get_default type_config "strict" (VBool false)))
              (fun it => unusable (snd it))
              (combine (df_index df) vals)) as (dt & Hdt & Hmapt).
  { intros [idx val] _. simpl.
    unfold TypeValidator.check_row, TypeValidator.check_value, unusable, is_numeric.
    simpl. rewrite Hstrict.
    destruct (isna val); simpl; [eauto|].
    destruct (py_float val); simpl; eauto. }
  destruct (for_items_filter_nil (fun d => (fd_row d, fd_value d)) (fun it => it)
              (RangeValidator.check_row (config_get range_config "min_value")
                 (config_get range_config "max_value")
                 (config_get_default range_config "inclusive" (VBool true)))
              (fun it => unusable (snd it))
              (combine (df_index df) vals)) as (dr & Hdr & Hmapr).
  { intros [idx val] _. simpl.
    rewrite (check_row_exact _ _ _ idx val
               (is_none_bound _ Hmin) (is_none_bound _ Hmax)).
    rewrite (range_fails_unbounded _ _ _ val Hmin Hmax).
    destruct (unusable val); eauto. }
  rewrite Hdt, Hdr. simpl. rewrite map_id in Hmapt, Hmapr.
  do 2 eexists. split; [reflexivity|]. split; [reflexivity|]. simpl.
  split; [exact Hmapt|]. split; [exact Hmapr|].
  rewrite <- (length_map (fun d => (fd_row d, fd_value d)) dt), Hmapt.
  rewrite <- (length_map (fun d => (fd_row d, fd_value d)) dr), Hmapr.
  reflexivity.
Qed.

(** X15 on a column mixing numbers, numeric text, other text and a
    null. *)
Lemma type_float_agrees_with_unbounded_range_witness :
  exists rt rr,
    TypeValidator.validate (RT := TestRuntime.runtime)
      [("expected_type", VStr "float")]
      (Examples.frame "v" [CInt 1; CStr "2.5"; CStr "abc"; CNone]) "v" = Ok rt /\
    RangeValidator.validate (RT := TestRuntime.runtime) []
      (Examples.frame "v" [CInt 1; CStr "2.5"; CStr "abc"; CNone]) "v" = Ok rr /\
    map fd_row (error_details rt) = [2%Z; 3%Z] /\
    failed_records rt = failed_records rr.
Proof.
  destruct (type_float_agrees_with_unbounded_range TestRuntime.runtime
              [("expected_type", VStr "float")] []
              (Examples.frame "v" [CInt 1; CStr "2.5"; CStr "abc"; CNone]) "v"
              [CInt 1; CStr "2.5"; CStr "abc"; CNone]
              eq_refl eq_refl eq_refl eq_refl eq_refl)
    as (rt & rr & Ht & Hr & Hrows & _ & Hsame).
  exists rt, rr. split; [exact Ht|]. split; [exact Hr|]. split; [|exact Hsame].
  assert (E : map fd_row (error_details rt) =
              map fst (map (fun d => (fd_row d, fd_value d)) (error_details rt)))
    by (rewrite map_map; reflexivity).
  rewrite E, Hrows. vm_compute. reflexivity.
Defined.

(* ================================================================== *)
(** * Further properties: the loader and the pipeline together *)
(* ================================================================== *)

Section MoreLoaderLemmas.
Context {RT : PyRuntime}.

Import ConfigLoader.

Lemma dict_set_fresh {V : Type} (d : dict V) (k : string) (v : V) :
  dict_mem d k = false -> dict_set d k v = (d ++ [(k, v)])%list.
Proof.
  unfold dict_mem. induction d as [|[k0 v0] rest IH]; simpl; [reflexivity|].
  destruct (String.eqb k k0); [discriminate|].
  intros H. now rewrite IH.
Qed.

Lemma dict_get_In {V : Type} (d : dict V) (k : string) (v : V) :
  NoDup (dict_keys d) -> In (k, v) d -> dict_get d k = Some v.
Proof.
  induction d as [|[k0 v0] rest IH]; simpl; intros Hnd Hin; [destruct Hin|].
  inversion Hnd as [|? ? Hfresh Hnd']; subst.
  destruct Hin as [E|Hin].
  - inversion E; subst. now rewrite String.eqb_refl.
  - destruct (String.eqb_spec k k0) as [->|Hne]; [|now apply IH].
    exfalso. apply Hfresh. change k0 with (fst (k0, v)). now apply in_map.
Qed.

Lemma fresh_in_acc (acc : dict pyval) (p : string) (rest : list string) :
  NoDup (dict_keys acc ++ p :: rest) -> dict_mem acc p = false.
Proof.
  intros Hnd. destruct (dict_mem acc p) eqn:E; [|reflexivity].
  apply dict_mem_In in E. apply NoDup_remove_2 in Hnd.
  exfalso. apply Hnd. apply in_or_app. now left.
Qed.

(** What the loop over the schema returns, when it returns. *)
Lemma fill_params_expected (validator_name column : string) (idx : nat)
    (params : dict pyval) (schema : dict ParamMeta) :
  forall acc out,
    fill_params validator_name column idx params schema acc = Ok out ->
    NoDup (dict_keys acc ++ dict_keys schema) ->
    out = (acc ++ expected_params params schema)%list /\
    forall entry, In entry schema ->
      check_type (fst entry) validator_name (pm_type (snd entry))
                 (value_of params entry) = Ok tt.
Proof.
  induction schema as [|[p meta] rest IH]; simpl; intros acc out H Hnd.
  - inversion H. rewrite app_nil_r. split; [reflexivity|]. intros entry [].
  - destruct (param_value validator_name column idx params p meta) as [value|]
      eqn:Ev; simpl in H; [|discriminate].
    destruct (check_type p validator_name (pm_type meta) value) as [[]|] eqn:Et;
      simpl in H; [|discriminate].
    apply param_value_ok in Ev.
    rewrite (dict_set_fresh acc p value (fresh_in_acc acc p _ Hnd)) in H.
    destruct (IH _ _ H) as (-> & Hchecks).
    { unfold dict_keys in *. rewrite map_app, <- app_assoc. exact Hnd. }
    split.
    + rewrite <- app_assoc. simpl. unfold value_of. simpl. now rewrite <- Ev.
    + intros entry [<-|Hin]; [|auto]. unfold value_of. simpl. now rewrite <- Ev.
Qed.

(** The loop returns as soon as every parameter has a value of its
    declared type. *)
Lemma fill_params_complete (validator_name column : string) (idx : nat)
    (params : dict pyval) (schema : dict ParamMeta) :
  forall acc,
    (forall entry, In entry schema ->
       dict_mem params (fst entry) = true /\
       check_type (fst entry) validator_name (pm_type (snd entry))
                  (value_of params entry) = Ok tt) ->
    NoDup (dict_keys acc ++ dict_keys schema) ->
    fill_params validator_name column idx params schema acc =
    Ok (acc ++ expected_params params schema)%list.
Proof.
  induction schema as [|[p meta] rest IH]; simpl; intros acc Hall Hnd.
  - now rewrite app_nil_r.
  - destruct (Hall (p, meta) (or_introl eq_refl)) as (Hmem & Hcheck).
    unfold value_of in Hcheck. simpl in Hmem, Hcheck.
    unfold param_value. unfold dict_mem in Hmem.
    destruct (dict_get params p) as [value|] eqn:Eg; [|discriminate].
    simpl. rewrite Hcheck. simpl.
    rewrite (dict_set_fresh acc p value (fresh_in_acc acc p _ Hnd)).
    rewrite IH.
    + rewrite <- app_assoc. simpl. unfold expected_params, value_of. simpl.
      now rewrite Eg.
    + intros entry Hin. apply Hall. now right.
    + unfold dict_keys in *. rewrite map_app, <- app_assoc. exact Hnd.
Qed.

Lemma expected_params_keys (params : dict pyval) (schema : dict ParamMeta) :
  dict_keys (expected_params params schema) = dict_keys schema.
Proof.
  unfold dict_keys, expected_params. rewrite map_map. reflexivity.
Qed.

(** Normalising normalised parameters changes nothing. *)
Lemma fill_params_idempotent (validator_name column column' : string)
    (idx idx' : nat) (params : dict pyval) (schema : dict ParamMeta)
    (out : dict pyval) :
  NoDup (dict_keys schema) ->
  fill_params validator_name column idx params schema [] = Ok out ->
  fill_params validator_name column' idx' out schema [] = Ok out.
Proof.
  intros Hnd H.
  destruct (fill_params_expected _ _ _ _ _ _ _ H Hnd) as (-> & Hchecks).
  simpl in *.
  assert (Hget : forall entry, In entry schema ->
            dict_get (expected_params params schema) (fst entry)
            = Some (value_of params entry)).
  { intros entry Hin. apply dict_get_In.
    - now rewrite expected_params_keys.
    - unfold expected_params.
      change (fst entry, value_of params entry)
        with ((fun e => (fst e, value_of params e)) entry).
      now apply in_map. }
  assert (Hsame : expected_params (expected_params params schema) schema
                  = expected_params params schema).
  { unfold expected_params at 1 3. apply map_ext_in. intros entry Hin.
    unfold value_of at 1. now rewrite (Hget entry Hin). }
  rewrite fill_params_complete; [simpl; now rewrite Hsame| |exact Hnd].
  intros entry Hin. split.
  - unfold dict_mem. now rewrite (Hget entry Hin).
  - unfold value_of at 1. rewrite (Hget entry Hin). auto.
Qed.

Lemma check_unknown_all (validator_name : string) (idx : nat)
    (schema : dict ParamMeta) (param_names : list string) :
  (forall k, In k param_names -> dict_mem schema k = true) ->
  check_unknown validator_name idx schema param_names = Ok tt.
Proof.
  induction param_names as [|k rest IH]; simpl; intros Hall; [reflexivity|].
  rewrite (Hall k (or_introl eq_refl)). simpl. apply IH. auto.
Qed.

(** What an accepted entry is and what it becomes. *)
Lemma normalise_entry_ok (reg : ValidatorRegistry.validators) (idx : nat)
    (entry spec : RawEntry) :
  normalise_entry reg idx entry = Ok spec ->
  exists column name params cls normalized,
    entry = EntryDict (Some column) (Some name) params /\
    ValidatorRegistry.get_validator reg name = Some cls /\
    spec = EntryDict (Some column) (Some name) (Some normalized) /\
    fill_params name column idx (match params with Some p => p | None => [] end)
      (vc_get_required_params cls) [] = Ok normalized.
Proof.
  unfold normalise_entry. intros H.
  destruct entry as [|[column|] [name|] params]; try discriminate.
  destruct (ValidatorRegistry.get_validator reg name) as [cls|] eqn:Ecls;
    [|discriminate].
  destruct (fill_params _ _ _ _ _ _) as [normalized|] eqn:Ef; simpl in H;
    [|discriminate].
  destruct (check_unknown _ _ _ _) as [[]|]; simpl in H; [|discriminate].
  inversion H. exists column, name, params, cls, normalized. auto.
Qed.

(** A normalised entry is accepted as it is, at any index. *)
Lemma normalise_entry_idempotent (reg : ValidatorRegistry.validators)
    (idx idx' : nat) (entry spec : RawEntry) :
  schemas_distinct reg ->
  normalise_entry reg idx entry = Ok spec ->
  normalise_entry reg idx' spec = Ok spec.
Proof.
  intros Hreg H.
  destruct (normalise_entry_ok reg idx entry spec H)
    as (column & name & params & cls & normalized & -> & Hcls & -> & Hfill).
  pose proof (Hreg name cls Hcls) as Hnd.
  simpl. rewrite Hcls.
  rewrite (fill_params_idempotent name column column idx idx' _ _ _ Hnd Hfill).
  simpl. rewrite check_unknown_all; [reflexivity|].
  intros k Hk. apply dict_mem_In.
  destruct (fill_params_expected _ _ _ _ _ _ _ Hfill Hnd) as (-> & _).
  simpl in Hk. now rewrite expected_params_keys in Hk.
Qed.

Lemma normalise_entries_fixed (reg : ValidatorRegistry.validators)
    (specs : list RawEntry) :
  Forall (fun spec => forall idx, normalise_entry reg idx spec = Ok spec) specs ->
  forall idx acc, normalise_entries reg idx specs acc = Ok (acc ++ specs)%list.
Proof.
  induction 1 as [|spec specs Hspec Hspecs IH]; simpl; intros idx acc.
  - now rewrite app_nil_r.
  - rewrite Hspec. simpl. rewrite IH, <- app_assoc. reflexivity.
Qed.

(** Construction accepts the entries the loader returns. *)
Lemma prepare_entries_loaded (reg : ValidatorRegistry.validators)
    (entries specs : list RawEntry) :
  Forall2 (fun entry spec => exists i, normalise_entry reg i entry = Ok spec)
          entries specs ->
  forall idx acc,
    exists prepared,
      ValidationPipeline.prepare_entries reg idx specs acc
      = Ok (acc ++ prepared)%list /\
      map (fun p => Some (fst p)) prepared = map entry_column entries /\
      map (fun p => Some (v_config (snd p))) prepared
      = map (fun spec => match spec with
                         | EntryDict _ _ params => params
                         | EntryOther => None
                         end) specs.
Proof.
  induction 1 as [|entry spec entries specs (i & Hspec) Hrest IH]; simpl;
    intros idx acc.
  - exists []. now rewrite app_nil_r.
  - destruct (normalise_entry_ok reg i entry spec Hspec)
      as (column & name & params & cls & normalized & -> & Hcls & -> & _).
    simpl. rewrite Hcls. simpl.
    destruct (IH (S idx) (acc ++ [(column, {| v_class := cls;
                                              v_config := normalized |})])%list)
      as (prepared & Hprep & Hcols & Hconfigs).
    exists ((column, {| v_class := cls; v_config := normalized |}) :: prepared).
    rewrite Hprep, <- app_assoc. simpl. rewrite Hcols, Hconfigs. auto.
Qed.

Lemma normalise_entries_raise (reg : ValidatorRegistry.validators)
    (entries : list RawEntry) :
  forall idx acc e,
    normalise_entries reg idx entries acc = Raise e ->
    is_InvalidConfigError e = true \/ is_UnknownValidatorError e = true.
Proof.
  induction entries as [|entry rest IH]; simpl; intros idx acc e H; [discriminate|].
  destruct (normalise_entry reg idx entry) as [spec|e'] eqn:Es; simpl in H.
  - eapply IH; eassumption.
  - inversion H; subst. eapply normalise_entry_raise; eassumption.
Qed.

Lemma prepare_entries_raise (reg : ValidatorRegistry.validators)
    (specs : list RawEntry) :
  forall idx acc e,
    ValidationPipeline.prepare_entries reg idx specs acc = Raise e ->
    is_InvalidConfigError e = true \/ is_UnknownValidatorError e = true.
Proof.
  induction specs as [|spec rest IH]; simpl; intros idx acc e H; [discriminate|].
  destruct (ValidationPipeline.prepare_entry reg idx spec) as [p|e'] eqn:Ep;
    simpl in H.
  - eapply IH; eassumption.
  - inversion H; subst. unfold ValidationPipeline.prepare_entry in Ep.
    destruct spec as [|[column|] [name|] params];
      try (inversion Ep; now left).
    destruct (ValidatorRegistry.get_validator reg name); [discriminate|].
    inversion Ep. now right.
Qed.

End MoreLoaderLemmas.

(** X16. A configuration the loader returns can always be turned into a
    pipeline: construction succeeds, with one prepared validator per
    entry, in order, on the entry's column, configured with the
    entry's normalised parameters, and with no retained result. *)
Theorem loaded_config_constructs :
  forall (RT : PyRuntime) (reg : ValidatorRegistry.validators)
         (entries : list RawEntry) (cfg : PipelineConfig),
    ConfigLoader.load_config reg (ConfigDict (ValidationsList entries)) = Ok cfg ->
    exists p,
      ValidationPipeline.init reg cfg = Ok p /\
      ValidationPipeline.config p = cfg /\
      ValidationPipeline.last_result p = None /\
      map (fun s => Some (fst s)) (ValidationPipeline.validator_specs p)
        = map entry_column entries /\
      map (fun s => Some (v_config (snd s))) (ValidationPipeline.validator_specs p)
        = map (fun spec => match spec with
                           | EntryDict _ _ params => params
                           | EntryOther => None
                           end) (validations cfg).
Proof.
  intros RT reg entries cfg H. simpl in H.
  destruct (ConfigLoader.normalise_entries reg 0 entries []) as [specs|] eqn:E;
    simpl in H; [|discriminate].
  inversion H; subst cfg.
  destruct (normalise_entries_ok reg entries _ _ _ E) as (specs' & -> & Hall).
  simpl in *.
  destruct (prepare_entries_loaded reg entries specs' Hall 0 [])
    as (prepared & Hprep & Hcols & Hconfigs).
  unfold ValidationPipeline.init. simpl. rewrite Hprep. simpl.
  eexists. split; [reflexivity|]. simpl. auto.
Qed.

(** X16 on the configuration of the test-suite's pipeline. *)
Lemma loaded_config_constructs_witness :
  exists cfg p,
    ConfigLoader.load_config (RT := TestRuntime.runtime) ValidatorRegistry.builtin
      (ConfigDict (ValidationsList (validations Examples.num_word_config)))
    = Ok cfg /\
    ValidationPipeline.init ValidatorRegistry.builtin cfg = Ok p /\
    map fst (ValidationPipeline.validator_specs p) = ["num"; "word"].
Proof.
  destruct (ConfigLoader.load_config (RT := TestRuntime.runtime)
              ValidatorRegistry.builtin
              (ConfigDict (ValidationsList (validations Examples.num_word_config))))
    as [cfg|e] eqn:Hload; [|discriminate Hload].
  destruct (loaded_config_constructs TestRuntime.runtime ValidatorRegistry.builtin
              _ cfg Hload) as (p & Hinit & _ & _ & Hcols & _).
  exists cfg, p. split; [reflexivity|]. split; [exact Hinit|].
  simpl in Hcols.
  destruct (ValidationPipeline.validator_specs p) as [|[c1 v1] [|[c2 v2] [|s rest]]];
    try discriminate Hcols.
  simpl in *. now inversion Hcols.
Defined.

(** X17. Loading is idempotent: where every schema has distinct keys,
    a configuration the loader returned, loaded again as a document,
    is returned unchanged. *)
Theorem load_config_idempotent :
  forall (RT : PyRuntime) (reg : ValidatorRegistry.validators)
         (entries : list RawEntry) (cfg : PipelineConfig),
    schemas_distinct reg ->
    ConfigLoader.load_config reg (ConfigDict (ValidationsList entries)) = Ok cfg ->
    ConfigLoader.load_config reg (as_document cfg) = Ok cfg.
Proof.
  intros RT reg entries cfg Hreg H. simpl in H.
  destruct (ConfigLoader.normalise_entries reg 0 entries []) as [specs|] eqn:E;
    simpl in H; [|discriminate].
  inversion H; subst cfg.
  destruct (normalise_entries_ok reg entries _ _ _ E) as (specs' & -> & Hall).
  unfold as_document. simpl.
  rewrite normalise_entries_fixed; [reflexivity|].
  clear E H. induction Hall as [|entry spec entries specs' (i & Hspec) Hrest IH];
    constructor; [|exact IH].
  intros idx. eapply normalise_entry_idempotent; eassumption.
Qed.

(** The schemas of the built-in validators have distinct keys. *)
Lemma builtin_schemas_distinct {RT : PyRuntime} :
  schemas_distinct ValidatorRegistry.builtin.
Proof.
  intros name cls. unfold ValidatorRegistry.get_validator. simpl.
  repeat match goal with
         | |- context [String.eqb name ?s] => destruct (String.eqb name s)
         end; intros H; inversion H; subst; simpl;
    repeat constructor; simpl; intuition discriminate.
Qed.

(** X17 on the built-in registry and a range entry that supplies one
    bound. *)
Lemma load_config_idempotent_witness :
  let cfg : PipelineConfig :=
    {| validations :=
         [ EntryDict (Some "age") (Some "range")
             (Some [ ("min_value", VNone);
                     ("max_value", @VInt TestRuntime.runtime 120);
                     ("inclusive", VBool true) ]) ] |} in
  ConfigLoader.load_config ValidatorRegistry.builtin
    (ConfigDict (ValidationsList
       [ EntryDict (Some "age") (Some "range") (Some [("max_value", VInt 120)]) ]))
  = Ok cfg /\
  ConfigLoader.load_config ValidatorRegistry.builtin (as_document cfg) = Ok cfg.
Proof.
  intros cfg. split; [reflexivity|].
  apply (load_config_idempotent TestRuntime.runtime ValidatorRegistry.builtin
           [ EntryDict (Some "age") (Some "range") (Some [("max_value", VInt 120)]) ]);
    [|reflexivity].
  apply builtin_schemas_distinct.
Defined.

(** X18. The loader's type check is [isinstance]: an integer is not a
    [float], so the null-check limit written as a whole number is
    refused, with a message naming the parameter and both types; a
    [bool] is an [int], so a boolean passes as a range bound. *)
Theorem loader_type_check_is_isinstance :
  forall (RT : PyRuntime) (idx : nat) (column : string),
    (forall (params : dict pyval) (z : Z),
        dict_get params "max_null_percent" = Some (VInt z) ->
        (dict_get params "allow_null" = None \/
         exists b, dict_get params "allow_null" = Some (VBool b)) ->
        ConfigLoader.normalise_entry ValidatorRegistry.builtin idx
          (EntryDict (Some column) (Some "null_check") (Some params))
        = Raise (InvalidConfigError
                   "Parameter 'max_null_percent' for validator 'null_check' must be of type float, got int"))
    /\
    (forall (b : bool),
        ConfigLoader.normalise_entry ValidatorRegistry.builtin idx
          (EntryDict (Some column) (Some "range") (Some [("min_value", VBool b)]))
        = Ok (EntryDict (Some column) (Some "range")
                (Some [ ("min_value", VBool b); ("max_value", VNone);
                        ("inclusive", VBool true) ]))).
Proof.
  intros RT idx column. split.
  - intros params z Hlimit Hallow.
    unfold ConfigLoader.normalise_entry.
    change (ValidatorRegistry.get_validator ValidatorRegistry.builtin "null_check")
      with (Some NullCheckValidator.class).
    cbn [vc_get_required_params NullCheckValidator.class
         NullCheckValidator.get_required_params ConfigLoader.fill_params].
    unfold ConfigLoader.param_value.
    destruct Hallow as [Hallow|(b & Hallow)]; rewrite Hallow, Hlimit; reflexivity.
  - intros b. reflexivity.
Qed.

(** X18 with the limit 50 as JSON gives it. *)
Lemma loader_type_check_is_isinstance_witness :
  ConfigLoader.normalise_entry (RT := TestRuntime.runtime)
    ValidatorRegistry.builtin 0
    (EntryDict (Some "email") (Some "null_check")
       (Some [("allow_null", VBool true); ("max_null_percent", VInt 50)]))
  = Raise (InvalidConfigError
             "Parameter 'max_null_percent' for validator 'null_check' must be of type float, got int").
Proof.
  apply (proj1 (loader_type_check_is_isinstance TestRuntime.runtime 0 "email")
           [("allow_null", VBool true); ("max_null_percent", VInt 50)] 50%Z
           eq_refl).
  right. exists true. reflexivity.
Defined.

(** X19. An explicit null satisfies the loader for any parameter, a
    required one included: a regex entry whose pattern is null is
    accepted and a pipeline is built from it, and only the run fails,
    with the validator's [ValueError], on any table that has the
    column. *)
Theorem null_pattern_loads_then_run_raises :
  forall (RT : PyRuntime) (idx : nat) (column : string) (df : DataFrame),
    df_has_column df column = true ->
    let spec :=
      EntryDict (Some column) (Some "regex")
        (Some [("pattern", VNone); ("case_sensitive", VBool true)]) in
    let p :=
      {| ValidationPipeline.config := {| validations := [spec] |};
         ValidationPipeline.validator_specs :=
           [(column, {| v_class := RegexValidator.class;
                        v_config := [("pattern", VNone);
                                     ("case_sensitive", VBool true)] |})];
         ValidationPipeline.last_result := None |} in
    ConfigLoader.normalise_entry ValidatorRegistry.builtin idx
      (EntryDict (Some column) (Some "regex") (Some [("pattern", VNone)]))
    = Ok spec /\
    ValidationPipeline.init ValidatorRegistry.builtin {| validations := [spec] |}
    = Ok p /\
    ValidationPipeline.run p df =
    (Raise (ValueError "'pattern' parameter is required for RegexValidator"), p).
Proof.
  intros RT idx column df Hcol spec p.
  split; [reflexivity|]. split; [reflexivity|].
  unfold ValidationPipeline.run. simpl. rewrite Hcol. reflexivity.
Qed.

(** X19 on a one-column table. *)
Lemma null_pattern_loads_then_run_raises_witness :
  exists p,
    ValidationPipeline.init (RT := TestRuntime.runtime) ValidatorRegistry.builtin
      {| validations :=
           [ EntryDict (Some "text") (Some "regex")
               (Some [("pattern", VNone); ("case_sensitive", VBool true)]) ] |}
    = Ok p /\
    fst (ValidationPipeline.run p (Examples.frame "text" (Examples.strs ["a"])))
    = Raise (ValueError "'pattern' parameter is required for RegexValidator").
Proof.
  destruct (null_pattern_loads_then_run_raises TestRuntime.runtime 0 "text"
              (Examples.frame "text" (Examples.strs ["a"])) eq_refl)
    as (_ & Hinit & Hrun).
  eexists. split; [exact Hinit|]. rewrite Hrun. reflexivity.
Defined.

(** X20. On a document as [RawConfig] describes it (each entry of
    [validations] is no mapping, or a mapping whose column and
    validator name are text or missing and whose params are a mapping
    or missing) and with a registry of classes that give their schema,
    the loader and the pipeline constructor raise nothing but the two
    exceptions of [exceptions.py]. *)
Theorem load_and_init_raise_two_kinds :
  forall (RT : PyRuntime) (reg : ValidatorRegistry.validators),
    (forall config_data e,
        ConfigLoader.load_config reg config_data = Raise e ->
        is_InvalidConfigError e = true \/ is_UnknownValidatorError e = true)
    /\
    (forall cfg e,
        ValidationPipeline.init reg cfg = Raise e ->
        is_InvalidConfigError e = true \/ is_UnknownValidatorError e = true).
Proof.
  intros RT reg. split.
  - intros config_data e H.
    destruct config_data as [|[| |entries]]; simpl in H;
      try (inversion H; now left).
    destruct (ConfigLoader.normalise_entries reg 0 entries []) as [specs|e'] eqn:E;
      simpl in H; [discriminate|].
    inversion H; subst. eapply normalise_entries_raise; eassumption.
  - intros cfg e H. unfold ValidationPipeline.init in H.
    destruct (ValidationPipeline.prepare_entries reg 0 (validations cfg) [])
      as [specs|e'] eqn:E; simpl in H; [discriminate|].
    inversion H; subst. eapply prepare_entries_raise; eassumption.
Qed.

(** X20 on a document whose only entry is not a dict. *)
Lemma load_and_init_raise_two_kinds_witness :
  is_InvalidConfigError
    (match ConfigLoader.load_config (RT := TestRuntime.runtime)
             ValidatorRegistry.builtin (ConfigDict (ValidationsList [EntryOther]))
     with Raise e => e | Ok _ => KeyError EmptyString end) = true.
Proof.
  destruct (proj1 (load_and_init_raise_two_kinds TestRuntime.runtime
                     ValidatorRegistry.builtin)
              (ConfigDict (ValidationsList [EntryOther]))
              (InvalidConfigError "Validation entry at index 0 must be a dict")
              eq_refl) as [H|H]; [reflexivity|discriminate H].
Defined.

(* ================================================================== *)
(** * Further properties: running and summarising *)
(* ================================================================== *)

Section MoreRunLemmas.
Context {RT : PyRuntime}.

Lemma count_split (rs : list ValidationResult) :
  count_passed rs + count_failed rs = length rs.
Proof.
  unfold count_passed, count_failed.
  induction rs as [|r rs IH]; simpl; [reflexivity|].
  destruct (passed r); simpl; lia.
Qed.

Lemma forallb_passed_false (rs : list ValidationResult) :
  forallb passed rs = false <->
  exists res, In res rs /\ passed res = false.
Proof.
  induction rs as [|r rs IH]; simpl.
  - split; [discriminate|]. intros (res & [] & _).
  - destruct (passed r) eqn:E; simpl.
    + rewrite IH. split.
      * intros (res & Hin & Hres). eauto.
      * intros (res & [<-|Hin] & Hres); [congruence|eauto].
    + split; [eauto|reflexivity].
Qed.

End MoreRunLemmas.

(** X21. The counts of a run that returns add up: every entry has one
    result, each result is counted once as passed or as failed, and
    the overall [passed] is false exactly when some result failed; a
    pipeline without entries passes on any table. *)
Theorem run_counts_add_up :
  forall (RT : PyRuntime) (self : ValidationPipeline.t) (df : DataFrame)
         (r : ValidationPipeline.PipelineResult),
    fst (ValidationPipeline.run self df) = Ok r ->
    ValidationPipeline.total_validations r
      = length (ValidationPipeline.validator_specs self) /\
    length (ValidationPipeline.results r) = ValidationPipeline.total_validations r /\
    ValidationPipeline.passed_validations r + ValidationPipeline.failed_validations r
      = ValidationPipeline.total_validations r /\
    (ValidationPipeline.pr_passed r = true <->
     ValidationPipeline.failed_validations r = 0) /\
    (ValidationPipeline.pr_passed r = false <->
     exists res, In res (ValidationPipeline.results r) /\ passed res = false) /\
    (ValidationPipeline.validator_specs self = [] ->
     ValidationPipeline.pr_passed r = true).
Proof.
  intros RT self df r H. unfold ValidationPipeline.run in H.
  destruct (ValidationPipeline.run_loop df
              (ValidationPipeline.validator_specs self) [] 0 0)
    as [[[results p] f]|e] eqn:Hloop; simpl in H; [|discriminate].
  inversion H; subst r; simpl. clear H.
  pose proof (run_loop_ok _ _ _ _ _ _ Hloop) as Hall.
  destruct (run_loop_complete df _ Hall) as (rs & Hord & Hrun).
  rewrite Hrun in Hloop. inversion Hloop; subst results p f. simpl.
  assert (Hlen : length rs = length (ValidationPipeline.validator_specs self))
    by (symmetry; eapply Forall2_length; exact Hord).
  split; [reflexivity|]. split; [exact Hlen|].
  split; [rewrite count_split; exact Hlen|].
  split; [apply Nat.eqb_eq|]. split.
  - rewrite count_failed_zero. apply forallb_passed_false.
  - intros Hempty. rewrite Hempty in Hlen. destruct rs; [reflexivity|discriminate].
Qed.

(** X21 on the pipeline and table of the test-suite. *)
Lemma run_counts_add_up_witness :
  exists r,
    fst (ValidationPipeline.run (RT := TestRuntime.runtime)
           {| ValidationPipeline.config := Examples.num_word_config;
              ValidationPipeline.validator_specs := Examples.num_word_specs;
              ValidationPipeline.last_result := None |}
           Examples.num_word_table) = Ok r /\
    ValidationPipeline.passed_validations r + ValidationPipeline.failed_validations r
      = 2.
Proof.
  destruct (result_field_some ValidationPipeline.total_validations
              (fst (ValidationPipeline.run (RT := TestRuntime.runtime)
                      {| ValidationPipeline.config := Examples.num_word_config;
                         ValidationPipeline.validator_specs := Examples.num_word_specs;
                         ValidationPipeline.last_result := None |}
                      Examples.num_word_table)) 2)
    as (r & Hr & Htotal); [vm_compute; reflexivity|].
  exists r. split; [exact Hr|].
  destruct (run_counts_add_up TestRuntime.runtime _ _ r Hr) as (_ & _ & Hsum & _).
  rewrite Hsum. exact Htotal.
Defined.

(** X22. The summary follows the retained result: a pipeline just
    constructed has none and [get_summary] fails; after a run that
    returns, the summary is that of the result returned; after a run
    that raises, the summary is what it was before the run, stale or
    still failing. *)
Theorem get_summary_follows_last_result :
  forall (RT : PyRuntime) (cell_repr : pycell -> string)
         (duration : option string),
    (forall reg cfg p,
        ValidationPipeline.init reg cfg = Ok p ->
        get_summary cell_repr p duration = inl "Pipeline has not been run yet.")
    /\
    (forall self df r,
        fst (ValidationPipeline.run self df) = Ok r ->
        get_summary cell_repr (snd (ValidationPipeline.run self df)) duration
        = inr (join newline
                 (summary_lines cell_repr
                    (ValidationPipeline.validator_specs self) r duration)))
    /\
    (forall self df e,
        fst (ValidationPipeline.run self df) = Raise e ->
        get_summary cell_repr (snd (ValidationPipeline.run self df)) duration
        = get_summary cell_repr self duration).
Proof.
  intros RT cell_repr duration. split; [|split].
  - intros reg cfg p H. unfold ValidationPipeline.init in H.
    destruct (ValidationPipeline.prepare_entries reg 0 (validations cfg) []);
      simpl in H; [|discriminate].
    now inversion H.
  - intros self df r H. unfold ValidationPipeline.run in *.
    destruct (ValidationPipeline.run_loop df
                (ValidationPipeline.validator_specs self) [] 0 0)
      as [[[results p] f]|e]; simpl in *; [|discriminate].
    now inversion H.
  - intros self df e H. unfold ValidationPipeline.run in *.
    destruct (ValidationPipeline.run_loop df
                (ValidationPipeline.validator_specs self) [] 0 0)
      as [[[results p] f]|e']; simpl in *; [discriminate|reflexivity].
Qed.

(** X22 on the test pipeline: constructed, then run on a table that
    lacks a column, it still has no summary. *)
Lemma get_summary_follows_last_result_witness :
  exists p,
    ValidationPipeline.init (RT := TestRuntime.runtime) ValidatorRegistry.builtin
      Examples.num_word_config = Ok p /\
    get_summary cell_str
      (snd (ValidationPipeline.run p
              (Examples.frame "num" (Examples.ints [5]%Z)))) None
    = inl "Pipeline has not been run yet.".
Proof.
  destruct (get_summary_follows_last_result TestRuntime.runtime cell_str None)
    as (Hinit & _ & Hraise).
  eexists. split; [reflexivity|].
  rewrite (Hraise _ _ (InvalidConfigError "Column 'word' not found in input data."));
    [|reflexivity].
  apply (Hinit ValidatorRegistry.builtin Examples.num_word_config). reflexivity.
Defined.

(** X23. Pipeline construction succeeds exactly when every entry is a
    dict holding a column and the name of a registered validator; the
    parameters play no part, so a specification built by hand with
    undeclared or mistyped parameters is accepted as it is. *)
Theorem init_succeeds_iff :
  forall (RT : PyRuntime) (reg : ValidatorRegistry.validators)
         (cfg : PipelineConfig),
    is_ok (ValidationPipeline.init reg cfg) =
    forallb (fun entry => structurally_well_formed entry
                          && negb (unresolvable reg entry)) (validations cfg)
    /\
    (forall p, ValidationPipeline.init reg cfg = Ok p ->
       length (ValidationPipeline.validator_specs p) = length (validations cfg)).
Proof.
  intros RT reg cfg. unfold ValidationPipeline.init.
  assert (H : forall specs idx acc,
             match ValidationPipeline.prepare_entries reg idx specs acc with
             | Ok prepared =>
                 forallb (fun entry => structurally_well_formed entry
                                       && negb (unresolvable reg entry)) specs = true
                 /\ length prepared = length acc + length specs
             | Raise _ =>
                 forallb (fun entry => structurally_well_formed entry
                                       && negb (unresolvable reg entry)) specs = false
             end).
  { induction specs as [|spec specs IH]; simpl; intros idx acc.
    - split; [reflexivity|lia].
    - destruct spec as [|[column|] [name|] params]; simpl; try reflexivity.
      unfold ValidatorRegistry.get_validator, dict_mem.
      destruct (dict_get reg name) as [cls|]; simpl; [|reflexivity].
      specialize (IH (S idx) (acc ++ [(column, {| v_class := cls;
                                                  v_config := match params with
                                                              | Some p => p
                                                              | None => []
                                                              end |})])%list).
      destruct (ValidationPipeline.prepare_entries reg (S idx) specs _);
        [|exact IH].
      destruct IH as (Hall & Hlen). split; [exact Hall|].
      rewrite Hlen, length_app. simpl. lia. }
  specialize (H (validations cfg) 0 []).
  destruct (ValidationPipeline.prepare_entries reg 0 (validations cfg) [])
    as [prepared|e]; simpl.
  - destruct H as (Hall & Hlen). split; [now rewrite Hall|].
    intros p Hp. inversion Hp; subst p. simpl. exact Hlen.
  - split; [now rewrite H|]. intros p Hp. discriminate Hp.
Qed.

(** X23 on a range entry with an undeclared parameter, which the
    loader refuses and the constructor accepts. *)
Lemma init_succeeds_iff_witness :
  let cfg : PipelineConfig :=
    {| validations :=
         [ EntryDict (Some "a") (Some "range")
             (Some [("bogus", @VInt TestRuntime.runtime 1)]) ] |} in
  is_ok (ValidationPipeline.init ValidatorRegistry.builtin cfg) = true /\
  is_ok (ConfigLoader.load_config ValidatorRegistry.builtin (as_document cfg))
    = false.
Proof.
  intros cfg. split; [|reflexivity].
  rewrite (proj1 (init_succeeds_iff TestRuntime.runtime ValidatorRegistry.builtin cfg)).
  reflexivity.
Defined.
